(** * runsm: the ScoreMaster service supervisor (src/runsm.go)

    A shallow embedding of the Go program.  The program is a sequence of
    operating-system calls, so the embedding is a state-and-halt monad over
    the process state, which appends every call the program makes to a
    trace.  What the operating system answers is not decided here: every
    answer comes from an oracle indexed by the trace so far, and the
    theorems quantify over all oracles.

    Time is a logical clock of nanoseconds.  It moves where the source
    waits for a stated duration or for a child: [time.Sleep], [cmd.Run] and
    the wait for a signal; every other call takes no time.

    Each goroutine is a computation of its own.  [main] records the
    goroutines it starts as [Go] events; [runPHP] and [monitorIP] are run
    separately, their loops bounded by a fuel that counts iterations.  The
    one variable two goroutines share is [shuttingDown]: the respawn loop
    reads it through [load_shuttingDown], against the instant at which the
    main goroutine stores it. *)

From Stdlib Require Import String Ascii List ZArith Bool Lia RelationClasses.
Import ListNotations.
Open Scope string_scope.
Open Scope Z_scope.

Set Implicit Arguments.

(** ** Strings *)

Infix "==" := String.eqb (at level 70, no associativity).

Definition LF : ascii := ascii_of_nat 10.
Definition nl : string := String LF EmptyString.
Definition tab : string := String (ascii_of_nat 9) EmptyString.

Fixpoint ends_with_nl (s : string) : bool :=
  match s with
  | EmptyString => false
  | String c EmptyString => Ascii.eqb c LF
  | String _ r => ends_with_nl r
  end.

(** [strings.Contains] *)
Fixpoint strings_Contains (s substr : string) : bool :=
  if prefix substr s then true
  else match s with
       | EmptyString => false
       | String _ r => strings_Contains r substr
       end.

(** [strings.Split] for a one-character separator, which is the only way
    the source calls it. *)
Fixpoint split_on (sep : ascii) (s : string) (cur : string) : list string :=
  match s with
  | EmptyString => [cur]
  | String c r =>
      if Ascii.eqb c sep then cur :: split_on sep r EmptyString
      else split_on sep r (cur ++ String c EmptyString)
  end.

Definition strings_Split (s : string) (sep : ascii) : list string :=
  split_on sep s EmptyString.

Fixpoint has_char (c : ascii) (s : string) : bool :=
  match s with
  | EmptyString => false
  | String d r => Ascii.eqb c d || has_char c r
  end.

(** [net.JoinHostPort] *)
Definition net_JoinHostPort (host port : string) : string :=
  if has_char ":" host || has_char "%" host
  then "[" ++ host ++ "]:" ++ port
  else host ++ ":" ++ port.

(** [strconv.ParseBool] *)
Definition strconv_ParseBool (s : string) : option bool :=
  if existsb (String.eqb s) ["1"; "t"; "T"; "TRUE"; "true"; "True"] then Some true
  else if existsb (String.eqb s) ["0"; "f"; "F"; "FALSE"; "false"; "False"] then Some false
  else None.

(** ** Durations: [time.Duration] is a 64-bit count of nanoseconds *)

Definition wrap64 (z : Z) : Z := (z + 2 ^ 63) mod 2 ^ 64 - 2 ^ 63.
Definition Second : Z := 1000000000.
Definition Minute : Z := 60 * Second.

(** ** Library functions and platform constants the source uses but does not
    define *)

Record GoLib := {
  GOOS : string;                               (* runtime.GOOS *)
  filepath_Dir : string -> string;
  filepath_Base : string -> string;
  strconv_ParseInt : string -> option Z;       (* base 0, int-sized *)
  strconv_ParseInt_failed : string -> Z;       (* the number beside its error *)
  fmt_Sprintf : string -> string;              (* a format with no operands *)
  flag_Usage : string                          (* the usage listing of the flag package *)
}.

(** ** The flags (lines 68-75) *)

Record Flags := {
  debug : bool;
  cdebug : bool;
  port : string;
  alternateWebPort : string;
  ipspec : string;
  spawnInterval : Z;
  nolocal : bool;
  ipWatch : bool
}.

(** The defaults are the second operands of the [flag.Bool], [flag.String]
    and [flag.Int] declarations. *)
Definition default_flags : Flags :=
  {| debug := false;
     cdebug := false;
     port := "80";
     alternateWebPort := "2015";
     ipspec := "";
     spawnInterval := 60;
     nolocal := false;
     ipWatch := false |}.

Definition set_debug (b : bool) (f : Flags) : Flags :=
  {| debug := b; cdebug := cdebug f; port := port f;
     alternateWebPort := alternateWebPort f; ipspec := ipspec f;
     spawnInterval := spawnInterval f; nolocal := nolocal f; ipWatch := ipWatch f |}.
Definition set_cdebug (b : bool) (f : Flags) : Flags :=
  {| debug := debug f; cdebug := b; port := port f;
     alternateWebPort := alternateWebPort f; ipspec := ipspec f;
     spawnInterval := spawnInterval f; nolocal := nolocal f; ipWatch := ipWatch f |}.
Definition set_port (s : string) (f : Flags) : Flags :=
  {| debug := debug f; cdebug := cdebug f; port := s;
     alternateWebPort := alternateWebPort f; ipspec := ipspec f;
     spawnInterval := spawnInterval f; nolocal := nolocal f; ipWatch := ipWatch f |}.
Definition set_alternateWebPort (s : string) (f : Flags) : Flags :=
  {| debug := debug f; cdebug := cdebug f; port := port f;
     alternateWebPort := s; ipspec := ipspec f;
     spawnInterval := spawnInterval f; nolocal := nolocal f; ipWatch := ipWatch f |}.
Definition set_ipspec (s : string) (f : Flags) : Flags :=
  {| debug := debug f; cdebug := cdebug f; port := port f;
     alternateWebPort := alternateWebPort f; ipspec := s;
     spawnInterval := spawnInterval f; nolocal := nolocal f; ipWatch := ipWatch f |}.
Definition set_spawnInterval (z : Z) (f : Flags) : Flags :=
  {| debug := debug f; cdebug := cdebug f; port := port f;
     alternateWebPort := alternateWebPort f; ipspec := ipspec f;
     spawnInterval := z; nolocal := nolocal f; ipWatch := ipWatch f |}.
Definition set_nolocal (b : bool) (f : Flags) : Flags :=
  {| debug := debug f; cdebug := cdebug f; port := port f;
     alternateWebPort := alternateWebPort f; ipspec := ipspec f;
     spawnInterval := spawnInterval f; nolocal := b; ipWatch := ipWatch f |}.
Definition set_ipWatch (b : bool) (f : Flags) : Flags :=
  {| debug := debug f; cdebug := cdebug f; port := port f;
     alternateWebPort := alternateWebPort f; ipspec := ipspec f;
     spawnInterval := spawnInterval f; nolocal := nolocal f; ipWatch := b |}.

(** ** What the process does, and what the operating system answers *)

Definition Environ := list (string * string).

Inductive ExecMode := RunWait | StartOnly.

Inductive Event :=
| Stdout (s : string)
| Stderr (s : string)
| SetWindowTitle (txt : string)
| Chdir (dir : string)
| Dial (network address : string) (connected : bool)
| ConnClose (address : string)
| Listen (address : string) (err : option string)
| ListenerClose (address : string)
| Create (path : string) (err : option string)
| WriteString (path s : string)
| FileClose (path : string)
| Setenv (key value : string)
| Exec (mode : ExecMode) (argv : list string) (env : Environ)
       (elapsed : Z) (err : option string)
| Sleep (d : Z)
| OpenURL (url : string)
| Go (goroutine : string)
| Notify
| Signal (name : string)
| Store_shuttingDown (v : bool).

(** Every event carries the reading of the logical clock at which the call
    was made. *)
Definition Trace := list (Z * Event).

Inductive DialResult :=
| DialError (err : string)
| DialOK (conn : option string).       (* the connection's local address *)

Inductive ChildBehaviour :=
| StartFails (err : string)
| ExitsAfter (lifetime : Z) (err : option string)
| RunsForever.

Record OS := {
  os_timestamp : Trace -> string;      (* time.Now().Format(...) *)
  os_utcstamp : Trace -> string;       (* time.Now().UTC().Format(...) *)
  os_dial : Trace -> string -> string -> DialResult;
  os_listen : Trace -> string -> option string;
  os_create : Trace -> string -> option string;
  os_child : Trace -> list string -> ChildBehaviour;
  os_signal : Trace -> option (Z * string);   (* delay until a signal, its name *)
  os_shutdown_at : option Z            (* when the main goroutine stores the flag *)
}.

(** ** The process state *)

Inductive CancelFunc := cancelCtx (parent : string).

Record State := {
  flags : Flags;
  phpdbg : string;
  shuttingDown : bool;
  osArgs : list string;
  environ : Environ;
  files : string -> option string;
  clock : Z;
  trace : Trace
}.

Definition with_flags (f : Flags) (st : State) : State :=
  {| flags := f; phpdbg := phpdbg st; shuttingDown := shuttingDown st;
     osArgs := osArgs st; environ := environ st; files := files st;
     clock := clock st; trace := trace st |}.
Definition with_phpdbg (s : string) (st : State) : State :=
  {| flags := flags st; phpdbg := s; shuttingDown := shuttingDown st;
     osArgs := osArgs st; environ := environ st; files := files st;
     clock := clock st; trace := trace st |}.
Definition with_shuttingDown (b : bool) (st : State) : State :=
  {| flags := flags st; phpdbg := phpdbg st; shuttingDown := b;
     osArgs := osArgs st; environ := environ st; files := files st;
     clock := clock st; trace := trace st |}.
Definition with_environ (e : Environ) (st : State) : State :=
  {| flags := flags st; phpdbg := phpdbg st; shuttingDown := shuttingDown st;
     osArgs := osArgs st; environ := e; files := files st;
     clock := clock st; trace := trace st |}.
Definition with_files (fs : string -> option string) (st : State) : State :=
  {| flags := flags st; phpdbg := phpdbg st; shuttingDown := shuttingDown st;
     osArgs := osArgs st; environ := environ st; files := fs;
     clock := clock st; trace := trace st |}.
Definition with_clock (c : Z) (st : State) : State :=
  {| flags := flags st; phpdbg := phpdbg st; shuttingDown := shuttingDown st;
     osArgs := osArgs st; environ := environ st; files := files st;
     clock := c; trace := trace st |}.
Definition with_trace (t : Trace) (st : State) : State :=
  {| flags := flags st; phpdbg := phpdbg st; shuttingDown := shuttingDown st;
     osArgs := osArgs st; environ := environ st; files := files st;
     clock := clock st; trace := t |}.

(** ** The monad: state, plus the ways a goroutine stops short of returning *)

Inductive Halt :=
| Exit (code : Z)          (* os.Exit, log.Fatal *)
| Panic (msg : string)
| Blocked                  (* waits for ever *)
| OutOfFuel.               (* the model's loop bound was reached *)

Inductive Outcome (A : Type) :=
| Ret (a : A)
| Stop (h : Halt).
Arguments Stop {A} h.

Definition M (A : Type) : Type := State -> Outcome A * State.

Definition ret {A} (a : A) : M A := fun st => (Ret a, st).

Definition bind {A B} (m : M A) (k : A -> M B) : M B :=
  fun st =>
    match m st with
    | (Ret a, st') => k a st'
    | (Stop h, st') => (Stop h, st')
    end.

Definition halt {A} (h : Halt) : M A := fun st => (Stop h, st).

Declare Scope go_scope.
Delimit Scope go_scope with go.
Notation "x <- m ; k" := (bind m (fun x => k))
  (at level 61, m at next level, right associativity) : go_scope.
Notation "m ;; k" := (bind m (fun _ => k))
  (at level 61, right associativity) : go_scope.
Open Scope go_scope.

Definition gets {A} (f : State -> A) : M A := fun st => (Ret (f st), st).
Definition modify (f : State -> State) : M unit := fun st => (Ret tt, f st).

(** Record a call, stamped with the clock. *)
Definition emit (e : Event) : M unit :=
  modify (fun st => with_trace (trace st ++ [(clock st, e)])%list st).

Definition advance (d : Z) : M unit :=
  modify (fun st => with_clock (clock st + Z.max 0 d) st).

Definition when (b : bool) (m : M unit) : M unit := if b then m else ret tt.

(** [a[i]]: an index out of range panics. *)
Definition index_or_panic (l : list string) (i : nat) : M string :=
  match nth_error l i with
  | Some x => ret x
  | None => halt (Panic "index out of range")
  end.

(** ** Constants (lines 62-81) *)

Definition myPROGTITLE : string := "ScoreMaster Server v3.3".
Definition myWINTITLE : string := "IBA ScoreMaster".
Definition cgiport : string := "127.0.0.1:9000".
Definition smCaddyFolder : string := "caddy".
Definition starturl : string := "http://localhost".

(** The variable the respawn loop exports to the interpreter. *)
Definition PHP_FCGI_MAX_REQUESTS : string := "PHP_FCGI_MAX_REQUESTS".

(** [os.Setenv]: an existing key keeps its place, a new one goes last. *)
Fixpoint setenv (k v : string) (env : Environ) : Environ :=
  match env with
  | [] => [(k, v)]
  | (k', v') :: rest =>
      if String.eqb k' k then (k, v) :: rest else (k', v') :: setenv k v rest
  end.

(** ** The flag package: [flag.Parse] over [os.Args[1:]] *)

Inductive FlagKind := BoolFlag | StringFlag | IntFlag.

(** The flags the source declares. *)
Definition formal (name : string) : option FlagKind :=
  if name == "debug" then Some BoolFlag
  else if name == "cdebug" then Some BoolFlag
  else if name == "port" then Some StringFlag
  else if name == "altport" then Some StringFlag
  else if name == "ip" then Some StringFlag
  else if name == "respawn" then Some IntFlag
  else if name == "nolocal" then Some BoolFlag
  else if name == "watch" then Some BoolFlag
  else None.

Inductive ParseResult :=
| ParseOK (fl : Flags) (actual : list string) (rest : list string)
| ParseHelp (fl : Flags)
| ParseErr (fl : Flags) (msg : string).

(** The text of [name] before its first '=' and the text after it. *)
Fixpoint cut_at_equals (s : string) : option (string * string) :=
  match s with
  | EmptyString => None
  | String c r =>
      if Ascii.eqb c "=" then Some (EmptyString, r)
      else match cut_at_equals r with
           | Some (a, b) => Some (String c a, b)
           | None => None
           end
  end.

Section FlagParse.

Variable lib : GoLib.

(** [Value.Set] of the flag called [name]. *)
Definition flag_Set (name value : string) (fl : Flags) : option Flags :=
  if name == "debug" then option_map (fun b => set_debug b fl) (strconv_ParseBool value)
  else if name == "cdebug" then option_map (fun b => set_cdebug b fl) (strconv_ParseBool value)
  else if name == "port" then Some (set_port value fl)
  else if name == "altport" then Some (set_alternateWebPort value fl)
  else if name == "ip" then Some (set_ipspec value fl)
  else if name == "respawn" then option_map (fun z => set_spawnInterval z fl) (strconv_ParseInt lib value)
  else if name == "nolocal" then option_map (fun b => set_nolocal b fl) (strconv_ParseBool value)
  else if name == "watch" then option_map (fun b => set_ipWatch b fl) (strconv_ParseBool value)
  else None.

(** [Value.Set] stores a value also when it returns an error: a boolean
    flag takes false, and an integer flag the number [strconv.ParseInt]
    returns beside its error. *)
Definition flag_Set_failed (name value : string) (fl : Flags) : Flags :=
  if name == "debug" then set_debug false fl
  else if name == "cdebug" then set_cdebug false fl
  else if name == "respawn" then set_spawnInterval (strconv_ParseInt_failed lib value) fl
  else if name == "nolocal" then set_nolocal false fl
  else if name == "watch" then set_ipWatch false fl
  else fl.

(** [FlagSet.Parse]: one [parseOne] per round. [actual] collects the names
    of the flags that were set.  The values are stored as they are
    parsed, so a command line that is rejected has still changed the
    flags before the rejected argument: [ParseHelp] and [ParseErr] carry
    the flags as they are at that point. *)
Fixpoint flag_parse (args : list string) (fl : Flags) (actual : list string)
  : ParseResult :=
  match args with
  | [] => ParseOK fl actual []
  | s :: tl =>
      match s with
      | String c0 (String c1 r1 as s1) =>
          if negb (Ascii.eqb c0 "-") then ParseOK fl actual args
          else if Ascii.eqb c1 "-" && (r1 == "") then ParseOK fl actual tl
          else
            let name0 := if Ascii.eqb c1 "-" then r1 else s1 in
            match name0 with
            | EmptyString => ParseErr fl ("bad flag syntax: " ++ s)
            | String n0 nr =>
                if Ascii.eqb n0 "-" || Ascii.eqb n0 "=" then ParseErr fl ("bad flag syntax: " ++ s)
                else
                  let '(name, value) :=
                    match cut_at_equals nr with
                    | Some (a, b) => (String n0 a, Some b)
                    | None => (name0, None)
                    end in
                  match formal name with
                  | None =>
                      if (name == "help") || (name == "h") then ParseHelp fl
                      else ParseErr fl ("flag provided but not defined: -" ++ name)
                  | Some BoolFlag =>
                      let v := match value with Some v => v | None => "true" end in
                      match flag_Set name v fl with
                      | Some fl' => flag_parse tl fl' (name :: actual)
                      | None =>
                          ParseErr (flag_Set_failed name v fl)
                            ("invalid boolean value for -" ++ name)
                      end
                  | Some _ =>
                      match value with
                      | Some v =>
                          match flag_Set name v fl with
                          | Some fl' => flag_parse tl fl' (name :: actual)
                          | None =>
                              ParseErr (flag_Set_failed name v fl)
                                ("invalid value for flag -" ++ name)
                          end
                      | None =>
                          match tl with
                          | v :: tl' =>
                              match flag_Set name v fl with
                              | Some fl' => flag_parse tl' fl' (name :: actual)
                              | None =>
                                  ParseErr (flag_Set_failed name v fl)
                                    ("invalid value for flag -" ++ name)
                              end
                          | [] => ParseErr fl ("flag needs an argument: -" ++ name)
                          end
                      end
                  end
            end
      | _ => ParseOK fl actual args
      end
  end.

End FlagParse.

(** ** The program *)

Section Program.

Variable lib : GoLib.
Variable os : OS.

(** [filepath.Join] of two clean, non-empty elements, which is how the
    source calls it. *)
Definition Separator : string := if GOOS lib == "windows" then "\" else "/".
Definition filepath_Join (a b : string) : string := a ++ Separator ++ b.

Definition phpcgi : string := filepath_Join "php" "php-cgi".

(** *** Primitives *)

Definition printf (s : string) : M unit := emit (Stdout s).
Definition println (s : string) : M unit := emit (Stdout (s ++ nl)).

(** lines 252-257 *)
Definition timestamp : M string := gets (fun st => os_timestamp os (trace st)).

(** [logWriter.Write], lines 86-88: what the log package hands over is
    printed behind a UTC time. *)
Definition logWriter_Write (bytes : string) : M unit :=
  u <- gets (fun st => os_utcstamp os (trace st));
  emit (Stdout (u ++ " " ++ bytes)).

(** The log package ends every entry with a newline. *)
Definition log_Print (s : string) : M unit :=
  logWriter_Write (if ends_with_nl s then s else s ++ nl).

Definition log_Fatal {A} (s : string) : M A :=
  log_Print s;; halt (Exit 1).

Definition os_Exit {A} (code : Z) : M A := halt (Exit code).

Definition time_Sleep (d : Z) : M unit := emit (Sleep d);; advance d.

Definition os_Setenv (k v : string) : M unit :=
  modify (fun st => with_environ (setenv k v (environ st)) st);;
  emit (Setenv k v).

Definition net_Dial (network address : string) : M DialResult :=
  r <- gets (fun st => os_dial os (trace st) network address);
  emit (Dial network address
          match r with DialOK (Some _) => true | _ => false end);;
  ret r.

Definition net_Listen (address : string) : M (option string) :=
  r <- gets (fun st => os_listen os (trace st) address);
  emit (Listen address r);;
  ret r.

(** [os.Create]: the file is truncated when it can be opened. *)
Definition os_Create (path : string) : M (option string) :=
  r <- gets (fun st => os_create os (trace st) path);
  emit (Create path r);;
  match r with
  | None =>
      modify (fun st =>
        with_files (fun p => if p == path then Some EmptyString else files st p) st);;
      ret None
  | Some e => ret (Some e)
  end.

(** [f.WriteString(s)] on the file created at [path]. *)
Definition WriteString_ (path s : string) : M unit :=
  emit (WriteString path s);;
  modify (fun st =>
    with_files (fun p =>
      if p == path
      then Some (match files st path with Some old => old | None => EmptyString end ++ s)
      else files st p) st).

(** [cmd.Start()]: the child is launched and not waited for. [env] is
    [cmd.Env], the process environment when the source leaves it unset. *)
Definition cmd_Start (argv : list string) (env : option Environ) : M (option string) :=
  b <- gets (fun st => os_child os (trace st) argv);
  e <- gets (fun st => match env with Some e => e | None => environ st end);
  let err := match b with StartFails msg => Some msg | _ => None end in
  emit (Exec StartOnly argv e 0 err);;
  ret err.

(** [exec.CommandContext(ctx, ...).Run()]: the child is launched and waited
    for; a context with a deadline kills it when the deadline passes, and a
    context that is already past its deadline launches nothing.  Without a
    deadline, a child that never exits keeps [Run] waiting for ever. *)
Definition cmd_Run (timeout : option Z) (argv : list string) : M (option string) :=
  b <- gets (fun st => os_child os (trace st) argv);
  e <- gets environ;
  match timeout with
  | Some d =>
      if d <=? 0 then
        emit (Exec RunWait argv e 0 (Some "context deadline exceeded"));;
        ret (Some "context deadline exceeded")
      else
        match b with
        | StartFails msg =>
            emit (Exec RunWait argv e 0 (Some msg));; ret (Some msg)
        | ExitsAfter t err =>
            if Z.max 0 t <? d
            then emit (Exec RunWait argv e (Z.max 0 t) err);; advance t;; ret err
            else emit (Exec RunWait argv e d (Some "signal: killed"));;
                 advance d;; ret (Some "signal: killed")
        | RunsForever =>
            emit (Exec RunWait argv e d (Some "signal: killed"));;
            advance d;; ret (Some "signal: killed")
        end
  | None =>
      match b with
      | StartFails msg =>
          emit (Exec RunWait argv e 0 (Some msg));; ret (Some msg)
      | ExitsAfter t err =>
          emit (Exec RunWait argv e (Z.max 0 t) err);; advance t;; ret err
      | RunsForever => halt Blocked
      end
  end.

(** The respawn loop reads the flag the main goroutine stores: it is set
    when this state has it set, or when the main goroutine has stored it
    by now. *)
Definition load_shuttingDown : M bool :=
  gets (fun st =>
    shuttingDown st ||
    match os_shutdown_at os with
    | Some T => T <=? clock st
    | None => false
    end).

(** windowtitle_windows.go *)
Definition setMyWindowTitle (txt : string) : M unit := emit (SetWindowTitle txt).

(** *** init, lines 90-116 *)
Definition init : M unit :=
  let os_ := GOOS lib in
  if os_ == "darwin" then
    modify (with_phpdbg "/usr/bin/php");; setMyWindowTitle myWINTITLE
  else if os_ == "linux" then
    modify (with_phpdbg "/usr/bin/php");; setMyWindowTitle myWINTITLE
  else if os_ == "windows" then
    modify (with_phpdbg "\php\php");; setMyWindowTitle myWINTITLE
  else ret tt.

(** *** setupRun, lines 359-371 *)
Definition setupRun : M unit :=
  args <- gets osArgs;
  a0 <- index_or_panic args 0;
  let dir := filepath_Dir lib a0 in
  emit (Chdir dir);;
  fl <- gets flags;
  match flag_parse lib (tl args) fl [] with
  | ParseOK fl' _ _ =>
      modify (with_flags fl');;
      if negb (debug fl') && (GOOS lib == "windows") then
        a0' <- index_or_panic args 0;
        let filename := filepath_Base lib a0' in
        modify (fun st =>
          with_flags (set_debug (strings_Contains filename "debug") (flags st)) st)
      else ret tt
  | ParseHelp fl' =>
      modify (with_flags fl');;
      emit (Stderr (flag_Usage lib));; os_Exit 0
  | ParseErr fl' msg =>
      modify (with_flags fl');;
      emit (Stderr (msg ++ nl ++ flag_Usage lib));; os_Exit 2
  end.

(** *** rawPortAvail, lines 373-385 *)
Definition rawPortAvail (port : string) : M bool :=
  let address := net_JoinHostPort "localhost" port in
  r <- net_Dial "tcp" address;
  match r with
  | DialError _ => ret true
  | DialOK (Some _) => emit (ConnClose address);; ret false
  | DialOK None => ret true
  end.

(** *** testWebPort, lines 387-402 *)
Definition testWebPort (port : string) : M bool :=
  r <- net_Listen (":" ++ port);
  match r with
  | Some err =>
      ts <- timestamp;
      printf (ts ++ " port " ++ port ++ " NOT AVAILABLE: " ++ err ++ nl);;
      ret false
  | None =>
      emit (ListenerClose (":" ++ port));;
      ts <- timestamp;
      printf (ts ++ " port " ++ port ++ " available" ++ nl);;
      ret true
  end.

(** *** getOutboundIP, lines 233-250 *)
Definition getOutboundIP : M string :=
  r <- net_Dial "udp" "8.8.8.8:80";
  match r with
  | DialError err => log_Print err;; ret "127.0.0.1"
  | DialOK None => halt (Panic "nil pointer dereference")
  | DialOK (Some localAddr) => emit (ConnClose "8.8.8.8:80");; ret localAddr
  end.

(** *** monitorIP, lines 180-191 *)
Fixpoint monitorIP (fuel : nat) (serverIP : string) : M unit :=
  match fuel with
  | O => halt OutOfFuel
  | S n =>
      time_Sleep (1 * Minute);;
      myIP <- getOutboundIP;
      if negb (myIP == serverIP) then
        ts <- timestamp;
        printf (ts ++ " IPv4 = " ++ myIP ++ nl);;
        monitorIP n myIP
      else monitorIP n serverIP
  end.

(** *** showInvite, lines 193-204 *)
Definition showInvite : M unit :=
  sp <- gets (fun st => ipspec (flags st));
  let mystarturl := if negb (sp == "") then "http://" ++ sp else starturl in
  time_Sleep (5 * Second);;
  ts <- timestamp;
  p <- gets (fun st => port (flags st));
  println (ts ++ " presenting " ++ mystarturl ++ ":" ++ p);;
  p' <- gets (fun st => port (flags st));
  emit (OpenURL (mystarturl ++ ":" ++ p')).

(** *** debugPHP, lines 206-221 *)
Definition debugPHP : M unit :=
  dbg <- gets phpdbg;
  if dbg == "" then ret tt
  else
    ts <- timestamp;
    println (ts ++ " debugging PHP");;
    p <- gets (fun st => port (flags st));
    env <- gets environ;
    err <- cmd_Start
             ["cmd"; "/C"; "start"; "/min"; dbg; "-S"; "127.0.0.1:" ++ p;
              "-t"; "sm"; "-c"; filepath_Join "php" "php.ini"]
             (Some (env ++ [(PHP_FCGI_MAX_REQUESTS, "0")])%list);
    match err with
    | Some e => log_Fatal e
    | None => ret tt
    end.

(** *** execPHP, lines 223-231 *)
Definition execPHP : M unit :=
  n <- gets (fun st => spawnInterval (flags st));
  let timeout := wrap64 (n * Minute) in
  err <- cmd_Run (Some timeout) [phpcgi; "-b"; cgiport];
  match err with
  | Some e => log_Print ("PHP " ++ e ++ nl)
  | None => ret tt
  end.

(** *** runPHP, lines 259-274; the loop of lines 268-272 is [runPHP_loop] *)
Fixpoint runPHP_loop (fuel : nat) (x : string) : M unit :=
  match fuel with
  | O =>
      sd <- load_shuttingDown;
      if sd then ret tt else halt OutOfFuel
  | S n =>
      sd <- load_shuttingDown;
      if sd then ret tt
      else
        ts <- timestamp;
        printf (ts ++ " " ++ x ++ " PHP" ++ nl);;
        execPHP;;
        runPHP_loop n "respawning"
  end.

Definition runPHP (fuel : nat) : M unit :=
  let cgi := strings_Split cgiport ":" in
  p <- index_or_panic cgi 1;
  avail <- rawPortAvail p;
  if negb avail then
    ts <- timestamp;
    p' <- index_or_panic cgi 1;
    println (ts ++ " PHP [" ++ p' ++ "] already listening")
  else
    os_Setenv PHP_FCGI_MAX_REQUESTS "0";;
    runPHP_loop fuel "spawning".

(** *** runCaddy, lines 276-324

    The function is cut where the source does: [runCaddy_probe] is the
    port check of lines 279-291 and answers [false] where the source
    returns nil; [runCaddy_serve] is lines 292-322, which write the
    configuration and start the webserver. *)
Definition runCaddy_probe : M bool :=
  sp <- gets (fun st => ipspec (flags st));
  if sp == "*" then
    p <- gets (fun st => port (flags st));
    avail <- rawPortAvail p;
    if negb avail then
      ts <- timestamp;
      p1 <- gets (fun st => port (flags st));
      println (ts ++ " service port " ++ p1 ++ " already served");;
      ret false
    else
      p2 <- gets (fun st => port (flags st));
      ok <- testWebPort p2;
      (if negb ok then
         p3 <- gets (fun st => port (flags st));
         alt <- gets (fun st => alternateWebPort (flags st));
         ok' <- (if negb (p3 == alt) then testWebPort alt else ret false);
         if ok' then
           alt' <- gets (fun st => alternateWebPort (flags st));
           modify (fun st => with_flags (set_port alt' (flags st)) st)
         else
           ts <- timestamp;
           p4 <- gets (fun st => port (flags st));
           println (ts ++ " switching to alternate port " ++ p4)
       else ret tt);;
      ret true
  else ret true.

Definition caddyfile_path : string := filepath_Join smCaddyFolder "caddyfile".

Definition runCaddy_serve : M (option CancelFunc) :=
  ts <- timestamp;
  sp1 <- gets (fun st => ipspec (flags st));
  p5 <- gets (fun st => port (flags st));
  printf (fmt_Sprintf lib (ts ++ " serving on " ++ sp1 ++ ":" ++ p5 ++ nl));;
  (* Create the conf file *)
  let cp := caddyfile_path in
  let ep := filepath_Join smCaddyFolder "error.log" in
  err <- os_Create cp;
  match err with
  | Some e => log_Fatal e
  | None =>
      p6 <- gets (fun st => port (flags st));
      WriteString_ cp ("{" ++ nl ++ "http_port " ++ p6 ++ nl);;
      cd <- gets (fun st => cdebug (flags st));
      when cd
        (WriteString_ cp ("debug" ++ nl);;
         WriteString_ cp ("log {" ++ nl ++ "output file " ++ ep ++ nl ++ "}" ++ nl));;
      WriteString_ cp ("}" ++ nl);;
      sp2 <- gets (fun st => ipspec (flags st));
      p7 <- gets (fun st => port (flags st));
      WriteString_ cp (sp2 ++ ":" ++ p7 ++ nl);;
      WriteString_ cp ("file_server" ++ nl);;
      WriteString_ cp ("root sm" ++ nl);;
      WriteString_ cp ("php_fastcgi " ++ cgiport ++ nl);;
      emit (FileClose cp);;
      (* Now run Caddy *)
      let cancel := cancelCtx "Background" in
      let fp := filepath_Join smCaddyFolder "caddy" in
      err' <- cmd_Run None [fp; "start"; "--config"; cp; "--adapter"; "caddyfile"];
      match err' with
      | Some e =>
          log_Print ("Unable to launch Caddy, is it already running?" ++ nl);;
          log_Fatal e
      | None => ret (Some cancel)
      end
  end.

Definition runCaddy : M (option CancelFunc) :=
  probe <- runCaddy_probe;
  if negb probe then ret None else runCaddy_serve.

(** *** runEBCFetch, lines 326-345 *)
Definition runEBCFetch : M (option CancelFunc) :=
  let cancel := cancelCtx "TODO" in
  let fp := filepath_Join smCaddyFolder "ebcfetch" in
  ts <- timestamp;
  printf (ts ++ " spawning " ++ fp ++ nl);;
  err <- cmd_Start [fp] None;
  match err with
  | Some e =>
      ts1 <- timestamp;
      printf (ts1 ++ " " ++ fp ++ " unspawned " ++ e ++ " " ++ nl);;
      log_Fatal e
  | None =>
      ts2 <- timestamp;
      printf (ts2 ++ " " ++ fp ++ " spawned" ++ nl);;
      ret (Some cancel)
  end.

(** *** killCaddy, lines 347-353 *)
Definition killCaddy : M unit :=
  let fp := filepath_Join smCaddyFolder "caddy" in
  _ <- cmd_Start [fp; "stop"] None;
  ret tt.

(** *** killEBCFetch, lines 355-357 *)
Definition killEBCFetch : M unit := ret tt.

(** *** main, lines 118-178

    [main] is cut at its two waiting points: [banner] is lines 124-125,
    [launch] is lines 129-154, up to the wait for a signal; [await_signal]
    is lines 157-167; [shutdown] is lines 168-177.  The goroutines [main]
    starts are recorded as [Go] events and run as separate computations
    ([runPHP], [monitorIP]). *)

Definition banner : M unit :=
  printf (nl ++ "Iron Butt Association UK" ++ tab ++ tab ++ "webmaster@ironbutt.co.uk" ++ nl);;
  printf (nl ++ myPROGTITLE ++ nl ++ nl).

Definition launch : M (option CancelFunc * option CancelFunc) :=
  watch <- gets (fun st => ipWatch (flags st));
  serverIP <-
    (if watch then
       ip <- getOutboundIP;
       ts <- timestamp;
       printf (ts ++ " IPv4 = " ++ ip ++ nl);;
       ret ip
     else ret "<nil>");
  dbg <- gets (fun st => debug (flags st));
  path <- gets phpdbg;
  cancelCaddy <-
    (if dbg && negb (path == "") then
       debugPHP;; ret None
     else
       c <- runCaddy;
       emit (Go "runPHP");;
       ret c);
  cancelEBCFetch <- runEBCFetch;
  nl_ <- gets (fun st => nolocal (flags st));
  when (negb nl_) showInvite;;
  dbg' <- gets (fun st => debug (flags st));
  if dbg' then
    ts <- timestamp;
    printf (ts ++ " quitting" ++ nl ++ nl);;
    os_Exit 0
  else
    watch' <- gets (fun st => ipWatch (flags st));
    when watch' (emit (Go ("monitorIP " ++ serverIP)));;
    ret (cancelCaddy, cancelEBCFetch).

Definition await_signal : M unit :=
  emit Notify;;
  s <- gets (fun st => os_signal os (trace st));
  match s with
  | None => halt Blocked
  | Some (delay, sig) =>
      advance delay;;
      emit (Signal sig);;
      ts <- timestamp;
      printf (ts ++ nl);;
      ts1 <- timestamp;
      printf (ts1 ++ " " ++ sig ++ nl);;
      ts2 <- timestamp;
      printf (ts2 ++ nl)
  end.

Definition shutdown (cancelCaddy cancelEBCFetch : option CancelFunc) : M unit :=
  modify (with_shuttingDown true);;
  emit (Store_shuttingDown true);;
  match cancelCaddy with
  | Some _ =>
      ts <- timestamp;
      printf (ts ++ " ending Caddy" ++ nl);;
      killCaddy
  | None => ret tt
  end;;
  match cancelEBCFetch with
  | Some _ =>
      ts <- timestamp;
      printf (ts ++ " ending EBCFetch" ++ nl);;
      killEBCFetch
  | None => ret tt
  end;;
  ts <- timestamp;
  printf (ts ++ " quitting" ++ nl).

Definition main : M unit :=
  banner;;
  setupRun;;
  handles <- launch;
  await_signal;;
  shutdown (fst handles) (snd handles).

(** The process from its start: package initialisation, then [main]. *)
Definition program : M unit := init;; main.

End Program.

(** The state the process starts in: the flags at their declared defaults,
    [phpdbg] empty (line 66), [shuttingDown] false (line 81). *)
Definition initial_state (args : list string) (env : Environ) : State :=
  {| flags := default_flags; phpdbg := ""; shuttingDown := false;
     osArgs := args; environ := env; files := fun _ => None;
     clock := 0; trace := [] |}.

(** * Vocabulary of the statements *)

(** ** Relations between the state a computation starts in and the state
    it stops in *)

(** [m] relates the two, however it stops. *)
Definition keeps (R : State -> State -> Prop) {A} (m : M A) : Prop :=
  forall st, R st (snd (m st)).

Definition same_flags (st st' : State) : Prop := flags st' = flags st.
Definition same_environ (st st' : State) : Prop := environ st' = environ st.
Definition same_files (st st' : State) : Prop := files st' = files st.

(** All flags but [port] are as they were. *)
Definition same_flags_but_port (st st' : State) : Prop :=
  flags st' = set_port (port (flags st')) (flags st).

(** The port flag is as it was, or it now holds the alternate port, which
    takes the wildcard address and two different ports. *)
Definition port_fallback (st st' : State) : Prop :=
  flags st' = flags st \/
  (flags st' = set_port (alternateWebPort (flags st)) (flags st) /\
   port (flags st) <> alternateWebPort (flags st) /\
   ipspec (flags st) = "*").

(** Only the trace differs. *)
Definition only_trace (st st' : State) : Prop :=
  exists evs, st' = with_trace (trace st ++ evs)%list st.

(** The events of a trace that [f] picks out. *)
Definition select (f : Event -> bool) (evs : Trace) : list Event :=
  filter f (map snd evs).

(** The trace grows, by no event that [f] picks out. *)
Definition quiet (f : Event -> bool) (st st' : State) : Prop :=
  exists evs, trace st' = (trace st ++ evs)%list /\ select f evs = [].

Definition is_write (e : Event) : bool :=
  match e with WriteString _ _ => true | _ => false end.
Definition is_listen (e : Event) : bool :=
  match e with Listen _ _ => true | _ => false end.
Definition is_exec (e : Event) : bool :=
  match e with Exec _ _ _ _ _ => true | _ => false end.

(** ** The configuration file *)

(** The text [runCaddy_serve] writes, as one string. *)
Definition caddyfile (lib : GoLib) (cd : bool) (sp p : string) : string :=
  "{" ++ nl ++ "http_port " ++ p ++ nl ++
  (if cd
   then "debug" ++ nl ++
        "log {" ++ nl ++ "output file " ++ filepath_Join lib smCaddyFolder "error.log" ++ nl ++ "}" ++ nl
   else "") ++
  "}" ++ nl ++
  sp ++ ":" ++ p ++ nl ++
  "file_server" ++ nl ++
  "root sm" ++ nl ++
  "php_fastcgi " ++ cgiport ++ nl.

(** The last line of a text that ends in a newline. *)
Fixpoint take_line (l : list ascii) : list ascii :=
  match l with
  | [] => []
  | c :: r => if Ascii.eqb c LF then [] else c :: take_line r
  end.

Definition final_line (s : string) : option string :=
  match rev (list_ascii_of_string s) with
  | c :: r =>
      if Ascii.eqb c LF then Some (string_of_list_ascii (rev (take_line r)))
      else None
  | [] => None
  end.

(** What a run [r] of [runCaddy] from [st] leaves behind when it serves on
    port [p]: the flag holds [p], and the configuration file holds the text
    for [p].  The one exception is that [os.Create] failed: the operating
    system refused the file when it was asked, which is in the trace, and
    then the run is fatal and no file has changed. *)
Definition serves_on (lib : GoLib) (os : OS) (st : State)
    (r : Outcome (option CancelFunc) * State) (p : string) : Prop :=
  port (flags (snd r)) = p /\
  ((exists evs log t e,
      trace (snd r) =
        (trace st ++ evs ++ (t, Create (caddyfile_path lib) (Some e)) :: log)%list /\
      os_create os (trace st ++ evs)%list (caddyfile_path lib) = Some e /\
      fst r = Stop (Exit 1) /\ files (snd r) = files st) \/
   files (snd r) (caddyfile_path lib) =
     Some (caddyfile lib (cdebug (flags st)) (ipspec (flags st)) p)).

(** ** The respawn loop *)

(** The command line of the interpreter (line 227). *)
Definition php_argv (lib : GoLib) : list string := [phpcgi lib; "-b"; cgiport].

(** The deadline [execPHP] gives a launch (line 225). *)
Definition interval (st : State) : Z := wrap64 (spawnInterval (flags st) * Minute).

(** How long [cmd.Run] waits under a deadline [d] for a child that behaves
    as [b]. *)
Definition run_elapsed (d : Z) (b : ChildBehaviour) : Z :=
  if d <=? 0 then 0
  else match b with
       | StartFails _ => 0
       | ExitsAfter t _ => if Z.max 0 t <? d then Z.max 0 t else d
       | RunsForever => d
       end.

(** The child is still running when the deadline [d] passes. *)
Definition outlives (d : Z) (b : ChildBehaviour) : bool :=
  match b with
  | StartFails _ => false
  | ExitsAfter t _ => d <=? Z.max 0 t
  | RunsForever => true
  end.

(** What [load_shuttingDown] reads once the clock shows [t], in a state
    whose own flag is [sd]. *)
Definition flag_at (os : OS) (sd : bool) (t : Z) : bool :=
  sd ||
  match os_shutdown_at os with
  | Some T => T <=? t
  | None => false
  end.

(** The clock readings of the launches in a trace. *)
Definition launch_times (evs : Trace) : list Z :=
  map fst (filter (fun e => is_exec (snd e)) evs).

(** Each launch starts no earlier than the one before and at most [d]
    after it. *)
Fixpoint gaps_within (d : Z) (ts : list Z) : Prop :=
  match ts with
  | t :: (t' :: _) as rest => 0 <= t' - t <= d /\ gaps_within d rest
  | _ => True
  end.

(** [n] instants, [d] apart, from [c] on. *)
Fixpoint every (d : Z) (c : Z) (n : nat) : list Z :=
  match n with
  | O => []
  | S k => c :: every d (c + d) k
  end.

(** The number of instants of [ts] in the window from [lo] up to, and not
    including, [hi]. *)
Definition count_in (lo hi : Z) (ts : list Z) : nat :=
  List.length (filter (fun t => (lo <=? t) && (t <? hi)) ts).

(** The environment a launch hands to the child. *)
Definition exec_envs (evs : Trace) : list Environ :=
  flat_map (fun e => match snd e with
                     | Exec _ _ env _ _ => [env]
                     | _ => []
                     end) evs.

(** Exactly one launch in every whole interval of length [d] between
    [c0] and [c_end]. *)
Definition one_launch_per_interval (d c0 c_end : Z) (ts : list Z) : Prop :=
  forall k : nat,
    c0 + (Z.of_nat k + 1) * d <= c_end ->
    count_in (c0 + Z.of_nat k * d) (c0 + (Z.of_nat k + 1) * d) ts = 1%nat.

(** ** Concrete platforms, operating systems and states for the examples *)

Fixpoint digits (s : string) (acc : Z) : option Z :=
  match s with
  | EmptyString => Some acc
  | String c r =>
      let n := Z.of_nat (nat_of_ascii c) in
      if (48 <=? n) && (n <=? 57) then digits r (10 * acc + (n - 48)) else None
  end.

(** Decimal numerals, which is all the examples pass to [-respawn]. *)
Definition parse_decimal (s : string) : option Z :=
  match s with
  | EmptyString => None
  | String "-" r => if r == "" then None else option_map Z.opp (digits r 0)
  | _ => digits s 0
  end.

(** The text after the last [sep] of a path. *)
Fixpoint last_element (sep : ascii) (s cur : string) : string :=
  match s with
  | EmptyString => cur
  | String c r =>
      if Ascii.eqb c sep then last_element sep r EmptyString
      else last_element sep r (cur ++ String c EmptyString)
  end.

Definition example_lib (goos : string) : GoLib :=
  {| GOOS := goos;
     filepath_Dir := fun _ => ".";
     filepath_Base :=
       fun s => last_element (if goos == "windows" then "\" else "/")%char s EmptyString;
     strconv_ParseInt := parse_decimal;
     strconv_ParseInt_failed := fun _ => 0;
     fmt_Sprintf := fun s => s;
     flag_Usage := "Usage of runsm:" |}.

(** An operating system on which the addresses in [answering] accept a
    connection, the addresses in [refused] cannot be listened on, files
    can be created, children behave as [child] says, a signal arrives as
    [sig] says and the main goroutine stores the flag at [T]. *)
Definition example_os (answering refused : list string)
    (child : list string -> ChildBehaviour)
    (sig : option (Z * string)) (T : option Z) : OS :=
  {| os_timestamp := fun _ => "2022-11-24 10:00:00";
     os_utcstamp := fun _ => "2022-11-24 10:00:00";
     os_dial := fun _ _ address =>
       if existsb (String.eqb address) answering then DialOK (Some "127.0.0.1")
       else DialError "connection refused";
     os_listen := fun _ address =>
       if existsb (String.eqb address) refused then Some "bind: permission denied"
       else None;
     os_create := fun _ _ => None;
     os_child := fun _ argv => child argv;
     os_signal := fun _ => sig;
     os_shutdown_at := T |}.

(** [caddy start] returns once the server is up; every other child keeps
    running. *)
Definition healthy_children (argv : list string) : ChildBehaviour :=
  match argv with
  | _ :: "start" :: _ => ExitsAfter 0 None
  | _ => RunsForever
  end.

(** The interpreter exits by itself half an hour after every launch. *)
Definition crashing_php (argv : list string) : ChildBehaviour :=
  match argv with
  | _ :: "-b" :: _ => ExitsAfter (30 * Minute) (Some "exit status 255")
  | _ => healthy_children argv
  end.

Definition linux : GoLib := example_lib "linux".
Definition windows : GoLib := example_lib "windows".
Definition freebsd : GoLib := example_lib "freebsd".

(** Nothing listens, every port can be bound. *)
Definition os_free : OS :=
  example_os [] [] healthy_children (Some (90 * Minute, "interrupt")) (Some (90 * Minute)).
(** Port 80 is for root only. *)
Definition os_privileged : OS :=
  example_os [] [":80"] healthy_children (Some (90 * Minute, "interrupt")) (Some (90 * Minute)).
(** Another interpreter already listens on port 9000. *)
Definition os_occupied : OS :=
  example_os ["localhost:9000"] [] healthy_children None None.
Definition os_crashing : OS :=
  example_os [] [] crashing_php None None.

(** The state after flag parsing with [-ip *]. *)
Definition st_wildcard : State :=
  with_flags (set_ipspec "*" default_flags) (initial_state ["runsm"; "-ip"; "*"] []).
(** The same with [-port 2015], the alternate port. *)
Definition st_equal_ports : State :=
  with_flags (set_port "2015" (set_ipspec "*" default_flags))
    (initial_state ["runsm"; "-ip"; "*"; "-port"; "2015"] []).
Definition st_default : State := initial_state ["runsm"] [].

(** ** The environment of the children *)

(** The process environment is untouched, and every child launched in
    between was handed exactly that environment. *)
Definition inherits (st st' : State) : Prop :=
  environ st' = environ st /\
  exists evs, trace st' = (trace st ++ evs)%list /\
              Forall (eq (environ st)) (exec_envs evs).

Definition crashing_run : Outcome unit * State :=
  runPHP_loop linux os_crashing 4 "spawning" st_default.

(** ** Shutdown *)

(** The steps of the shutdown: the store to the flag, and the webserver's
    stop command. *)
Definition is_shutdown_step (e : Event) : bool :=
  match e with
  | Store_shuttingDown _ => true
  | Exec _ [_; verb] _ _ _ => verb == "stop"
  | _ => false
  end.



(** ** Debug mode *)

(** The same state with the interpreter-debug flag set, and cleared. *)
Definition debug_on (st : State) : State := with_flags (set_debug true (flags st)) st.

(** [m] runs the same whether or not the flag is set. *)
Definition debug_blind {A} (m : M A) : Prop :=
  forall st, m (debug_on st) = (fst (m st), debug_on (snd (m st))).

Definition same_phpdbg (st st' : State) : Prop := phpdbg st' = phpdbg st.

(** ** The flags after parsing *)

(** Every flag whose name is not in [actual] has in [fl] the value it has
    in [fl0]. *)
Definition unchanged_unless (actual : list string) (fl0 fl : Flags) : Prop :=
  (~ In "debug" actual -> debug fl = debug fl0) /\
  (~ In "cdebug" actual -> cdebug fl = cdebug fl0) /\
  (~ In "port" actual -> port fl = port fl0) /\
  (~ In "altport" actual -> alternateWebPort fl = alternateWebPort fl0) /\
  (~ In "ip" actual -> ipspec fl = ipspec fl0) /\
  (~ In "respawn" actual -> spawnInterval fl = spawnInterval fl0) /\
  (~ In "nolocal" actual -> nolocal fl = nolocal fl0) /\
  (~ In "watch" actual -> ipWatch fl = ipWatch fl0).

(** States and runs of the examples. *)
Definition st_debug_no_path : State :=
  with_flags (set_debug true default_flags) (initial_state ["runsm"; "-debug"] []).

Definition args_nolocal : list string := ["runsm"; "-nolocal"].
Definition st_boot : State := initial_state args_nolocal [].
Definition st_parsed : State := snd ((banner;; setupRun linux) st_boot).
Definition st_waiting : State := snd (launch linux os_free st_parsed).

(** ** How a computation may stop *)

(** Whenever [m] stops instead of returning, it stops as [P] allows. *)
Definition stops_only (P : Halt -> Prop) {A} (m : M A) : Prop :=
  forall st h, fst (m st) = Stop h -> P h.

Definition never : Halt -> Prop := fun _ => False.
Definition fatal : Halt -> Prop := fun h => h = Exit 1.
Definition fatal_or_blocked : Halt -> Prop := fun h => h = Exit 1 \/ h = Blocked.
Definition nil_dereference : Halt -> Prop :=
  fun h => h = Panic "nil pointer dereference".
Definition out_of_fuel : Halt -> Prop := fun h => h = OutOfFuel.

(** ** Sockets and files *)

Fixpoint remove_first (a : string) (l : list string) : list string :=
  match l with
  | [] => []
  | x :: r => if x == a then r else x :: remove_first a r
  end.

(** The connections, listeners and files that are open after the events
    [evs], when [open] were open before them. *)
Fixpoint open_after (evs : list Event) (open : list string) : list string :=
  match evs with
  | [] => open
  | e :: r =>
      open_after r
        match e with
        | Dial _ a true => a :: open
        | Listen a None => a :: open
        | Create p None => p :: open
        | ConnClose a => remove_first a open
        | ListenerClose a => remove_first a open
        | FileClose p => remove_first p open
        | _ => open
        end
  end.

(** The trace grows, and whatever was opened in between is closed again. *)
Definition releases (st st' : State) : Prop :=
  exists evs, trace st' = (trace st ++ evs)%list /\
              forall open, open_after (map snd evs) open = open.

Definition is_probe (e : Event) : bool :=
  match e with
  | Dial _ _ _ => true
  | Listen _ _ => true
  | _ => false
  end.

Definition is_stdout (e : Event) : bool :=
  match e with Stdout _ => true | _ => false end.
Definition is_sleep (e : Event) : bool :=
  match e with Sleep _ => true | _ => false end.
Definition is_openurl (e : Event) : bool :=
  match e with OpenURL _ => true | _ => false end.
Definition never_picked (e : Event) : bool := false.

(** What the watch of the outbound address does: the lookup, and the
    goroutine that repeats it. *)
Definition is_watch (e : Event) : bool :=
  match e with
  | Dial network _ _ => network == "udp"
  | Go name => prefix "monitorIP" name
  | _ => false
  end.

(** What the production path of [launch] does and its debug path does
    not: the webserver's configuration, the webserver and the
    goroutines. *)
Definition is_serving (e : Event) : bool :=
  match e with
  | Create _ _ => true
  | WriteString _ _ => true
  | Listen _ _ => true
  | Exec RunWait _ _ _ _ => true
  | Go _ => true
  | _ => false
  end.

(** The command line of [debugPHP] (lines 212-213). *)
Definition debug_argv (lib : GoLib) (st : State) : list string :=
  ["cmd"; "/C"; "start"; "/min"; phpdbg st; "-S"; "127.0.0.1:" ++ port (flags st);
   "-t"; "sm"; "-c"; filepath_Join lib "php" "php.ini"].

(** The address [showInvite] opens (lines 194-203). *)
Definition invite_url (st : State) : string :=
  (if ipspec (flags st) == "" then starturl else "http://" ++ ipspec (flags st))
  ++ ":" ++ port (flags st).

(** [m] never returns: it stops, in one way or another. *)
Definition no_return {A} (m : M A) : Prop := forall st a, fst (m st) <> Ret a.

Definition exit_or_nil : Halt -> Prop :=
  fun h => h = Exit 0 \/ h = Exit 1 \/ h = Panic "nil pointer dereference".

Definition not_exit_0 : Halt -> Prop := fun h => h <> Exit 0.
Definition exit_0 : Halt -> Prop := fun h => h = Exit 0.

Definition is_signal (e : Event) : bool :=
  match e with Signal _ => true | _ => false end.
Definition not_stdout (e : Event) : bool := negb (is_stdout e).

(** What the command line parser makes the process do when it does not
    accept the command line: the exit status, the text on standard error,
    and the flags as the arguments before the rejected one have left
    them. *)
Definition rejection (lib : GoLib) (r : ParseResult) : option (Z * string * Flags) :=
  match r with
  | ParseOK _ _ _ => None
  | ParseHelp fl => Some (0, flag_Usage lib, fl)
  | ParseErr fl msg => Some (2, msg ++ nl ++ flag_Usage lib, fl)
  end.

(** A launch that ran into a deadline already passed: nothing was
    started, and no time went by. *)
Definition is_expired (e : Event) : bool :=
  match e with
  | Exec RunWait _ _ elapsed (Some err) =>
      (elapsed =? 0) && (err == "context deadline exceeded")
  | _ => false
  end.

(** The platforms [init] knows. *)
Definition known_platform (lib : GoLib) : bool :=
  (GOOS lib == "darwin") || (GOOS lib == "linux") || (GOOS lib == "windows").

(** The process ends with exit status 0, 1 or 2, if it ends by an exit. *)
Definition exit_status_012 : Halt -> Prop :=
  fun h => match h with
           | Exit code => code = 0 \/ code = 1 \/ code = 2
           | _ => True
           end.
Definition not_exit_2 : Halt -> Prop := fun h => h <> Exit 2.

Definition is_go (e : Event) : bool :=
  match e with Go _ => true | _ => false end.

(** ** Further operating systems and states for the examples *)

(** Something already answers on port 80. *)
Definition os_served : OS :=
  example_os ["localhost:80"] [] healthy_children None None.
(** Every lookup of the outbound address answers the same. *)
Definition os_stable : OS :=
  example_os ["8.8.8.8:80"] [] healthy_children None None.
(** The state after [init] on linux and the parsing of [-debug]. *)
Definition st_debug_linux : State := with_phpdbg "/usr/bin/php" st_debug_no_path.
(** The state after the parsing of [-respawn 0]. *)
Definition st_no_interval : State :=
  with_flags (set_spawnInterval 0 default_flags) (initial_state ["runsm"; "-respawn"; "0"] []).
(** The fetch utility is missing; every other child is healthy. *)
Definition fetch_missing (argv : list string) : ChildBehaviour :=
  match argv with
  | [_] => StartFails "executable file not found"
  | _ => healthy_children argv
  end.
Definition os_no_fetch : OS := example_os [] [] fetch_missing None None.
(** The process started as [runsm -port 8080 -bogus]. *)
Definition st_bogus : State := initial_state ["runsm"; "-port"; "8080"; "-bogus"] [].

(** * Proofs *)

(** ** Strings *)

Lemma append_assoc (a b c : string) : (a ++ b) ++ c = a ++ (b ++ c).
Proof. induction a as [| x a IH]; cbn; [reflexivity | now rewrite IH]. Qed.

Lemma list_ascii_app (a b : string) :
  list_ascii_of_string (a ++ b) = (list_ascii_of_string a ++ list_ascii_of_string b)%list.
Proof. induction a as [| x a IH]; cbn; [reflexivity | now rewrite IH]. Qed.

Lemma take_line_app (l r : list ascii) :
  forallb (fun c => negb (Ascii.eqb c LF)) l = true ->
  take_line (l ++ LF :: r) = l.
Proof.
  induction l as [| c l IH]; cbn [forallb take_line app].
  - intros _. now rewrite Ascii.eqb_refl.
  - intros H. apply andb_prop in H as [Hc Hl].
    destruct (Ascii.eqb c LF); cbn in Hc; [discriminate |]. now rewrite IH.
Qed.

Lemma final_line_app (pre line : string) :
  forallb (fun c => negb (Ascii.eqb c LF)) (list_ascii_of_string line) = true ->
  final_line (pre ++ nl ++ line ++ nl) = Some line.
Proof.
  intros H. unfold final_line.
  rewrite !list_ascii_app, !rev_app_distr. cbn [nl list_ascii_of_string rev app].
  rewrite Ascii.eqb_refl. rewrite <- app_assoc. cbn [app].
  rewrite take_line_app.
  - now rewrite rev_involutive, string_of_list_ascii_of_string.
  - rewrite forallb_forall in *. intros c Hc. apply H. now apply in_rev.
Qed.

(** ** The relations are preorders, and computations compose along them *)

Lemma select_app f (a b : Trace) :
  select f (a ++ b)%list = (select f a ++ select f b)%list.
Proof. unfold select. now rewrite map_app, filter_app. Qed.

#[local] Instance same_flags_pre : PreOrder same_flags.
Proof. split; unfold same_flags; [intros x | intros x y z]; congruence. Qed.
#[local] Instance same_environ_pre : PreOrder same_environ.
Proof. split; unfold same_environ; [intros x | intros x y z]; congruence. Qed.
#[local] Instance same_files_pre : PreOrder same_files.
Proof. split; unfold same_files; [intros x | intros x y z]; congruence. Qed.

#[local] Instance same_flags_but_port_pre : PreOrder same_flags_but_port.
Proof.
  split; unfold same_flags_but_port.
  - intros x. now destruct (flags x).
  - intros x y z H1 H2. rewrite H2 at 1. rewrite H1. reflexivity.
Qed.

#[local] Instance port_fallback_pre : PreOrder port_fallback.
Proof.
  split; unfold port_fallback.
  - intros x. now left.
  - intros x y z [H1 | [H1 [N1 I1]]] [H2 | [H2 [N2 I2]]].
    + left. congruence.
    + right. rewrite H1 in *. auto.
    + right. rewrite H2. auto.
    + exfalso. apply N2. rewrite H1. reflexivity.
Qed.

#[local] Instance only_trace_pre : PreOrder only_trace.
Proof.
  split.
  - intros x; exists []; destruct x; cbn; now rewrite app_nil_r.
  - intros x y z [e1 ->] [e2 ->]; exists (e1 ++ e2)%list.
    destruct x; cbn; now rewrite app_assoc.
Qed.

#[local] Instance quiet_pre f : PreOrder (quiet f).
Proof.
  split.
  - intros x; exists []; split; [now rewrite app_nil_r | reflexivity].
  - intros x y z [e1 [H1 Q1]] [e2 [H2 Q2]]; exists (e1 ++ e2)%list. split.
    + now rewrite H2, H1, app_assoc.
    + now rewrite select_app, Q1, Q2.
Qed.

Section Keeps.

Context {R : State -> State -> Prop} `{!PreOrder R}.

Lemma keeps_ret A (a : A) : keeps R (ret a).
Proof. intros st; reflexivity. Qed.

Lemma keeps_gets A (f : State -> A) : keeps R (gets f).
Proof. intros st; reflexivity. Qed.

Lemma keeps_halt A h : keeps R (@halt A h).
Proof. intros st; reflexivity. Qed.

Lemma keeps_modify f : (forall st, R st (f st)) -> keeps R (modify f).
Proof. intros H st; apply H. Qed.

Lemma keeps_bind A B (m : M A) (k : A -> M B) :
  keeps R m -> (forall a, keeps R (k a)) -> keeps R (bind m k).
Proof.
  intros Hm Hk st. unfold bind.
  specialize (Hm st). destruct (m st) as [[a | h] st']; cbn in *.
  - etransitivity; [exact Hm | apply Hk].
  - exact Hm.
Qed.

End Keeps.

Lemma keeps_run (R : State -> State -> Prop) A (m : M A) st o st' :
  keeps R m -> m st = (o, st') -> R st st'.
Proof. intros H E. specialize (H st). now rewrite E in H. Qed.
Arguments keeps_run {R A m st o st'} _ _.

Lemma keeps_weaken (R R' : State -> State -> Prop) A (m : M A) :
  (forall a b, R a b -> R' a b) -> keeps R m -> keeps R' m.
Proof. intros H K st. apply H, K. Qed.

(** One rule per shape of computation. *)
Ltac keeps_rel :=
  intros;
  first
    [ reflexivity
    | solve [ unfold same_flags, same_environ, same_files, same_phpdbg;
              reflexivity ]
    | solve [ unfold only_trace; cbn; eexists; reflexivity ]
    | solve [ unfold quiet; cbn; eexists; split; reflexivity ]
    | solve [ unfold quiet; cbn; exists []; split;
              [ now rewrite app_nil_r | reflexivity ] ]
    | solve [ unfold port_fallback; left; reflexivity ]
    | solve [ unfold same_flags_but_port; cbn;
              match goal with |- context [flags ?st] => now destruct (flags st) end ] ].

Ltac keeps_step :=
  lazymatch goal with
  | |- keeps _ (bind _ _) => apply keeps_bind; [ | intros ]
  | |- keeps _ (ret _) => apply keeps_ret
  | |- keeps _ (gets _) => apply keeps_gets
  | |- keeps _ (halt _) => apply keeps_halt
  | |- keeps _ (modify _) => apply keeps_modify; keeps_rel
  | |- keeps _ (if ?b then _ else _) => destruct b
  | |- keeps _ (match ?x with _ => _ end) => destruct x
  | |- keeps _ (let _ := _ in _) => cbv zeta
  end.

(** The primitives, and the functions of the program that are no loops. *)
Ltac prim_unfold :=
  unfold printf, println, timestamp, logWriter_Write, log_Print, log_Fatal,
    os_Exit, time_Sleep, os_Setenv, net_Dial, net_Listen, os_Create, WriteString_,
    cmd_Start, cmd_Run, emit, advance, when, index_or_panic, setMyWindowTitle,
    load_shuttingDown in *.

Ltac prog_unfold :=
  unfold rawPortAvail, testWebPort, getOutboundIP, showInvite, debugPHP, execPHP,
    runCaddy, runCaddy_probe, runCaddy_serve, runEBCFetch,
    killCaddy, killEBCFetch, launch, await_signal, shutdown, init.

Ltac keeps_go :=
  repeat first [ keeps_step | progress prim_unfold | progress prog_unfold ].

(** ** Running a computation on an explicit state *)

Ltac msimpl :=
  cbv beta iota zeta delta
    [bind gets modify ret halt
     flags phpdbg shuttingDown osArgs environ files clock trace
     with_flags with_phpdbg with_shuttingDown with_environ with_files
     with_clock with_trace] in *;
  cbn [debug cdebug port alternateWebPort ipspec spawnInterval nolocal ipWatch
       set_debug set_cdebug set_port set_alternateWebPort set_ipspec
       set_spawnInterval set_nolocal set_ipWatch negb andb orb fst snd] in *.

Ltac mrun := repeat (progress (prim_unfold; msimpl)).

(** Case analysis on the next answer of the operating system. *)
Ltac split_oracle :=
  match goal with
  | |- context [os_dial ?o ?t ?n ?a] => destruct (os_dial o t n a) as [? | [? |]] eqn:?
  | |- context [os_listen ?o ?t ?a] => destruct (os_listen o t a) eqn:?
  | |- context [os_create ?o ?t ?a] => destruct (os_create o t a) eqn:?
  | |- context [os_child ?o ?t ?a] => destruct (os_child o t a) as [? | ? [? |] |] eqn:?
  | |- context [os_signal ?o ?t] => destruct (os_signal o t) as [[? ?] |] eqn:?
  | |- context [String.eqb ?a ?b] => destruct (String.eqb a b) eqn:?
  end.

(** Bring a goal [quiet f st st'] on explicit states to the events
    between them. *)
Ltac quiet_now :=
  unfold quiet; msimpl; rewrite <- ?app_assoc; cbn [app];
  eexists; split; reflexivity.

(** The trace of an explicit state continues the trace it started from. *)
Ltac trace_grows :=
  cbn [trace with_trace]; eexists; rewrite <- ?app_assoc; reflexivity.

(** ** The webserver launch *)

Section Caddy.

Variable lib : GoLib.
Variable os : OS.

Local Arguments append : simpl never.
Local Arguments String.eqb : simpl never.

Lemma rawPortAvail_only_trace p : keeps only_trace (rawPortAvail os p).
Proof. keeps_go. Qed.

Lemma testWebPort_only_trace p : keeps only_trace (testWebPort os p).
Proof. keeps_go. Qed.

Lemma runCaddy_serve_flags : keeps same_flags (runCaddy_serve lib os).
Proof. keeps_go. Qed.

Lemma runCaddy_probe_files : keeps same_files (runCaddy_probe os).
Proof. keeps_go. Qed.

Lemma runCaddy_probe_quiet_write : keeps (quiet is_write) (runCaddy_probe os).
Proof. keeps_go. Qed.

Lemma runCaddy_serve_result st :
  let r := runCaddy_serve lib os st in
  let cp := caddyfile_path lib in
  (fst r = Stop (Exit 1) /\ files (snd r) = files st /\
   quiet is_write st (snd r)) \/
  (files (snd r) cp =
     Some (caddyfile lib (cdebug (flags st)) (ipspec (flags st)) (port (flags st))) /\
   (fst r = Ret (Some (cancelCtx "Background")) \/ fst r = Stop (Exit 1) \/
    fst r = Stop Blocked)).
Proof.
  destruct st as [fl dbg sd args env fs c tr].
  unfold runCaddy_serve. mrun.
  destruct (os_create os _ _) eqn:Ec; mrun.
  - left. repeat split. quiet_now.
  - right. rewrite !String.eqb_refl.
    destruct (cdebug fl); mrun; rewrite ?String.eqb_refl.
    all: destruct (os_child os _ _) eqn:Ech; mrun.
    all: try match goal with e : option string |- _ => destruct e; mrun end.
    all: rewrite ?String.eqb_refl.
    all: (split;
          [ unfold caddyfile; cbv iota; rewrite ?append_assoc; reflexivity
          | auto ]).
Qed.

(** Either [os.Create] failed, or the file holds the text. *)
Lemma runCaddy_serve_created st :
  let r := runCaddy_serve lib os st in
  let cp := caddyfile_path lib in
  (exists evs log t e,
     trace (snd r) = (trace st ++ evs ++ (t, Create cp (Some e)) :: log)%list /\
     os_create os (trace st ++ evs)%list cp = Some e /\
     fst r = Stop (Exit 1) /\ files (snd r) = files st) \/
  files (snd r) cp =
    Some (caddyfile lib (cdebug (flags st)) (ipspec (flags st)) (port (flags st))).
Proof.
  destruct st as [fl dbg sd args env fs c tr].
  unfold runCaddy_serve. mrun.
  destruct (os_create os _ _) as [e |] eqn:Ec; mrun.
  - left. exists [(c, Stdout (fmt_Sprintf lib
                     (os_timestamp os tr ++ " serving on " ++ ipspec fl ++ ":" ++
                      port fl ++ nl)))].
    do 2 eexists. exists e. rewrite <- !app_assoc. cbn [app].
    split; [reflexivity |]. split; [exact Ec |]. split; reflexivity.
  - right. rewrite !String.eqb_refl.
    destruct (cdebug fl); mrun; rewrite ?String.eqb_refl.
    all: destruct (os_child os _ _) eqn:Ech; mrun.
    all: try match goal with e : option string |- _ => destruct e; mrun end.
    all: rewrite ?String.eqb_refl.
    all: unfold caddyfile; cbv iota; rewrite ?append_assoc; reflexivity.
Qed.

Lemma serves_on_serve st0 st p :
  port (flags st) = p -> cdebug (flags st) = cdebug (flags st0) ->
  ipspec (flags st) = ipspec (flags st0) -> files st = files st0 ->
  (exists evs0, trace st = (trace st0 ++ evs0)%list) ->
  serves_on lib os st0 (runCaddy_serve lib os st) p.
Proof.
  intros Hp Hc Hi Hf [evs0 Ht]. split.
  - now rewrite (runCaddy_serve_flags st).
  - destruct (runCaddy_serve_created st) as [(evs & log & t & e & T & C & H1 & H2) | H1].
    + left. exists (evs0 ++ evs)%list, log, t, e.
      rewrite T, Ht, <- !app_assoc. rewrite Ht, <- app_assoc in C.
      split; [reflexivity |]. split; [exact C |]. split; [exact H1 | congruence].
    + right. rewrite H1. congruence.
Qed.

Lemma runCaddy_probe_port_fallback : keeps port_fallback (runCaddy_probe os).
Proof.
  intros st. unfold port_fallback.
  destruct st as [[d cd p a ip n nlc w] dbg sd args env fs c tr].
  unfold runCaddy_probe, rawPortAvail, testWebPort. mrun.
  destruct (String.eqb_spec ip "*") as [-> | Hip]; mrun; [| now left].
  repeat (split_oracle; mrun); auto.
  all: right; repeat split; now apply String.eqb_neq.
Qed.

Lemma runCaddy_port_fallback : keeps port_fallback (runCaddy lib os).
Proof.
  unfold runCaddy. apply keeps_bind; [apply runCaddy_probe_port_fallback |].
  intros [|]; cbn [negb].
  - apply (keeps_weaken (R := same_flags)); [| apply runCaddy_serve_flags].
    intros a b H. now left.
  - apply keeps_ret.
Qed.

Lemma caddyfile_final_line cd sp p :
  final_line (caddyfile lib cd sp p) = Some "php_fastcgi 127.0.0.1:9000".
Proof.
  set (pre := "{" ++ nl ++ "http_port " ++ p ++ nl ++
     (if cd
      then "debug" ++ nl ++
           "log {" ++ nl ++ "output file " ++ filepath_Join lib smCaddyFolder "error.log" ++ nl ++ "}" ++ nl
      else "") ++
     "}" ++ nl ++ sp ++ ":" ++ p ++ nl ++ "file_server" ++ nl ++ "root sm").
  replace (caddyfile lib cd sp p)
    with (pre ++ nl ++ "php_fastcgi 127.0.0.1:9000" ++ nl).
  - apply final_line_app. reflexivity.
  - unfold pre, caddyfile. destruct cd; rewrite ?append_assoc; reflexivity.
Qed.

(** C1. With the wildcard address and the primary port free on the
    loopback probe: when the bind test refuses the primary port and accepts
    the alternate port, [runCaddy] serves on the alternate port; when the
    bind test accepts the primary port, it serves on the primary port.
    Serving on a port is: the port flag holds it and the configuration
    file is written for it, in the [http_port] line and in the site
    address; only when the operating system refuses to create the file is
    nothing written, and that run is fatal. *)
Theorem runCaddy_port_resolution st st1 :
  ipspec (flags st) = "*" ->
  rawPortAvail os (port (flags st)) st = (Ret true, st1) ->
  (forall st2 st3,
     testWebPort os (port (flags st)) st1 = (Ret false, st2) ->
     testWebPort os (alternateWebPort (flags st)) st2 = (Ret true, st3) ->
     serves_on lib os st (runCaddy lib os st) (alternateWebPort (flags st))) /\
  (forall st2,
     testWebPort os (port (flags st)) st1 = (Ret true, st2) ->
     serves_on lib os st (runCaddy lib os st) (port (flags st))).
Proof.
  intros Hip Hraw.
  destruct (keeps_run (rawPortAvail_only_trace _) Hraw) as [e1 ->].
  split.
  - intros st2 st3 Ht1 Ht2.
    destruct (keeps_run (testWebPort_only_trace _) Ht1) as [e2 ->].
    destruct (keeps_run (testWebPort_only_trace _) Ht2) as [e3 ->].
    unfold runCaddy, runCaddy_probe.
    destruct st as [[d cd p a ip n nlc w] dbg sd args env fs c tr].
    msimpl. subst ip. change ("*" == "*") with true. msimpl.
    rewrite Hraw. msimpl. rewrite Ht1. msimpl.
    destruct (String.eqb_spec p a) as [Heq | Hne]; msimpl.
    + mrun. apply serves_on_serve; cbn; auto; trace_grows.
    + rewrite Ht2. msimpl. apply serves_on_serve; cbn; auto; trace_grows.
  - intros st2 Ht1.
    unfold runCaddy, runCaddy_probe.
    destruct st as [[d cd p a ip n nlc w] dbg sd args env fs c tr].
    msimpl. subst ip. change ("*" == "*") with true. msimpl.
    rewrite Hraw. msimpl. rewrite Ht1. msimpl.
    destruct (keeps_run (testWebPort_only_trace _) Ht1) as [e2 ->].
    apply serves_on_serve; cbn; auto; trace_grows.
Qed.

(** C8. Whatever the flags: either [runCaddy] wrote nothing (the port is
    already served, or the file could not be created), or the
    configuration file it leaves ends in the line
    "php_fastcgi 127.0.0.1:9000", newline included. *)
Theorem runCaddy_config_suffix st :
  let r := runCaddy lib os st in
  (files (snd r) = files st /\ quiet is_write st (snd r)) \/
  (exists text,
     files (snd r) (caddyfile_path lib) = Some text /\
     final_line text = Some ("php_fastcgi " ++ cgiport)).
Proof.
  cbv zeta. unfold runCaddy, bind.
  pose proof (runCaddy_probe_files st) as Hf.
  pose proof (runCaddy_probe_quiet_write st) as Hq.
  destruct (runCaddy_probe os st) as [[[|] | h] st1]; cbn [fst snd negb ret] in *.
  - destruct (runCaddy_serve_result st1) as [[_ [H2 H3]] | [H1 _]].
    + left. split; [congruence | etransitivity; eassumption].
    + right. eexists. split; [exact H1 | apply caddyfile_final_line].
  - left. auto.
  - left. auto.
Qed.


Lemma rawPortAvail_quiet_listen p : keeps (quiet is_listen) (rawPortAvail os p).
Proof. keeps_go. Qed.

Lemma runCaddy_serve_quiet_listen : keeps (quiet is_listen) (runCaddy_serve lib os).
Proof. keeps_go. Qed.

(** C9. When the primary and the alternate port are the same string,
    [runCaddy] never changes the port flag.  In particular, with the
    wildcard address, the primary port free on the loopback probe and
    refused by the bind test, it serves on the primary port all the same,
    and the bind test of the primary port is the only one it makes. *)
Theorem equal_ports_no_fallback st :
  port (flags st) = alternateWebPort (flags st) ->
  let r := runCaddy lib os st in
  flags (snd r) = flags st /\
  (forall st1 st2,
     ipspec (flags st) = "*" ->
     rawPortAvail os (port (flags st)) st = (Ret true, st1) ->
     testWebPort os (port (flags st)) st1 = (Ret false, st2) ->
     serves_on lib os st r (port (flags st)) /\
     exists evs err,
       trace (snd r) = (trace st ++ evs)%list /\
       select is_listen evs = [Listen (":" ++ port (flags st)) (Some err)]).
Proof.
  intros Heq. cbv zeta. split.
  - destruct (runCaddy_port_fallback st) as [H | [_ [H _]]]; [exact H | contradiction].
  - intros st1 st2 Hip Hraw Ht1.
    destruct (keeps_run (rawPortAvail_quiet_listen _) Hraw) as [e1 [E1 Q1]].
    destruct (keeps_run (rawPortAvail_only_trace _) Hraw) as [e1' ->].
    cbn [trace with_trace] in E1. apply app_inv_head in E1. subst e1'.
    destruct st as [[d cd p a ip n nlc w] dbg sd args env fs c tr].
    cbn [flags port alternateWebPort ipspec] in *. subst ip a.
    assert (exists err st3,
               runCaddy lib os
                 {| flags := {| debug := d; cdebug := cd; port := p;
                                alternateWebPort := p; ipspec := "*";
                                spawnInterval := n; nolocal := nlc; ipWatch := w |};
                    phpdbg := dbg; shuttingDown := sd; osArgs := args;
                    environ := env; files := fs; clock := c; trace := tr |}
               = runCaddy_serve lib os st3 /\
               flags st3 = {| debug := d; cdebug := cd; port := p;
                              alternateWebPort := p; ipspec := "*";
                              spawnInterval := n; nolocal := nlc; ipWatch := w |} /\
               files st3 = fs /\
               exists m1 m2,
                 trace st3 = (tr ++ e1 ++ [(c, Listen (":" ++ p) (Some err));
                                           (c, Stdout m1); (c, Stdout m2)])%list)
      as (err & st3 & Hrun & Hfl & Hfs & m1 & m2 & Htr).
    { unfold runCaddy, runCaddy_probe. msimpl.
      change ("*" == "*") with true. msimpl. rewrite Hraw. msimpl.
      unfold testWebPort in *. mrun.
      destruct (os_listen os _ _) as [err |] eqn:El; mrun; [| discriminate Ht1].
      rewrite String.eqb_refl. mrun.
      exists err. eexists. split; [reflexivity |].
      msimpl. repeat split. do 2 eexists.
      rewrite <- !app_assoc. cbn [app]. reflexivity. }
    rewrite Hrun. split.
    + apply serves_on_serve; cbn [flags port cdebug ipspec files trace];
        rewrite ?Hfl, ?Hfs; try reflexivity.
      rewrite Htr. eexists. reflexivity.
    + destruct (runCaddy_serve_quiet_listen st3) as [e3 [E3 Q3]].
      exists (e1 ++ [(c, Listen (":" ++ p) (Some err)); (c, Stdout m1); (c, Stdout m2)] ++ e3)%list.
      exists err. split.
      * rewrite E3, Htr. cbn [trace]. now rewrite <- !app_assoc.
      * rewrite !select_app, Q1, Q3. reflexivity.
Qed.

End Caddy.

(** ** The respawn loop *)

Lemma run_elapsed_bounds d b : 0 <= run_elapsed d b <= Z.max 0 d.
Proof.
  unfold run_elapsed. destruct (Z.leb_spec d 0); [lia |].
  destruct b as [e | t e |]; try lia.
  destruct (Z.ltb_spec (Z.max 0 t) d); lia.
Qed.

Lemma run_elapsed_outlives d b :
  outlives d b = true -> run_elapsed d b = Z.max 0 d.
Proof.
  unfold run_elapsed, outlives. destruct (Z.leb_spec d 0); [lia |].
  destruct b as [e | t e |]; try discriminate; try lia.
  intros Hb. apply Z.leb_le in Hb.
  destruct (Z.ltb_spec (Z.max 0 t) d); lia.
Qed.

Lemma launch_times_app (a b : Trace) :
  launch_times (a ++ b)%list = (launch_times a ++ launch_times b)%list.
Proof. unfold launch_times. now rewrite filter_app, map_app. Qed.

Lemma every_ge d c n t : 0 <= d -> In t (every d c n) -> c <= t.
Proof.
  intros Hd. revert c. induction n as [| n IH]; intros c; cbn [every In].
  - contradiction.
  - intros [<- | H]; [lia |]. apply IH in H. lia.
Qed.

Lemma count_in_none lo hi ts :
  (forall t, In t ts -> hi <= t) -> count_in lo hi ts = 0%nat.
Proof.
  unfold count_in. induction ts as [| t ts IH]; cbn [filter]; intros H.
  - reflexivity.
  - assert (hi <= t) by (apply H; now left).
    destruct (Z.ltb_spec t hi); [lia |]. rewrite andb_false_r.
    apply IH. intros u Hu. apply H. now right.
Qed.

Lemma count_in_every d n : 0 < d -> forall c k, (k < n)%nat ->
  count_in (c + Z.of_nat k * d) (c + (Z.of_nat k + 1) * d) (every d c n) = 1%nat.
Proof.
  intros Hd. induction n as [| n IH]; intros c k Hk; [lia |].
  cbn [every]. unfold count_in. cbn [filter].
  destruct k as [| k].
  - change (Z.of_nat 0) with 0.
    destruct (Z.leb_spec (c + 0 * d) c); [| lia].
    destruct (Z.ltb_spec c (c + (0 + 1) * d)); [| lia].
    cbn [andb List.length]. f_equal.
    apply count_in_none. intros t Ht. apply every_ge in Ht; lia.
  - destruct (Z.leb_spec (c + Z.of_nat (S k) * d) c); [nia |].
    cbn [andb].
    replace (c + Z.of_nat (S k) * d) with ((c + d) + Z.of_nat k * d) by lia.
    replace (c + (Z.of_nat (S k) + 1) * d) with ((c + d) + (Z.of_nat k + 1) * d) by lia.
    apply IH. lia.
Qed.

Lemma one_launch_per_interval_every d c n :
  0 < d -> one_launch_per_interval d c (c + Z.of_nat n * d) (every d c n).
Proof.
  intros Hd k Hk. apply count_in_every; [exact Hd |]. nia.
Qed.

Section Respawn.

Variable lib : GoLib.
Variable os : OS.

Local Arguments append : simpl never.
Local Arguments String.eqb : simpl never.

(** One launch: the call is recorded at the clock of the start, the clock
    moves on by the wait, and what is logged afterwards is no launch. *)
Lemma execPHP_run st :
  let r := execPHP lib os st in
  let el := run_elapsed (interval st) (os_child os (trace st) (php_argv lib)) in
  exists err logs,
    fst r = Ret tt /\
    clock (snd r) = clock st + el /\
    trace (snd r) =
      (trace st ++ (clock st, Exec RunWait (php_argv lib) (environ st) el err) :: logs)%list /\
    (launch_times logs = [] /\ exec_envs logs = []) /\
    flags (snd r) = flags st /\ environ (snd r) = environ st /\
    shuttingDown (snd r) = shuttingDown st /\ files (snd r) = files st.
Proof.
  destruct st as [fl dbg sd args env fs c tr].
  unfold execPHP, interval, run_elapsed, php_argv. mrun.
  set (d := wrap64 (spawnInterval fl * Minute)).
  destruct (Z.leb_spec d 0); mrun.
  - do 2 eexists. rewrite <- !app_assoc. cbn [app].
    repeat split; try reflexivity. lia.
  - destruct (os_child os tr _) as [e | t [e |] |]; mrun.
    2, 3: destruct (Z.ltb_spec (Z.max 0 t) d); mrun.
    all: do 2 eexists; rewrite <- ?app_assoc; cbn [app];
      repeat split; try reflexivity; lia.
Qed.


Lemma runPHP_loop_O x st :
  runPHP_loop lib os 0 x st =
  (if flag_at os (shuttingDown st) (clock st) then Ret tt else Stop OutOfFuel, st).
Proof.
  cbn [runPHP_loop]. unfold bind, load_shuttingDown, gets, flag_at.
  now destruct (shuttingDown st || _).
Qed.

Lemma runPHP_loop_S n x st :
  runPHP_loop lib os (S n) x st =
  if flag_at os (shuttingDown st) (clock st) then (Ret tt, st)
  else
    let st1 :=
      with_trace (trace st ++
                  [(clock st, Stdout (os_timestamp os (trace st) ++ " " ++ x ++ " PHP" ++ nl))])%list
                 st in
    match execPHP lib os st1 with
    | (Ret _, st2) => runPHP_loop lib os n "respawning" st2
    | (Stop h, st2) => (Stop h, st2)
    end.
Proof.
  cbn [runPHP_loop]. unfold bind at 1. unfold load_shuttingDown, gets, flag_at.
  destruct (shuttingDown st || _); [reflexivity |].
  reflexivity.
Qed.


(** What a run of the loop looks like, by induction on the launches the
    fuel allows. *)
Lemma runPHP_loop_spec fuel : forall x st,
  let r := runPHP_loop lib os fuel x st in
  let d := Z.max 0 (interval st) in
  exists evs,
    trace (snd r) = (trace st ++ evs)%list /\
    (flags (snd r) = flags st /\ environ (snd r) = environ st /\
     shuttingDown (snd r) = shuttingDown st /\ files (snd r) = files st) /\
    clock st <= clock (snd r) /\
    Forall (fun t => flag_at os (shuttingDown st) t = false) (launch_times evs) /\
    (forall t, hd_error (launch_times evs) = Some t -> t = clock st) /\
    gaps_within d (launch_times evs) /\
    ((forall tr, outlives (interval st) (os_child os tr (php_argv lib)) = true) ->
     launch_times evs = every d (clock st) (List.length (launch_times evs)) /\
     clock (snd r) = clock st + Z.of_nat (List.length (launch_times evs)) * d) /\
    (fst r = Ret tt /\ flag_at os (shuttingDown st) (clock (snd r)) = true \/
     fst r = Stop OutOfFuel /\ flag_at os (shuttingDown st) (clock (snd r)) = false /\
     List.length (launch_times evs) = fuel) /\
    Forall (eq (environ st)) (exec_envs evs).
Proof.
  induction fuel as [| n IH]; intros x st; cbv zeta.
  - rewrite runPHP_loop_O. exists []. cbn [fst snd launch_times filter map hd_error
      gaps_within List.length exec_envs flat_map].
    rewrite app_nil_r.
    repeat split; auto; try lia; try discriminate.
    destruct (flag_at os (shuttingDown st) (clock st)) eqn:F; auto.
  - rewrite runPHP_loop_S.
    destruct (flag_at os (shuttingDown st) (clock st)) eqn:F.
    + exists []. cbn [fst snd launch_times filter map hd_error
        gaps_within List.length exec_envs flat_map].
      rewrite app_nil_r. repeat split; auto; try lia; try discriminate.
    + cbv zeta.
      match goal with |- context [execPHP lib os ?s] => set (st1 := s) end.
      destruct (execPHP_run st1) as (err & logs & Ho & Hc & Ht & [Hl Hle] & Hf & He & Hs & Hfs).
      cbv zeta in *.
      destruct (execPHP lib os st1) as [[[] | h] st2]; cbn [fst snd] in *;
        [| discriminate].
      assert (Hi : interval st2 = interval st) by (unfold interval; now rewrite Hf).
      assert (Hsd : shuttingDown st2 = shuttingDown st) by exact Hs.
      specialize (IH "respawning" st2). cbv zeta in IH.
      rewrite Hi, Hsd in IH.
      destruct IH as (evs & Et & (Ef & Ee & Es & Efs) & Ec & Hflag & Hhd & Hgaps & Hev & Hout & Henv).
      set (el := run_elapsed (interval st1) (os_child os (trace st1) (php_argv lib))) in *.
      assert (Hel : 0 <= el <= Z.max 0 (interval st))
        by (apply run_elapsed_bounds).
      exists ((clock st, Stdout (os_timestamp os (trace st) ++ " " ++ x ++ " PHP" ++ nl))
                :: (clock st, Exec RunWait (php_argv lib) (environ st) el err) :: logs ++ evs)%list.
      assert (Hlt : launch_times
                ((clock st, Stdout (os_timestamp os (trace st) ++ " " ++ x ++ " PHP" ++ nl))
                   :: (clock st, Exec RunWait (php_argv lib) (environ st) el err) :: logs ++ evs)%list
              = clock st :: launch_times evs).
      { change (?a :: ?b :: ?l)%list with ([a; b] ++ l)%list.
        rewrite !launch_times_app, Hl. reflexivity. }
      rewrite Hlt.
      repeat split.
      * rewrite Et, Ht. unfold st1. cbn [trace with_trace environ clock].
        rewrite <- !app_assoc. reflexivity.
      * now rewrite Ef, Hf.
      * now rewrite Ee, He.
      * exact Es.
      * now rewrite Efs, Hfs.
      * unfold st1 in Hc. cbn [clock with_trace] in Hc. lia.
      * constructor; [exact F | exact Hflag].
      * cbn [hd_error]. now intros t [= <-].
      * destruct (launch_times evs) as [| t' rest] eqn:El; [exact I |].
        cbn [gaps_within]. split.
        -- rewrite (Hhd t' eq_refl), Hc. unfold st1. cbn [clock with_trace]. lia.
        -- exact Hgaps.
      * cbn [List.length every]. f_equal.
        rewrite (proj1 (Hev H)) at 1. f_equal.
        rewrite Hc. unfold st1. cbn [clock with_trace]. f_equal.
        unfold el. rewrite run_elapsed_outlives by apply H.
        reflexivity.
      * rewrite (proj2 (Hev H)), Hc. unfold st1. cbn [clock with_trace List.length].
        unfold el. rewrite run_elapsed_outlives by apply H.
        change (interval st1) with (interval st). lia.
      * destruct Hout as [[H1 H2] | [H1 [H2 H3]]].
        -- left. split; [exact H1 | exact H2].
        -- right. split; [exact H1 |]. split; [exact H2 |].
           cbn [List.length]. now rewrite H3.
      * change (?a :: ?b :: ?l)%list with ([a] ++ [b] ++ l)%list.
        unfold exec_envs. rewrite !flat_map_app. cbn [flat_map snd app].
        constructor; [reflexivity |].
        apply Forall_app. split.
        -- fold (exec_envs logs). rewrite Hle. constructor.
        -- fold (exec_envs evs). eapply Forall_impl; [| exact Henv].
           intros e <-. now rewrite He.
Qed.


(** C2, as the code has it.  A launch starts only while the flag reads
    false, and the loop returns as soon as it reads the flag set, so no
    launch follows the flag, whether or not one was in flight when it was
    set.  The first launch starts at once, every further launch starts when
    the one before it returns, which is when the child exits or the
    interval has passed, whichever comes first: two launches are at most
    one interval apart, and there is exactly one launch in every interval
    when every child outlives the interval. *)
Theorem respawn_schedule fuel x st :
  let r := runPHP_loop lib os fuel x st in
  let d := Z.max 0 (interval st) in
  exists evs,
    trace (snd r) = (trace st ++ evs)%list /\
    Forall (fun t => flag_at os (shuttingDown st) t = false) (launch_times evs) /\
    (fst r = Ret tt /\ flag_at os (shuttingDown st) (clock (snd r)) = true \/
     fst r = Stop OutOfFuel /\ flag_at os (shuttingDown st) (clock (snd r)) = false /\
     List.length (launch_times evs) = fuel) /\
    (forall t, hd_error (launch_times evs) = Some t -> t = clock st) /\
    gaps_within d (launch_times evs) /\
    (0 < interval st ->
     (forall tr, outlives (interval st) (os_child os tr (php_argv lib)) = true) ->
     one_launch_per_interval d (clock st) (clock (snd r)) (launch_times evs)).
Proof.
  cbv zeta.
  destruct (runPHP_loop_spec fuel x st)
    as (evs & Et & _ & _ & Hflag & Hhd & Hgaps & Hev & Hout & _).
  exists evs. repeat split; auto.
  intros Hd Hall. destruct (Hev Hall) as [E1 E2].
  rewrite E1, E2. apply one_launch_per_interval_every. lia.
Qed.

(** C3. When a listener answers on the interpreter's port, [runPHP]
    returns at once, whatever the fuel: it has made the probe, closed the
    connection and printed one line, and has launched nothing. *)
Theorem runPHP_port_occupied fuel st conn :
  os_dial os (trace st) "tcp" "localhost:9000" = DialOK (Some conn) ->
  exists ts,
    runPHP lib os fuel st =
    (Ret tt,
     with_trace
       (trace st ++
        [(clock st, Dial "tcp" "localhost:9000" true);
         (clock st, ConnClose "localhost:9000");
         (clock st, Stdout (ts ++ " PHP [9000] already listening" ++ nl))])%list
       st) /\
    quiet is_exec st (snd (runPHP lib os fuel st)).
Proof.
  intros Hd. destruct st as [fl dbg sd args env fs c tr].
  unfold runPHP, rawPortAvail.
  change (strings_Split cgiport ":") with ["127.0.0.1"; "9000"].
  unfold index_or_panic. cbn [nth_error]. mrun.
  change (net_JoinHostPort "localhost" "9000") with "localhost:9000".
  rewrite Hd. mrun.
  rewrite <- !app_assoc, !append_assoc. cbn [app].
  eexists. split.
  - reflexivity.
  - quiet_now.
Qed.

End Respawn.

(** ** The environment handed to the children *)

Lemma exec_envs_app (a b : Trace) :
  exec_envs (a ++ b)%list = (exec_envs a ++ exec_envs b)%list.
Proof. unfold exec_envs. now rewrite flat_map_app. Qed.

#[local] Instance inherits_pre : PreOrder inherits.
Proof.
  split.
  - intros x. split; [reflexivity |]. exists []. split; [now rewrite app_nil_r | constructor].
  - intros x y z [E1 (e1 & T1 & F1)] [E2 (e2 & T2 & F2)]. split; [congruence |].
    exists (e1 ++ e2)%list. split.
    + now rewrite T2, T1, app_assoc.
    + rewrite exec_envs_app. apply Forall_app. split; [exact F1 |].
      now rewrite <- E1.
Qed.

Lemma quiet_inherits st st' :
  same_environ st st' -> quiet is_exec st st' -> inherits st st'.
Proof.
  intros E (evs & T & Q). split; [exact E |]. exists evs. split; [exact T |].
  clear T. induction evs as [| [c e] evs IH]; [constructor |].
  unfold select in Q. cbn [map filter snd] in Q.
  destruct e; cbn [is_exec] in Q; try discriminate;
    unfold exec_envs; cbn [flat_map snd app]; apply IH, Q.
Qed.

Ltac inherits_now :=
  unfold inherits; msimpl; split; [reflexivity |];
  rewrite <- ?app_assoc; cbn [app]; eexists; split;
  [reflexivity | unfold exec_envs; cbn [flat_map snd app]; repeat constructor].

Section Environment.

Variable lib : GoLib.
Variable os : OS.

Local Arguments append : simpl never.
Local Arguments String.eqb : simpl never.

Lemma killCaddy_inherits : keeps inherits (killCaddy lib os).
Proof.
  intros st. destruct st as [fl dbg sd args env fs c tr].
  unfold killCaddy. mrun. inherits_now.
Qed.

Lemma runEBCFetch_inherits : keeps inherits (runEBCFetch lib os).
Proof.
  intros st. destruct st as [fl dbg sd args env fs c tr].
  unfold runEBCFetch. mrun. repeat (split_oracle; mrun); inherits_now.
Qed.

Lemma runCaddy_inherits : keeps inherits (runCaddy lib os).
Proof.
  unfold runCaddy. apply keeps_bind.
  - intros st. apply quiet_inherits.
    + revert st. change (keeps same_environ (runCaddy_probe os)). keeps_go.
    + revert st. change (keeps (quiet is_exec) (runCaddy_probe os)). keeps_go.
  - intros [|]; cbn [negb]; [| apply keeps_ret].
    intros st. destruct st as [fl dbg sd args env fs c tr].
    unfold runCaddy_serve. mrun.
    destruct (os_create os _ _); mrun; [inherits_now |].
    destruct (cdebug fl); mrun; repeat (split_oracle; mrun); inherits_now.
Qed.

Lemma debugPHP_environ : keeps same_environ (debugPHP lib os).
Proof. keeps_go. Qed.

Lemma debugPHP_child_environ st :
  exists evs,
    trace (snd (debugPHP lib os st)) = (trace st ++ evs)%list /\
    Forall (eq (environ st ++ [(PHP_FCGI_MAX_REQUESTS, "0")])%list) (exec_envs evs).
Proof.
  destruct st as [fl dbg sd args env fs c tr].
  unfold debugPHP. mrun.
  destruct (dbg == ""); mrun.
  - exists []. split; [now rewrite app_nil_r | constructor].
  - repeat (split_oracle; mrun);
      rewrite <- ?app_assoc; cbn [app]; eexists; (split;
      [reflexivity | unfold exec_envs; cbn [flat_map snd app]; repeat constructor]).
Qed.

Lemma runPHP_environ fuel st st1 :
  rawPortAvail os "9000" st = (Ret true, st1) ->
  let r := runPHP lib os fuel st in
  let env' := setenv PHP_FCGI_MAX_REQUESTS "0" (environ st) in
  environ (snd r) = env' /\
  exists evs, trace (snd r) = (trace st ++ evs)%list /\
              Forall (eq env') (exec_envs evs).
Proof.
  intros Hraw. cbv zeta.
  destruct (keeps_run (rawPortAvail_only_trace _ _) Hraw) as [e1 ->].
  assert (Q1 : exec_envs e1 = []).
  { destruct (keeps_run (m := rawPortAvail os "9000") (R := quiet is_exec)
                ltac:(keeps_go) Hraw) as (e1' & T & Q).
    cbn [trace with_trace] in T. apply app_inv_head in T. subst e1'.
    clear Hraw. induction e1 as [| [c e] evs IH]; [reflexivity |].
    unfold select in Q. cbn [map filter snd] in Q.
    destruct e; cbn [is_exec] in Q; try discriminate;
      unfold exec_envs; cbn [flat_map snd app]; apply IH, Q. }
  set (st2 := with_trace
                ((trace st ++ e1) ++ [(clock st, Setenv PHP_FCGI_MAX_REQUESTS "0")])%list
                (with_environ (setenv PHP_FCGI_MAX_REQUESTS "0" (environ st))
                   (with_trace (trace st ++ e1)%list st))).
  assert (Hrun : runPHP lib os fuel st = runPHP_loop lib os fuel "spawning" st2).
  { unfold runPHP.
    change (strings_Split cgiport ":") with ["127.0.0.1"; "9000"].
    unfold index_or_panic. cbn [nth_error]. unfold bind, ret. rewrite Hraw.
    reflexivity. }
  rewrite Hrun.
  destruct (runPHP_loop_spec lib os fuel "spawning" st2)
    as (evs & Et & (_ & Ee & _) & _ & _ & _ & _ & _ & _ & Henv).
  split; [exact Ee |].
  exists (e1 ++ (clock st, Setenv PHP_FCGI_MAX_REQUESTS "0") :: evs)%list. split.
  - rewrite Et. unfold st2. cbn [trace with_trace with_environ clock].
    now rewrite <- !app_assoc.
  - rewrite exec_envs_app, Q1. cbn [app].
    change (exec_envs ((clock st, Setenv PHP_FCGI_MAX_REQUESTS "0") :: evs))
      with (exec_envs evs).
    exact Henv.
Qed.

End Environment.

(** ** Runs of a computation, step by step *)

Lemma bind_run A B (m : M A) (k : A -> M B) st :
  bind m k st =
  match m st with
  | (Ret a, st') => k a st'
  | (Stop h, st') => (Stop h, st')
  end.
Proof. reflexivity. Qed.

Lemma bind_inv_ret A B (m : M A) (k : A -> M B) st b st' :
  bind m k st = (Ret b, st') ->
  exists a st1, m st = (Ret a, st1) /\ k a st1 = (Ret b, st').
Proof.
  unfold bind. destruct (m st) as [[a | h] st1]; [| discriminate].
  intros H. now exists a, st1.
Qed.

Lemma bind_inv A B (m : M A) (k : A -> M B) st o st' :
  bind m k st = (o, st') ->
  (exists h, m st = (Stop h, st') /\ o = Stop h) \/
  (exists a s1, m st = (Ret a, s1) /\ k a s1 = (o, st')).
Proof.
  unfold bind. destruct (m st) as [[a | h] s1].
  - intros H. right. now exists a, s1.
  - intros [= <- <-]. left. now exists h.
Qed.

Lemma gets_inv A (f : State -> A) st a st' :
  gets f st = (Ret a, st') -> a = f st /\ st' = st.
Proof. unfold gets. intros [= <- <-]. auto. Qed.

(** ** Startup and shutdown *)

Section Main.

Variable lib : GoLib.
Variable os : OS.

Local Arguments append : simpl never.
Local Arguments String.eqb : simpl never.

Lemma runEBCFetch_handle st c st' :
  runEBCFetch lib os st = (Ret c, st') -> c = Some (cancelCtx "TODO").
Proof.
  destruct st as [fl dbg sd args env fs cl tr].
  unfold runEBCFetch. mrun. repeat (split_oracle; mrun); congruence.
Qed.

Lemma launch_quiet_shutdown : keeps (quiet is_shutdown_step) (launch lib os).
Proof. keeps_go. Qed.


Lemma same_flags_but_port_debug st st' :
  same_flags_but_port st st' -> debug (flags st') = debug (flags st).
Proof. unfold same_flags_but_port. intros ->. reflexivity. Qed.

(** When [launch] returns, to the wait for a signal, the debug flag is
    off, the first handle is what [runCaddy] returned in this run and the
    second is the handle of the fetch utility. *)
Lemma launch_handles st0 c1 c2 st1 :
  launch lib os st0 = (Ret (c1, c2), st1) ->
  debug (flags st0) = false /\
  c2 = Some (cancelCtx "TODO") /\
  exists sta stb,
    quiet is_shutdown_step st0 sta /\
    runCaddy lib os sta = (Ret c1, stb) /\
    quiet is_shutdown_step stb st1.
Proof.
  unfold launch. intros H.
  apply bind_inv_ret in H as (watch & s1 & H1 & H).
  apply gets_inv in H1 as [-> ->].
  apply bind_inv_ret in H as (ip & s2 & H2 & H).
  assert (F2 : same_flags_but_port st0 s2 /\ quiet is_shutdown_step st0 s2).
  { split; refine (keeps_run _ H2); destruct (ipWatch (flags st0)); keeps_go. }
  destruct F2 as [F2 Q2].
  apply bind_inv_ret in H as (dbg & s3 & H3 & H).
  apply gets_inv in H3 as [-> ->].
  apply bind_inv_ret in H as (path & s4 & H4 & H).
  apply gets_inv in H4 as [-> ->].
  apply bind_inv_ret in H as (cc & s5 & H5 & H).
  assert (F5 : same_flags_but_port s2 s5).
  { refine (keeps_run _ H5). destruct (_ && _); keeps_go. }
  apply bind_inv_ret in H as (ce & s6 & H6 & H).
  assert (F6 : same_flags_but_port s5 s6 /\ quiet is_shutdown_step s5 s6)
    by (split; refine (keeps_run _ H6); keeps_go).
  destruct F6 as [F6 Q6].
  apply runEBCFetch_handle in H6 as ->.
  apply bind_inv_ret in H as (nlc & s7 & H7 & H).
  apply gets_inv in H7 as [-> ->].
  apply bind_inv_ret in H as ([] & s8 & H8 & H).
  assert (F8 : same_flags_but_port s6 s8 /\ quiet is_shutdown_step s6 s8).
  { split; refine (keeps_run _ H8); destruct (negb _); keeps_go. }
  destruct F8 as [F8 Q8].
  apply bind_inv_ret in H as (dbg' & s9 & H9 & H).
  apply gets_inv in H9 as [-> ->].
  assert (D8 : debug (flags s8) = debug (flags st0)).
  { rewrite (same_flags_but_port_debug F8), (same_flags_but_port_debug F6),
      (same_flags_but_port_debug F5). apply (same_flags_but_port_debug F2). }
  destruct (debug (flags s8)) eqn:D.
  - exfalso. unfold bind, timestamp, gets, printf, emit, modify, os_Exit, halt in H.
    discriminate H.
  - split; [congruence |].
    assert (Q9 : quiet is_shutdown_step s8 st1)
      by (refine (keeps_run _ H); keeps_go).
    apply bind_inv_ret in H as (w' & s10 & H10 & H).
    apply bind_inv_ret in H as ([] & s11 & H11 & H).
    unfold ret in H. injection H as <- <- <-.
    split; [reflexivity |].
    rewrite (same_flags_but_port_debug F2), <- D8 in H5. cbn [andb] in H5.
    apply bind_inv_ret in H5 as (c & s12 & H12 & H5).
    assert (Q5 : quiet is_shutdown_step s12 s5)
      by (refine (keeps_run _ H5); keeps_go).
    apply bind_inv_ret in H5 as ([] & s13 & H13 & H5).
    unfold ret in H5. injection H5 as <- <-.
    exists s2, s12. split; [exact Q2 |]. split; [exact H12 |].
    etransitivity; [exact Q5 |]. etransitivity; [exact Q6 |].
    etransitivity; [exact Q8 | exact Q9].
Qed.


(** C4. In a run that gets to the wait for a signal and receives one:
    [c1] is the handle [runCaddy] returned in that run, [c2] is the handle
    of the fetch utility, which was started, and nothing of the shutdown
    has happened before the signal.  Then the flag is stored, then the
    webserver's stop command is issued exactly when [c1] is a handle, then
    the fetch utility's stop is announced, then "quitting" is printed and
    [main] returns. *)
Theorem shutdown_order st st0 c1 c2 st1 delay sig :
  (banner;; setupRun lib) st = (Ret tt, st0) ->
  launch lib os st0 = (Ret (c1, c2), st1) ->
  os_signal os (trace st1 ++ [(clock st1, Notify)])%list = Some (delay, sig) ->
  (exists sta stb,
     quiet is_shutdown_step st0 sta /\
     runCaddy lib os sta = (Ret c1, stb) /\
     quiet is_shutdown_step stb st1) /\
  c2 = Some (cancelCtx "TODO") /\
  quiet is_shutdown_step st0 st1 /\
  exists st' evs t1 t2 t3 t4 t5 t6 err,
    main lib os st = (Ret tt, st') /\
    shuttingDown st' = true /\
    trace st' = (trace st1 ++ evs)%list /\
    map snd evs =
      ([Notify; Signal sig;
        Stdout (t1 ++ nl); Stdout (t2 ++ " " ++ sig ++ nl); Stdout (t3 ++ nl);
        Store_shuttingDown true] ++
       match c1 with
       | Some _ =>
           [Stdout (t4 ++ " ending Caddy" ++ nl);
            Exec StartOnly [filepath_Join lib smCaddyFolder "caddy"; "stop"]
              (environ st1) 0 err]
       | None => []
       end ++
       [Stdout (t5 ++ " ending EBCFetch" ++ nl);
        Stdout (t6 ++ " quitting" ++ nl)])%list.
Proof.
  intros Hpre Hlaunch Hsig.
  destruct (launch_handles _ Hlaunch) as (_ & -> & Hc).
  split; [exact Hc |]. split; [reflexivity |].
  split; [exact (keeps_run launch_quiet_shutdown Hlaunch) |].
  apply bind_inv_ret in Hpre as ([] & s0 & Hb & Hs).
  unfold main. rewrite bind_run, Hb, bind_run, Hs, bind_run, Hlaunch.
  cbn [fst snd]. clear Hlaunch Hb Hs Hc.
  destruct st1 as [fl dbg sd args env fs c tr].
  unfold await_signal, shutdown, killCaddy, killEBCFetch. mrun.
  rewrite Hsig. mrun.
  destruct c1 as [h |]; mrun; repeat (split_oracle; mrun).
  all: repeat (match goal with |- exists _, _ => eexists end).
  all: lazymatch goal with
       | |- _ /\ _ =>
           (split; [reflexivity |]); (split; [reflexivity |]);
           rewrite <- !app_assoc; cbn [app]; (split; [reflexivity |]);
           cbn [map snd app]; reflexivity
       | |- string => exact EmptyString
       | |- option string => exact None
       end.
Qed.

End Main.

(** ** Debug mode without a debug interpreter *)

#[local] Instance same_phpdbg_pre : PreOrder same_phpdbg.
Proof. split; unfold same_phpdbg; [intros x | intros x y z]; congruence. Qed.

Lemma blind_ret A (a : A) : debug_blind (ret a).
Proof. intros st; reflexivity. Qed.

Lemma blind_halt A h : debug_blind (@halt A h).
Proof. intros st; reflexivity. Qed.

Lemma blind_gets A (f : State -> A) :
  (forall st, f (debug_on st) = f st) -> debug_blind (gets f).
Proof. intros H st. unfold gets. now rewrite H. Qed.

Lemma blind_modify f :
  (forall st, f (debug_on st) = debug_on (f st)) -> debug_blind (modify f).
Proof. intros H st. unfold modify. now rewrite H. Qed.

Lemma blind_bind A B (m : M A) (k : A -> M B) :
  debug_blind m -> (forall a, debug_blind (k a)) -> debug_blind (bind m k).
Proof.
  intros Hm Hk st. unfold bind. rewrite Hm.
  destruct (m st) as [[a | h] st1]; cbn [fst snd]; [apply Hk | reflexivity].
Qed.

Ltac blind_step :=
  lazymatch goal with
  | |- debug_blind (bind _ _) => apply blind_bind; [ | intros ]
  | |- debug_blind (ret _) => apply blind_ret
  | |- debug_blind (gets _) => apply blind_gets; intros; reflexivity
  | |- debug_blind (halt _) => apply blind_halt
  | |- debug_blind (modify _) => apply blind_modify; intros; reflexivity
  | |- debug_blind (if ?b then _ else _) => destruct b
  | |- debug_blind (match ?x with _ => _ end) => destruct x
  | |- debug_blind (let _ := _ in _) => cbv zeta
  end.

Ltac blind_go :=
  repeat first [ blind_step | progress prim_unfold | progress prog_unfold ].

Section DebugMode.

Variable lib : GoLib.
Variable os : OS.

Local Arguments append : simpl never.
Local Arguments String.eqb : simpl never.

Lemma runCaddy_blind : debug_blind (runCaddy lib os).
Proof. blind_go. Qed.

Lemma runEBCFetch_blind : debug_blind (runEBCFetch lib os).
Proof. blind_go. Qed.

Lemma showInvite_blind : debug_blind (showInvite os).
Proof. blind_go. Qed.

Lemma getOutboundIP_blind : debug_blind (getOutboundIP os).
Proof. blind_go. Qed.







End DebugMode.

(** ** What writes the flags, and what the children inherit *)

Section Frames.

Variable lib : GoLib.
Variable os : OS.

Local Arguments append : simpl never.
Local Arguments String.eqb : simpl never.

Lemma runPHP_loop_flags fuel x : keeps same_flags (runPHP_loop lib os fuel x).
Proof.
  intros st. destruct (runPHP_loop_spec lib os fuel x st) as (evs & _ & (H & _) & _).
  exact H.
Qed.

Lemma monitorIP_flags fuel : forall ip, keeps same_flags (monitorIP os fuel ip).
Proof.
  induction fuel as [| n IH]; intros ip; cbn [monitorIP]; [apply keeps_halt |].
  apply keeps_bind; [keeps_go |]. intros _.
  apply keeps_bind; [keeps_go |]. intros myIP.
  destruct (negb _); [| apply IH].
  apply keeps_bind; [keeps_go |]. intros ts.
  apply keeps_bind; [keeps_go |]. intros _. apply IH.
Qed.

Lemma runPHP_flags fuel : keeps same_flags (runPHP lib os fuel).
Proof.
  unfold runPHP. cbv zeta.
  repeat first [ apply runPHP_loop_flags | keeps_step | progress prim_unfold
               | progress unfold rawPortAvail ].
Qed.

Lemma launch_port_fallback : keeps port_fallback (launch lib os).
Proof.
  pose proof (@runCaddy_port_fallback lib os) as HC.
  unfold launch.
  repeat first [ exact HC | keeps_step | progress prim_unfold
               | progress unfold getOutboundIP, debugPHP, runEBCFetch, showInvite ].
Qed.

(** C5, as the code has it.  After startup one thing writes a flag:
    [runCaddy], and so [launch], which calls it, may replace the port by
    the alternate port, for the wildcard address and two different ports.
    Every other operation leaves every flag alone. *)
Theorem flags_after_startup :
  keeps port_fallback (runCaddy lib os) /\
  keeps port_fallback (launch lib os) /\
  (forall p, keeps same_flags (rawPortAvail os p)) /\
  (forall p, keeps same_flags (testWebPort os p)) /\
  keeps same_flags (getOutboundIP os) /\
  keeps same_flags (showInvite os) /\
  keeps same_flags (debugPHP lib os) /\
  keeps same_flags (execPHP lib os) /\
  (forall fuel, keeps same_flags (runPHP lib os fuel)) /\
  (forall fuel ip, keeps same_flags (monitorIP os fuel ip)) /\
  keeps same_flags (runEBCFetch lib os) /\
  keeps same_flags (killCaddy lib os) /\
  keeps same_flags killEBCFetch /\
  keeps same_flags (await_signal os) /\
  (forall c1 c2, keeps same_flags (shutdown lib os c1 c2)).
Proof.
  split; [apply runCaddy_port_fallback |].
  split; [apply launch_port_fallback |].
  split; [intros p; keeps_go |].
  split; [intros p; keeps_go |].
  split; [keeps_go |]. split; [keeps_go |]. split; [keeps_go |].
  split; [keeps_go |].
  split; [apply runPHP_flags |].
  split; [intros fuel ip; apply monitorIP_flags |].
  split; [keeps_go |]. split; [keeps_go |]. split; [keeps_go |].
  split; [keeps_go |].
  intros c1 c2. keeps_go.
Qed.

(** C7, as the code has it.  [debugPHP] adds the override to the
    environment of the child alone.  [runPHP], when the port is free, sets
    it in the environment of the supervisor itself, before the first
    launch, and every interpreter it launches inherits it from there.  The
    other launches ([runCaddy], [runEBCFetch], [killCaddy]) hand the child
    the supervisor's environment as it is at that moment, and do not
    change it. *)
Theorem request_count_override_scope :
  (forall st,
     environ (snd (debugPHP lib os st)) = environ st /\
     exists evs,
       trace (snd (debugPHP lib os st)) = (trace st ++ evs)%list /\
       Forall (eq (environ st ++ [(PHP_FCGI_MAX_REQUESTS, "0")])%list) (exec_envs evs)) /\
  (forall fuel st st1,
     rawPortAvail os "9000" st = (Ret true, st1) ->
     environ (snd (runPHP lib os fuel st)) =
       setenv PHP_FCGI_MAX_REQUESTS "0" (environ st) /\
     exists evs,
       trace (snd (runPHP lib os fuel st)) = (trace st ++ evs)%list /\
       Forall (eq (setenv PHP_FCGI_MAX_REQUESTS "0" (environ st))) (exec_envs evs)) /\
  keeps inherits (runCaddy lib os) /\
  keeps inherits (runEBCFetch lib os) /\
  keeps inherits (killCaddy lib os).
Proof.
  split.
  { intros st. split; [apply debugPHP_environ | apply debugPHP_child_environ]. }
  split.
  { intros fuel st st1 H. exact (@runPHP_environ lib os fuel st st1 H). }
  split; [apply runCaddy_inherits |].
  split; [apply runEBCFetch_inherits | apply killCaddy_inherits].
Qed.

End Frames.

(** ** Flag parsing *)

Section Flags.

Variable lib : GoLib.

Lemma unchanged_unless_refl actual fl : unchanged_unless actual fl fl.
Proof. unfold unchanged_unless. repeat split; reflexivity. Qed.

Lemma unchanged_unless_trans a b fl0 fl1 fl2 :
  incl a b ->
  unchanged_unless a fl0 fl1 -> unchanged_unless b fl1 fl2 ->
  unchanged_unless b fl0 fl2.
Proof.
  unfold unchanged_unless. intros Hi H1 H2.
  repeat match goal with H : _ /\ _ |- _ => destruct H end.
  repeat split; intros N;
    match goal with
    | H1 : ~ In ?n a -> ?f fl1 = ?f fl0, H2 : ~ In ?n b -> ?f fl2 = ?f fl1
      |- ?f fl2 = ?f fl0 =>
        rewrite (H2 N); apply H1; intros I; apply N, Hi, I
    end.
Qed.

Lemma flag_Set_frame name v fl fl' :
  flag_Set lib name v fl = Some fl' -> unchanged_unless [name] fl fl'.
Proof.
  unfold flag_Set, unchanged_unless.
  repeat match goal with
    | |- context [if ?n == ?s then _ else _] =>
        destruct (String.eqb_spec n s) as [-> |]
    end;
    intros H;
    try discriminate H;
    repeat match type of H with
      | option_map _ ?x = Some _ => destruct x; cbn [option_map] in H
      end;
    try discriminate H;
    injection H as <-;
    repeat split; intros N; try reflexivity;
    exfalso; apply N; now left.
Qed.

Lemma flag_parse_frame n : forall args fl0 act0 fl actual rest,
  (List.length args <= n)%nat ->
  flag_parse lib args fl0 act0 = ParseOK fl actual rest ->
  incl act0 actual /\ unchanged_unless actual fl0 fl.
Proof.
  induction n as [| n IH]; intros args fl0 act0 fl actual rest Hn H.
  - destruct args; [| cbn in Hn; lia]. cbn in H. injection H as <- <- <-.
    split; [apply incl_refl | apply unchanged_unless_refl].
  - destruct args as [| s tl]; cbn [flag_parse] in H.
    { injection H as <- <- <-.
      split; [apply incl_refl | apply unchanged_unless_refl]. }
    cbn [List.length] in Hn.
    assert (Hstep : forall name v fl' args',
               (List.length args' <= n)%nat ->
               flag_Set lib name v fl0 = Some fl' ->
               flag_parse lib args' fl' (name :: act0) = ParseOK fl actual rest ->
               incl act0 actual /\ unchanged_unless actual fl0 fl).
    { intros name v fl' args' Hl Hs Hp.
      destruct (IH _ _ _ _ _ _ Hl Hp) as [Hi Hu]. split.
      - intros x Hx. apply Hi. now right.
      - apply (unchanged_unless_trans (a := [name]) (fl1 := fl')); auto.
        + intros x [<- | []]. apply Hi. now left.
        + eapply flag_Set_frame; eassumption. }
    repeat match type of H with
      | ParseOK _ _ _ = ParseOK _ _ _ =>
          injection H as <- <- <-;
          split; [apply incl_refl | apply unchanged_unless_refl]
      | flag_parse _ _ _ _ = ParseOK _ _ _ =>
          eapply Hstep; [| eassumption | exact H]; cbn [List.length] in *; lia
      | context [match ?x with _ => _ end] =>
          destruct x eqn:?; try discriminate H
      end.
Qed.


(** C6, as the code has it.  When parsing succeeds, every flag that was
    not set on the command line has its declared default after
    [setupRun]: port "80", alternate port "2015", restart interval 60,
    proxy-debug, suppress-browser and IP-watch off, and the bind address
    empty, not "*".  The interpreter-debug flag is off too, except on
    Windows, where it is on when the name of the executable contains
    "debug". *)
Theorem documented_defaults st a0 args fl actual rest :
  osArgs st = a0 :: args ->
  flags st = default_flags ->
  flag_parse lib args default_flags [] = ParseOK fl actual rest ->
  let r := setupRun lib st in
  fst r = Ret tt /\
  (~ In "ip" actual -> ipspec (flags (snd r)) = "") /\
  (~ In "port" actual -> port (flags (snd r)) = "80") /\
  (~ In "altport" actual -> alternateWebPort (flags (snd r)) = "2015") /\
  (~ In "respawn" actual -> spawnInterval (flags (snd r)) = 60) /\
  (~ In "cdebug" actual -> cdebug (flags (snd r)) = false) /\
  (~ In "nolocal" actual -> nolocal (flags (snd r)) = false) /\
  (~ In "watch" actual -> ipWatch (flags (snd r)) = false) /\
  (~ In "debug" actual ->
   debug (flags (snd r)) =
     (GOOS lib == "windows") && strings_Contains (filepath_Base lib a0) "debug").
Proof.
  intros Ha Hf Hp. cbv zeta.
  destruct (@flag_parse_frame _ _ _ _ _ _ _ (le_n _) Hp) as [_ U].
  unfold unchanged_unless in U. cbn [default_flags debug cdebug port
    alternateWebPort ipspec spawnInterval nolocal ipWatch] in U.
  destruct U as (Ud & Ucd & Up & Ua & Ui & Un & Unl & Uw).
  destruct st as [fl0 dbg sd osargs env fs c tr].
  cbn [osArgs flags] in Ha, Hf. subst osargs fl0.
  unfold setupRun, index_or_panic. mrun. cbn [nth_error tl]. mrun.
  rewrite Hp. mrun.
  destruct (debug fl) eqn:D; cbn [negb andb]; mrun.
  - repeat split; auto. intros N. discriminate (Ud N).
  - destruct (GOOS lib == "windows"); mrun; cbn [nth_error]; mrun;
      destruct fl; cbn in *; repeat split; auto.
Qed.

End Flags.

(** * Further properties of the code *)

(** ** Which calls can end the process *)

Section Stops.

Variable P : Halt -> Prop.

Lemma stops_ret A (a : A) : stops_only P (ret a).
Proof. intros st h H. discriminate H. Qed.

Lemma stops_gets A (f : State -> A) : stops_only P (gets f).
Proof. intros st h H. discriminate H. Qed.

Lemma stops_modify f : stops_only P (modify f).
Proof. intros st h H. discriminate H. Qed.

Lemma stops_halt A h : P h -> stops_only P (@halt A h).
Proof. intros Hp st h' [= <-]. exact Hp. Qed.

Lemma stops_bind A B (m : M A) (k : A -> M B) :
  stops_only P m -> (forall a, stops_only P (k a)) -> stops_only P (bind m k).
Proof.
  intros Hm Hk st h. rewrite bind_run.
  specialize (Hm st). destruct (m st) as [[a | h'] st1]; cbn [fst] in *.
  - apply Hk.
  - intros [= <-]. now apply Hm.
Qed.

End Stops.

Lemma stops_weaken (P Q : Halt -> Prop) A (m : M A) :
  (forall h, P h -> Q h) -> stops_only P m -> stops_only Q m.
Proof. intros H Hm st h E. apply H, (Hm st h E). Qed.

Lemma stops_never_returns A (m : M A) st :
  stops_only never m -> exists a, fst (m st) = Ret a.
Proof.
  intros H. specialize (H st). destruct (fst (m st)) as [a | h].
  - now exists a.
  - destruct (H h eq_refl).
Qed.

Ltac stops_step :=
  lazymatch goal with
  | |- stops_only _ (bind _ _) => apply stops_bind; [ | intros ]
  | |- stops_only _ (ret _) => apply stops_ret
  | |- stops_only _ (gets _) => apply stops_gets
  | |- stops_only _ (modify _) => apply stops_modify
  | |- stops_only _ (halt _) =>
      apply stops_halt;
      unfold never, fatal, fatal_or_blocked, nil_dereference, out_of_fuel; auto
  | |- stops_only _ (if ?b then _ else _) => destruct b
  | |- stops_only _ (match ?x with _ => _ end) => destruct x
  | |- stops_only _ (let _ := _ in _) => cbv zeta
  end.

Ltac stops_go :=
  repeat first [ stops_step | progress prim_unfold | progress prog_unfold ].

Section Fatal.

Variable lib : GoLib.
Variable os : OS.

Local Arguments append : simpl never.
Local Arguments String.eqb : simpl never.

Lemma execPHP_returns : stops_only never (execPHP lib os).
Proof.
  unfold execPHP. stops_go.
  all: try match goal with |- context [Z.leb ?a ?b] => destruct (Z.leb a b) end.
  all: stops_go.
  all: try match goal with |- context [Z.ltb ?a ?b] => destruct (Z.ltb a b) end.
  all: stops_go.
Qed.

Lemma runPHP_loop_stops fuel : forall x, stops_only out_of_fuel (runPHP_loop lib os fuel x).
Proof.
  induction fuel as [| n IH]; intros x; cbn [runPHP_loop].
  - stops_go.
  - apply stops_bind; [stops_go | intros sd]. destruct sd; [stops_go |].
    apply stops_bind; [stops_go | intros ts].
    apply stops_bind; [stops_go | intros _].
    apply stops_bind; [| intros _; apply IH].
    apply (stops_weaken (P := never)); [intros h [] | apply execPHP_returns].
Qed.

(** X1. Which calls can end the process.  The probes, the invitation, the
    webserver's stop command and a launch of the interpreter always
    return: their errors are logged or ignored.  [runCaddy] ends the
    process only with exit status 1, or waits for ever on a webserver
    start command that does not return; [runEBCFetch] and [debugPHP] end
    it only with exit status 1; [getOutboundIP] only by the nil
    dereference of a connection without a local address; and the respawn
    loop, whatever happens to the interpreter, only ends by running out of
    the fuel of the model. *)
Theorem fatal_errors :
  (forall p, stops_only never (rawPortAvail os p)) /\
  (forall p, stops_only never (testWebPort os p)) /\
  stops_only never (showInvite os) /\
  stops_only never (killCaddy lib os) /\
  stops_only never (execPHP lib os) /\
  stops_only fatal_or_blocked (runCaddy lib os) /\
  stops_only fatal (runEBCFetch lib os) /\
  stops_only fatal (debugPHP lib os) /\
  stops_only nil_dereference (getOutboundIP os) /\
  (forall fuel, stops_only out_of_fuel (runPHP lib os fuel)).
Proof.
  repeat split; intros.
  1-4, 6-9: stops_go.
  - apply execPHP_returns.
  - unfold runPHP.
    apply stops_bind; [intros st h H; vm_compute in H; discriminate H | intros p].
    apply stops_bind; [stops_go | intros avail].
    destruct (negb avail).
    + apply stops_bind; [stops_go | intros ts].
      apply stops_bind; [intros st h H; vm_compute in H; discriminate H | intros p'].
      stops_go.
    + apply stops_bind; [stops_go | intros _]. apply runPHP_loop_stops.
Qed.

End Fatal.

(** ** The webserver launch, outside the port fallback *)

Section CaddyEdges.

Variable lib : GoLib.
Variable os : OS.

Local Arguments append : simpl never.
Local Arguments String.eqb : simpl never.

Lemma runCaddy_serve_quiet_probe : keeps (quiet is_probe) (runCaddy_serve lib os).
Proof. keeps_go. Qed.

(** X2. With the wildcard address, when something already answers on the
    service port, [runCaddy] reports it and returns no handle: it tests no
    port for binding, writes no configuration and starts no webserver, and
    this is not an error.  Only the trace changes, by the connection, its
    close and the report. *)
Theorem runCaddy_port_served st conn :
  ipspec (flags st) = "*" ->
  os_dial os (trace st) "tcp" (net_JoinHostPort "localhost" (port (flags st)))
    = DialOK (Some conn) ->
  exists ts,
    runCaddy lib os st =
    (Ret None,
     with_trace
       (trace st ++
        [(clock st, Dial "tcp" (net_JoinHostPort "localhost" (port (flags st))) true);
         (clock st, ConnClose (net_JoinHostPort "localhost" (port (flags st))));
         (clock st,
          Stdout (ts ++ " service port " ++ port (flags st) ++ " already served" ++ nl))])%list
       st).
Proof.
  destruct st as [fl dbg sd args env fs c tr]. cbn [flags trace clock].
  intros Hip Hd. unfold runCaddy, runCaddy_probe, rawPortAvail. mrun.
  rewrite Hip, String.eqb_refl. mrun. rewrite Hd. mrun.
  rewrite <- !app_assoc, !append_assoc. cbn [app]. eexists. reflexivity.
Qed.

(** X3. With any bind address but the wildcard, [runCaddy] probes nothing:
    it neither connects to a port nor tries to bind one, leaves every flag
    as it was and writes the configuration for the requested port and
    address.  Only when the operating system refuses to create the file is
    nothing written, and that run is fatal. *)
Theorem runCaddy_fixed_address st :
  ipspec (flags st) <> "*" ->
  let r := runCaddy lib os st in
  quiet is_probe st (snd r) /\
  flags (snd r) = flags st /\
  serves_on lib os st r (port (flags st)).
Proof.
  intros Hip r.
  assert (E : r = runCaddy_serve lib os st).
  { subst r. unfold runCaddy, runCaddy_probe. rewrite !bind_run. cbn [gets].
    destruct (String.eqb_spec (ipspec (flags st)) "*") as [Heq | _];
      [contradiction | reflexivity]. }
  rewrite E. split; [apply runCaddy_serve_quiet_probe |].
  split; [apply runCaddy_serve_flags |].
  apply serves_on_serve; try reflexivity.
  exists []. now rewrite app_nil_r.
Qed.

End CaddyEdges.

(** ** Shutdown *)

Section Shutdown.

Variable lib : GoLib.
Variable os : OS.

Local Arguments append : simpl never.
Local Arguments String.eqb : simpl never.

Lemma shutdown_sets_flag c1 c2 st :
  exists st', shutdown lib os c1 c2 st = (Ret tt, st') /\ shuttingDown st' = true.
Proof.
  destruct st as [fl dbg sd args env fs c tr].
  unfold shutdown, killCaddy, killEBCFetch. mrun.
  destruct c1, c2; mrun; repeat (split_oracle; mrun).
  all: eexists; split; reflexivity.
Qed.

(** X4. The shutdown is best effort: whatever the handles, and whether
    or not the webserver's stop command can be started, [shutdown] returns
    with the flag set.  It takes no time and changes no flag of the command
    line, no file and no environment variable. *)
Theorem shutdown_completes c1 c2 st :
  exists st',
    shutdown lib os c1 c2 st = (Ret tt, st') /\
    shuttingDown st' = true /\
    clock st' = clock st /\ flags st' = flags st /\
    environ st' = environ st /\ files st' = files st.
Proof.
  destruct st as [fl dbg sd args env fs c tr].
  unfold shutdown, killCaddy, killEBCFetch. mrun.
  destruct c1, c2; mrun; repeat (split_oracle; mrun).
  all: eexists; repeat split; reflexivity.
Qed.

End Shutdown.

(** ** The watch of the outbound address *)

Section Watch.

Variable os : OS.

Local Arguments append : simpl never.
Local Arguments String.eqb : simpl never.

Lemma time_Sleep_run d st :
  time_Sleep d st =
  (Ret tt, with_clock (clock st + Z.max 0 d)
             (with_trace (trace st ++ [(clock st, Sleep d)])%list st)).
Proof. reflexivity. Qed.

Lemma getOutboundIP_run st o st' :
  getOutboundIP os st = (o, st') ->
  ((exists a, o = Ret a) \/ o = Stop (Panic "nil pointer dereference")) /\
  clock st' = clock st /\ quiet is_sleep st st'.
Proof.
  destruct st as [fl dbg sd args env fs c tr].
  unfold getOutboundIP. mrun. repeat (split_oracle; mrun).
  all: intros [= <- <-]; (split; [eauto |]); (split; [reflexivity | quiet_now]).
Qed.

(** One round of the loop: a minute's sleep, a lookup, and the line that
    reports a change. *)
Lemma monitorIP_run fuel : forall ip st o st',
  monitorIP os fuel ip st = (o, st') ->
  (o = Stop OutOfFuel /\
   clock st' = clock st + Z.of_nat fuel * Minute /\
   exists evs, trace st' = (trace st ++ evs)%list /\
               select is_sleep evs = repeat (Sleep Minute) fuel) \/
  o = Stop (Panic "nil pointer dereference").
Proof.
  induction fuel as [| n IH]; intros ip st o st' H.
  - injection H as <- <-. left. split; [reflexivity |]. split; [cbn; lia |].
    exists []. now rewrite app_nil_r.
  - cbn [monitorIP] in H. rewrite bind_run, time_Sleep_run in H.
    set (s1 := with_clock _ _) in H.
    rewrite bind_run in H.
    destruct (getOutboundIP os s1) as [[myIP | h] s2] eqn:E.
    + apply getOutboundIP_run in E as (_ & C2 & evs2 & T2 & Q2).
      assert (exists s3 evs3, monitorIP os n (if negb (myIP == ip) then myIP else ip) s3
                              = (o, st') /\ clock s3 = clock s2 /\
                              trace s3 = (trace s2 ++ evs3)%list /\
                              select is_sleep evs3 = [])
        as (s3 & evs3 & H3 & C3 & T3 & Q3).
      { destruct (negb (myIP == ip)).
        - do 2 eexists. split; [exact H |]. split; [reflexivity |].
          split; reflexivity.
        - exists s2, []. split; [exact H |]. split; [reflexivity |].
          split; [now rewrite app_nil_r | reflexivity]. }
      apply IH in H3 as [(-> & Cn & evsn & Tn & Qn) | ->]; [left | now right].
      split; [reflexivity |]. split.
      * rewrite Cn, C3, C2. subst s1. cbn [clock with_clock with_trace].
        change (Z.max 0 (1 * Minute)) with Minute. lia.
      * exists ((clock st, Sleep Minute) :: evs2 ++ evs3 ++ evsn)%list. split.
        -- rewrite Tn, T3, T2. subst s1. cbn [trace with_clock with_trace].
           rewrite <- !app_assoc. reflexivity.
        -- change ((clock st, Sleep Minute) :: evs2 ++ evs3 ++ evsn)%list
             with ([(clock st, Sleep Minute)] ++ evs2 ++ evs3 ++ evsn)%list.
           rewrite !select_app, Q2, Q3, Qn. reflexivity.
    + apply getOutboundIP_run in E as ([[a Ha] | Hp] & _); [discriminate Ha |].
      injection H as <- <-. right. injection Hp as ->. reflexivity.
Qed.

(** X5. The watch never returns and never ends the process: however long
    it runs, it is still running (the model's fuel runs out), unless a
    lookup hands back a connection without a local address, which is a nil
    dereference.  While it runs it sleeps one minute before every lookup,
    whatever the lookups answer: after [fuel] rounds, [fuel] minutes have
    passed. *)
Theorem monitorIP_never_returns fuel ip st :
  let r := monitorIP os fuel ip st in
  (fst r = Stop OutOfFuel /\
   clock (snd r) = clock st + Z.of_nat fuel * Minute /\
   exists evs, trace (snd r) = (trace st ++ evs)%list /\
               select is_sleep evs = repeat (Sleep Minute) fuel) \/
  fst r = Stop (Panic "nil pointer dereference").
Proof.
  intros r. subst r.
  destruct (monitorIP os fuel ip st) as [o st'] eqn:E.
  exact (monitorIP_run _ _ _ E).
Qed.

Section Stable.

Variable a : string.
Hypothesis stable : forall tr, os_dial os tr "udp" "8.8.8.8:80" = DialOK (Some a).

Lemma monitorIP_round n ip st :
  exists st2 evs,
    monitorIP os (S n) ip st = monitorIP os n a st2 /\
    trace st2 = (trace st ++ evs)%list /\
    exists ts,
      select is_stdout evs =
      if a == ip then [] else [Stdout (ts ++ " IPv4 = " ++ a ++ nl)].
Proof.
  destruct st as [fl dbg sd args env fs c tr].
  cbn [monitorIP]. unfold getOutboundIP. mrun. rewrite stable. mrun.
  destruct (String.eqb_spec a ip) as [<- | _]; mrun.
  all: rewrite <- ?app_assoc; cbn [app].
  all: do 2 eexists; (split; [reflexivity |]).
  all: cbv beta iota; (split; [reflexivity |]).
  all: first [ exists EmptyString; reflexivity | eexists; reflexivity ].
Qed.

Lemma monitorIP_settled n : forall st,
  exists st' evs,
    monitorIP os n a st = (Stop OutOfFuel, st') /\
    trace st' = (trace st ++ evs)%list /\ select is_stdout evs = [].
Proof.
  induction n as [| n IH]; intros st.
  - exists st, []. split; [reflexivity |]. now rewrite app_nil_r.
  - destruct (monitorIP_round n a st) as (st2 & evs & E & T & ts & Q).
    rewrite String.eqb_refl in Q.
    destruct (IH st2) as (st' & evs' & E' & T' & Q').
    exists st', (evs ++ evs')%list. split; [now rewrite E |].
    split; [now rewrite T', T, app_assoc | now rewrite select_app, Q, Q'].
Qed.

(** X6. An outbound address that does not change is reported at most
    once.  When every lookup answers [a], the watch prints nothing at all
    if [a] is the address it was started with, and otherwise exactly one
    line, which names [a], however many rounds it runs. *)
Theorem monitorIP_stable_address fuel ip st :
  exists st' evs ts,
    monitorIP os fuel ip st = (Stop OutOfFuel, st') /\
    trace st' = (trace st ++ evs)%list /\
    select is_stdout evs =
    if (a == ip) || (fuel =? 0)%nat then []
    else [Stdout (ts ++ " IPv4 = " ++ a ++ nl)].
Proof.
  destruct fuel as [| n].
  - exists st, [], EmptyString. cbn [Nat.eqb]. rewrite orb_true_r. split; [reflexivity |].
    now rewrite app_nil_r.
  - destruct (monitorIP_round n ip st) as (st2 & evs & E & T & ts & Q).
    destruct (monitorIP_settled n st2) as (st' & evs' & E' & T' & Q').
    exists st', (evs ++ evs')%list, ts. split; [now rewrite E |].
    split; [now rewrite T', T, app_assoc |].
    cbn [Nat.eqb]. rewrite select_app, Q, Q', orb_false_r, app_nil_r. reflexivity.
Qed.

End Stable.

End Watch.

(** ** Sockets and files *)

Lemma open_after_app (a b : list Event) open :
  open_after (a ++ b) open = open_after b (open_after a open).
Proof. revert open. induction a as [| e a IH]; intros open; cbn; [reflexivity | apply IH]. Qed.

#[local] Instance releases_pre : PreOrder releases.
Proof.
  split.
  - intros x. exists []. split; [now rewrite app_nil_r | reflexivity].
  - intros x y z [e1 [H1 Q1]] [e2 [H2 Q2]]. exists (e1 ++ e2)%list. split.
    + now rewrite H2, H1, app_assoc.
    + intros open. now rewrite map_app, open_after_app, Q1, Q2.
Qed.

Ltac releases_rel :=
  intros; unfold releases;
  cbn [trace with_trace with_flags with_phpdbg with_shuttingDown with_environ
       with_files with_clock];
  first
    [ exists []; split; [ now rewrite app_nil_r | reflexivity ]
    | eexists; split; [ reflexivity | intros ?; reflexivity ] ].

Ltac releases_now :=
  unfold releases; cbn [trace]; rewrite <- ?app_assoc; cbn [app];
  eexists; split;
  [ reflexivity
  | intros ?; cbn [map snd open_after remove_first];
    rewrite ?String.eqb_refl; reflexivity ].

Section Handles.

Variable lib : GoLib.
Variable os : OS.

Local Arguments append : simpl never.
Local Arguments String.eqb : simpl never.

Lemma rawPortAvail_releases p : keeps releases (rawPortAvail os p).
Proof.
  intros st. destruct st as [fl dbg sd args env fs c tr].
  unfold rawPortAvail. mrun. repeat (split_oracle; mrun). all: releases_now.
Qed.

Lemma testWebPort_releases p : keeps releases (testWebPort os p).
Proof.
  intros st. destruct st as [fl dbg sd args env fs c tr].
  unfold testWebPort. mrun. repeat (split_oracle; mrun). all: releases_now.
Qed.

Lemma getOutboundIP_releases : keeps releases (getOutboundIP os).
Proof.
  intros st. destruct st as [fl dbg sd args env fs c tr].
  unfold getOutboundIP. mrun. repeat (split_oracle; mrun). all: releases_now.
Qed.

Lemma runCaddy_serve_releases : keeps releases (runCaddy_serve lib os).
Proof.
  intros st. destruct st as [fl dbg sd args env fs c tr].
  unfold runCaddy_serve. mrun.
  destruct (os_create os _ _) eqn:Ec; mrun; [releases_now |].
  destruct (cdebug fl); mrun.
  all: destruct (os_child os _ _) as [? | ? [? |] |] eqn:Ech; mrun.
  all: releases_now.
Qed.

Ltac releases_step :=
  lazymatch goal with
  | |- keeps _ (rawPortAvail _ _) => apply rawPortAvail_releases
  | |- keeps _ (testWebPort _ _) => apply testWebPort_releases
  | |- keeps _ (getOutboundIP _) => apply getOutboundIP_releases
  | |- keeps _ (runCaddy_serve _ _) => apply runCaddy_serve_releases
  | |- keeps _ (bind _ _) => apply keeps_bind; [ | intros ]
  | |- keeps _ (ret _) => apply keeps_ret
  | |- keeps _ (gets _) => apply keeps_gets
  | |- keeps _ (halt _) => apply keeps_halt
  | |- keeps _ (modify _) => apply keeps_modify; releases_rel
  | |- keeps _ (if ?b then _ else _) => destruct b
  | |- keeps _ (match ?x with _ => _ end) => destruct x
  | |- keeps _ (let _ := _ in _) => cbv zeta
  end.

Ltac releases_go :=
  repeat first
    [ releases_step
    | progress unfold printf, println, timestamp, logWriter_Write, log_Print,
        log_Fatal, os_Exit, time_Sleep, os_Setenv, cmd_Start, cmd_Run, emit,
        advance, when, index_or_panic, load_shuttingDown
    | progress unfold showInvite, debugPHP, execPHP, runCaddy, runCaddy_probe,
        runEBCFetch, killCaddy, killEBCFetch, launch, await_signal, shutdown,
        banner, setupRun, main ].

Lemma runPHP_loop_releases fuel : forall x, keeps releases (runPHP_loop lib os fuel x).
Proof.
  induction fuel as [| n IH]; intros x; cbn [runPHP_loop].
  - releases_go.
  - apply keeps_bind; [releases_go | intros sd]. destruct sd; [releases_go |].
    apply keeps_bind; [releases_go | intros ts].
    apply keeps_bind; [releases_go | intros _].
    apply keeps_bind; [releases_go | intros _; apply IH].
Qed.

Lemma monitorIP_releases fuel : forall ip, keeps releases (monitorIP os fuel ip).
Proof.
  induction fuel as [| n IH]; intros ip; cbn [monitorIP].
  - releases_go.
  - apply keeps_bind; [releases_go | intros _].
    apply keeps_bind; [releases_go | intros myIP].
    destruct (negb _); [| apply IH].
    apply keeps_bind; [releases_go | intros ts].
    apply keeps_bind; [releases_go | intros _; apply IH].
Qed.

(** X7. The program leaks no socket and no file.  Every connection it
    establishes, every listener it binds and the configuration file it
    creates are closed again by the function that opened them: in whatever
    way [main], the respawn goroutine or the watch stops, be it a return,
    a fatal error or a panic, nothing it opened is still open. *)
Theorem nothing_left_open :
  keeps releases (main lib os) /\
  (forall fuel, keeps releases (runPHP lib os fuel)) /\
  (forall fuel ip, keeps releases (monitorIP os fuel ip)).
Proof.
  split; [releases_go |]. split; [| intros; apply monitorIP_releases].
  intros fuel. unfold runPHP.
  apply keeps_bind; [releases_go | intros p].
  apply keeps_bind; [releases_go | intros avail].
  destruct (negb avail); [releases_go |].
  apply keeps_bind; [releases_go | intros _; apply runPHP_loop_releases].
Qed.

End Handles.

(** ** The switches of [launch] *)

Lemma bind_gets A B (f : State -> A) (k : A -> M B) st :
  bind (gets f) k st = k (f st) st.
Proof. reflexivity. Qed.

Lemma bind_ext_run A B (m : M A) (k k' : A -> M B) st :
  (forall a s1, m st = (Ret a, s1) -> k a s1 = k' a s1) ->
  bind m k st = bind m k' st.
Proof.
  intros H. rewrite !bind_run. destruct (m st) as [[a | h] s1]; [| reflexivity].
  now apply H.
Qed.

Lemma no_return_halt A h : no_return (@halt A h).
Proof. intros st a H. discriminate H. Qed.

Lemma no_return_bind A B (m : M A) (k : A -> M B) :
  (forall a, no_return (k a)) -> no_return (bind m k).
Proof.
  intros H st b. rewrite bind_run. destruct (m st) as [[a | h] s1].
  - apply H.
  - intros E. discriminate E.
Qed.

Lemma same_flags_but_port_switches st st' :
  same_flags_but_port st st' ->
  debug (flags st') = debug (flags st) /\
  nolocal (flags st') = nolocal (flags st) /\
  ipWatch (flags st') = ipWatch (flags st) /\
  ipspec (flags st') = ipspec (flags st).
Proof. unfold same_flags_but_port. intros ->. repeat split. Qed.

Section Switches.

Variable lib : GoLib.
Variable os : OS.

Local Arguments append : simpl never.
Local Arguments String.eqb : simpl never.

(** [launch] reads its switches again and again, and nothing it calls in
    between changes them: it runs as if it had read them once. *)
Lemma launch_eq st :
  launch lib os st =
  (serverIP <-
     (if ipWatch (flags st) then
        ip <- getOutboundIP os;
        ts <- timestamp os;
        printf (ts ++ " IPv4 = " ++ ip ++ nl);;
        ret ip
      else ret "<nil>");
   cancelCaddy <-
     (if debug (flags st) && negb (phpdbg st == "") then
        debugPHP lib os;; ret None
      else
        c <- runCaddy lib os;
        emit (Go "runPHP");;
        ret c);
   cancelEBCFetch <- runEBCFetch lib os;
   when (negb (nolocal (flags st))) (showInvite os);;
   if debug (flags st) then
     ts <- timestamp os;
     printf (ts ++ " quitting" ++ nl ++ nl);;
     os_Exit 0
   else
     when (ipWatch (flags st)) (emit (Go ("monitorIP " ++ serverIP)));;
     ret (cancelCaddy, cancelEBCFetch)) st.
Proof.
  unfold launch. rewrite bind_gets.
  apply bind_ext_run. intros ip s1 E1.
  assert (F1 : same_flags_but_port st s1 /\ same_phpdbg st s1).
  { split; refine (keeps_run _ E1); destruct (ipWatch (flags st)); keeps_go. }
  destruct F1 as [F1 P1]. rewrite !bind_gets.
  destruct (same_flags_but_port_switches F1) as (D1 & _). rewrite D1, P1.
  apply bind_ext_run. intros cc s2 E2.
  assert (F2 : same_flags_but_port s1 s2).
  { refine (keeps_run _ E2). destruct (_ && _); keeps_go. }
  apply bind_ext_run. intros ce s3 E3.
  assert (F3 : same_flags_but_port s2 s3) by (refine (keeps_run _ E3); keeps_go).
  assert (F13 : same_flags_but_port st s3).
  { etransitivity; [exact F1 |]. etransitivity; [exact F2 | exact F3]. }
  rewrite bind_gets.
  destruct (same_flags_but_port_switches F13) as (_ & N3 & _). rewrite N3.
  apply bind_ext_run. intros [] s4 E4.
  assert (F4 : same_flags_but_port s3 s4).
  { refine (keeps_run _ E4). destruct (negb _); keeps_go. }
  assert (F14 : same_flags_but_port st s4) by (etransitivity; [exact F13 | exact F4]).
  rewrite bind_gets.
  destruct (same_flags_but_port_switches F14) as (D4 & _ & W4 & _). rewrite D4.
  destruct (debug (flags st)); [reflexivity |].
  rewrite bind_gets, W4. reflexivity.
Qed.

End Switches.

Ltac stops_more :=
  repeat first
    [ lazymatch goal with
      | |- stops_only _ (halt _) =>
          apply stops_halt; unfold exit_or_nil, not_exit_0; first [ discriminate | auto ]
      end
    | stops_step | progress prim_unfold | progress prog_unfold ].

Lemma stops_run (P : Halt -> Prop) A (m : M A) st h st' :
  stops_only P m -> m st = (Stop h, st') -> P h.
Proof. intros H E. apply (H st). now rewrite E. Qed.
Arguments stops_run {P A m st h st'} _ _.

Section Modes.

Variable lib : GoLib.
Variable os : OS.

Local Arguments append : simpl never.
Local Arguments String.eqb : simpl never.

Lemma launch_debug_run st :
  debug (flags st) = true ->
  phpdbg st <> "" ->
  let r := launch lib os st in
  (forall v, fst r <> Ret v) /\
  (forall h, fst r = Stop h -> exit_or_nil h) /\
  quiet is_serving st (snd r) /\
  flags (snd r) = flags st /\ files (snd r) = files st.
Proof.
  intros Hd Hp r. subst r. rewrite launch_eq, Hd.
  apply String.eqb_neq in Hp. rewrite Hp. cbn [andb negb].
  split; [| split; [| split; [| split]]].
  - intros v. refine ((_ : no_return _) st v).
    do 4 (apply no_return_bind; intros). unfold os_Exit.
    do 2 (apply no_return_bind; intros). apply no_return_halt.
  - refine ((_ : stops_only exit_or_nil _) st). stops_more.
  - refine ((_ : keeps (quiet is_serving) _) st). keeps_go.
  - refine ((_ : keeps same_flags _) st). keeps_go.
  - refine ((_ : keeps same_files _) st). keeps_go.
Qed.

Lemma debugPHP_run st :
  phpdbg st <> "" ->
  exists err log,
    debugPHP lib os st =
    (match err with Some _ => Stop (Exit 1) | None => Ret tt end,
     with_trace (trace st ++ log)%list st) /\
    select is_exec log =
      [Exec StartOnly (debug_argv lib st)
         (environ st ++ [(PHP_FCGI_MAX_REQUESTS, "0")])%list 0 err].
Proof.
  intros Hp. apply String.eqb_neq in Hp.
  destruct st as [fl dbg sd args env fs c tr].
  unfold debugPHP, debug_argv. mrun. cbn [phpdbg] in Hp. rewrite Hp. mrun.
  destruct (os_child os _ _) as [e | t [e |] |] eqn:Ech; mrun.
  all: rewrite <- ?app_assoc; cbn [app].
  all: first [ exists (@None string); eexists; split; reflexivity
             | eexists (Some _); eexists; split; reflexivity ].
Qed.

Lemma runEBCFetch_run st :
  exists err log,
    runEBCFetch lib os st =
    (match err with
     | Some _ => Stop (Exit 1)
     | None => Ret (Some (cancelCtx "TODO"))
     end,
     with_trace (trace st ++ log)%list st) /\
    select is_exec log =
      [Exec StartOnly [filepath_Join lib smCaddyFolder "ebcfetch"] (environ st) 0 err].
Proof.
  destruct st as [fl dbg sd args env fs c tr].
  unfold runEBCFetch. mrun.
  destruct (os_child os _ _) as [e | t [e |] |] eqn:Ech; mrun.
  all: rewrite <- ?app_assoc; cbn [app].
  all: first [ exists (@None string); eexists; split; reflexivity
             | eexists (Some _); eexists; split; reflexivity ].
Qed.

(** The launches of debug mode, one run at a time. *)
Lemma launch_debug_launches st :
  debug (flags st) = true ->
  phpdbg st <> "" ->
  let r := launch lib os st in
  (fst r = Stop (Panic "nil pointer dereference") /\ quiet is_exec st (snd r)) \/
  exists evs err,
    trace (snd r) = (trace st ++ evs)%list /\
    match err with
    | Some _ =>
        select is_exec evs =
          [Exec StartOnly (debug_argv lib st)
             (environ st ++ [(PHP_FCGI_MAX_REQUESTS, "0")])%list 0 err] /\
        fst r = Stop (Exit 1)
    | None =>
        exists err',
          select is_exec evs =
            [Exec StartOnly (debug_argv lib st)
               (environ st ++ [(PHP_FCGI_MAX_REQUESTS, "0")])%list 0 None;
             Exec StartOnly [filepath_Join lib smCaddyFolder "ebcfetch"]
               (environ st) 0 err'] /\
          fst r = Stop (Exit match err' with Some _ => 1 | None => 0 end)
    end.
Proof.
  intros Hd Hp r. subst r. rewrite launch_eq, Hd.
  pose proof Hp as Hp'. apply String.eqb_neq in Hp'. rewrite Hp'. cbn [andb negb].
  rewrite bind_run.
  match goal with |- context [match ?m st with _ => _ end] =>
    destruct (m st) as [[ip | h] s1] eqn:E1
  end; cbn [fst snd].
  2: { left. split.
    - f_equal. refine (stops_run (P := nil_dereference) _ E1).
      destruct (ipWatch _); stops_go.
    - refine (keeps_run _ E1). destruct (ipWatch _); keeps_go. }
  assert (K1 : only_trace st s1 /\ quiet is_exec st s1)
    by (split; refine (keeps_run _ E1); destruct (ipWatch _); keeps_go).
  destruct K1 as [[e1 ->] (e1' & T1 & S1)].
  cbn [trace with_trace] in T1. apply app_inv_head in T1. subst e1'.
  set (s1 := with_trace (trace st ++ e1)%list st).
  assert (A1 : debug_argv lib s1 = debug_argv lib st /\ environ s1 = environ st)
    by (destruct st; split; reflexivity).
  destruct A1 as [A1 N1].
  rewrite bind_run, bind_run.
  destruct (debugPHP_run s1) as (err & log & Ed & Sd); [destruct st; exact Hp |].
  rewrite Ed, A1, N1 in *. right. destruct err as [e |].
  { exists (e1 ++ log)%list, (Some e). cbn [fst snd]. split.
    - subst s1. destruct st; cbn. now rewrite app_assoc.
    - split; [now rewrite select_app, S1, Sd | reflexivity]. }
  cbn [ret]. rewrite bind_run.
  set (s2 := with_trace (trace s1 ++ log)%list s1).
  destruct (runEBCFetch_run s2) as (err' & log' & Ee & Se).
  assert (N2 : environ s2 = environ st) by (destruct st; reflexivity).
  rewrite Ee, N2 in *.
  assert (T2 : forall evs, trace (with_trace (trace s2 ++ evs)%list s2)
                           = (trace st ++ (e1 ++ log) ++ evs)%list).
  { intros evs. subst s2 s1. destruct st; cbn. now rewrite <- !app_assoc. }
  destruct err' as [e' |].
  { exists ((e1 ++ log) ++ log')%list, (@None string). cbn [fst snd].
    split; [apply T2 |]. exists (Some e').
    split; [now rewrite !select_app, S1, Sd, Se | reflexivity]. }
  rewrite bind_run.
  set (s3 := with_trace (trace s2 ++ log')%list s2).
  match goal with |- context [match ?m s3 with _ => _ end] =>
    destruct (m s3) as [[[] | h] s4] eqn:E4
  end.
  2: { exfalso. refine (stops_run (P := never) _ E4). destruct (negb _); stops_go. }
  assert (Q4 : quiet is_exec s3 s4)
    by (refine (keeps_run _ E4); destruct (negb _); keeps_go).
  destruct Q4 as (e4 & T4 & S4).
  exists ((e1 ++ log) ++ log' ++ e4 ++
          [(clock s4, Stdout (os_timestamp os (trace s4) ++ " quitting" ++ nl ++ nl))])%list,
         (@None string).
  cbn [fst snd]. split.
  - unfold bind, timestamp, gets, printf, emit, modify, os_Exit, halt.
    cbn [fst snd trace with_trace]. rewrite T4. subst s3. rewrite T2.
    now rewrite <- !app_assoc.
  - exists (@None string). split; [| reflexivity].
    rewrite !select_app, S1, Sd, Se, S4. reflexivity.
Qed.

(** X8. Debug mode with an interpreter configured.  [launch] starts the
    interpreter directly, as a web server on 127.0.0.1 and the service
    port with the request count override in its environment, and then
    still starts the fetch utility: these two are the only children, in
    this order; when the interpreter cannot be started the fetch utility
    is not.  It neither writes a webserver configuration nor starts the
    webserver, the respawn goroutine or the watch goroutine.  The run
    never gets to the wait for a signal: it ends with exit status 0 when
    both children were started and with status 1 when one of them could
    not be, or, before any launch, by the nil dereference of the address
    lookup of [-watch].  No flag and no file changes.  Without [-watch],
    the first two things it does are the announcement and the launch of
    the interpreter. *)
Theorem launch_debug_mode st :
  debug (flags st) = true ->
  phpdbg st <> "" ->
  let r := launch lib os st in
  (forall v, fst r <> Ret v) /\
  (forall h, fst r = Stop h -> exit_or_nil h) /\
  quiet is_serving st (snd r) /\
  flags (snd r) = flags st /\ files (snd r) = files st /\
  ((fst r = Stop (Panic "nil pointer dereference") /\ quiet is_exec st (snd r)) \/
   exists evs err,
     trace (snd r) = (trace st ++ evs)%list /\
     match err with
     | Some _ =>
         select is_exec evs =
           [Exec StartOnly (debug_argv lib st)
              (environ st ++ [(PHP_FCGI_MAX_REQUESTS, "0")])%list 0 err] /\
         fst r = Stop (Exit 1)
     | None =>
         exists err',
           select is_exec evs =
             [Exec StartOnly (debug_argv lib st)
                (environ st ++ [(PHP_FCGI_MAX_REQUESTS, "0")])%list 0 None;
              Exec StartOnly [filepath_Join lib smCaddyFolder "ebcfetch"]
                (environ st) 0 err'] /\
           fst r = Stop (Exit match err' with Some _ => 1 | None => 0 end)
     end) /\
  (ipWatch (flags st) = false ->
   exists ts err evs,
     trace (snd r) =
     (trace st ++
      (clock st, Stdout (ts ++ " debugging PHP" ++ nl)) ::
      (clock st, Exec StartOnly (debug_argv lib st)
                   (environ st ++ [(PHP_FCGI_MAX_REQUESTS, "0")]) 0 err) :: evs)%list).
Proof.
  intros Hd Hp r.
  destruct (launch_debug_run st Hd Hp) as (R1 & R2 & R3 & R4 & R5).
  split; [exact R1 |]. split; [exact R2 |]. split; [exact R3 |].
  split; [exact R4 |]. split; [exact R5 |]. clear R1 R2 R3 R4 R5.
  split; [exact (launch_debug_launches st Hd Hp) |].
  subst r. rewrite launch_eq, Hd.
  apply String.eqb_neq in Hp. rewrite Hp. cbn [andb negb].
  intros Hw. rewrite Hw.
    rewrite bind_run. cbn [ret fst snd].
    rewrite bind_run, bind_run.
    assert (E : exists ts err,
      debugPHP lib os st =
      (match err with Some _ => Stop (Exit 1) | None => Ret tt end,
       snd (debugPHP lib os st)) /\
      exists evs,
      trace (snd (debugPHP lib os st)) =
      (trace st ++
       (clock st, Stdout (ts ++ " debugging PHP" ++ nl)) ::
       (clock st, Exec StartOnly (debug_argv lib st)
                    (environ st ++ [(PHP_FCGI_MAX_REQUESTS, "0")]) 0 err) :: evs)%list).
    { clear Hd Hw. destruct st as [fl dbg sd args env fs c tr].
      unfold debugPHP, debug_argv. mrun. cbn [phpdbg] in Hp. rewrite Hp. mrun.
      rewrite append_assoc.
      destruct (os_child os _ _) as [e | t [e |] |] eqn:Ech; mrun.
      all: rewrite <- ?app_assoc; cbn [app].
      all: eexists;
        first [ exists (@None string); (split; [reflexivity |]); eexists; reflexivity
              | eexists (Some _); (split; [reflexivity |]); eexists; reflexivity ]. }
    destruct E as (ts & err & E & evs & T). exists ts, err.
    rewrite E. destruct err as [e |].
    + exists evs. exact T.
    + cbn [ret].
      match goal with
      | |- context [snd (?m (snd (debugPHP lib os st)))] =>
          assert (Q : quiet never_picked (snd (debugPHP lib os st))
                        (snd (m (snd (debugPHP lib os st)))))
            by (refine ((_ : keeps (quiet never_picked) _) _); keeps_go)
      end.
      destruct Q as (evs' & T' & _). exists (evs ++ evs')%list.
      rewrite T', T, <- app_assoc. reflexivity.
Qed.

(** X9. Without [-watch] the program never looks up its outbound
    address: [launch] makes no connection to the address server and starts
    no watch goroutine. *)
Theorem launch_without_watch st :
  ipWatch (flags st) = false ->
  quiet is_watch st (snd (launch lib os st)).
Proof.
  intros Hw. rewrite launch_eq, Hw.
  refine ((_ : keeps (quiet is_watch) _) st). keeps_go.
Qed.

Lemma showInvite_run st :
  exists evs,
    showInvite os st =
    (Ret tt, with_clock (clock st + 5 * Second) (with_trace (trace st ++ evs)%list st)) /\
    select is_openurl evs = [OpenURL (invite_url st)].
Proof.
  destruct st as [fl dbg sd args env fs c tr].
  unfold showInvite, invite_url. mrun.
  rewrite <- !app_assoc. cbn [app]. eexists. split; [reflexivity |].
  cbn. destruct (ipspec fl == EmptyString); reflexivity.
Qed.

(** X10. The invitation.  With [-nolocal], [launch] opens no browser.
    Without it, a run of [launch] that gets through, to the wait for a
    signal or to the exit of debug mode, has opened the browser exactly
    once, at the bind address (or localhost when that is empty) and the
    port the flag holds at the end, which is the port [runCaddy] settled
    on.  A run that fails, by a fatal error, a panic or a webserver start
    command that never returns, has opened none: nothing can fail after
    the invitation. *)
Theorem launch_invitation st :
  let r := launch lib os st in
  exists evs,
    trace (snd r) = (trace st ++ evs)%list /\
    (select is_openurl evs = [] \/
     nolocal (flags st) = false /\
     select is_openurl evs = [OpenURL (invite_url (snd r))]) /\
    (nolocal (flags st) = true -> select is_openurl evs = []) /\
    (nolocal (flags st) = false ->
     (exists v, fst r = Ret v) \/ fst r = Stop (Exit 0) ->
     select is_openurl evs = [OpenURL (invite_url (snd r))]) /\
    (forall h, fst r = Stop h -> h <> Exit 0 -> select is_openurl evs = []).
Proof.
  intros r. subst r. rewrite launch_eq.
  match goal with |- context [fst (?m st)] => destruct (m st) as [o st'] eqn:H end.
  cbn [fst snd].
  assert (early : forall h, quiet is_openurl st st' -> not_exit_0 h -> o = Stop h ->
    exists evs,
      trace st' = (trace st ++ evs)%list /\
      (select is_openurl evs = [] \/
       nolocal (flags st) = false /\
       select is_openurl evs = [OpenURL (invite_url st')]) /\
      (nolocal (flags st) = true -> select is_openurl evs = []) /\
      (nolocal (flags st) = false ->
       (exists v, o = Ret v) \/ o = Stop (Exit 0) ->
       select is_openurl evs = [OpenURL (invite_url st')]) /\
      (forall h, o = Stop h -> h <> Exit 0 -> select is_openurl evs = [])).
  { intros h (evs & T & Sel) S ->. exists evs. split; [exact T |].
    split; [now left |]. split; [intros _; exact Sel |].
    split; [| intros _ _ _; exact Sel].
    intros _ [[v Hv] | Hx]; [discriminate Hv |].
    exfalso. apply S. now injection Hx. }
  apply bind_inv in H as [(h & H1 & E) | (ip & s1 & H1 & H)].
  { apply (early h); [| | exact E].
    - refine (keeps_run _ H1). destruct (ipWatch _); keeps_go.
    - refine (stops_run _ H1). destruct (ipWatch _); stops_more. }
  assert (Q1 : quiet is_openurl st s1)
    by (refine (keeps_run _ H1); destruct (ipWatch _); keeps_go).
  apply bind_inv in H as [(h & H2 & E) | (cc & s2 & H2 & H)].
  { apply (early h); [| | exact E].
    - etransitivity; [exact Q1 |]. refine (keeps_run _ H2). destruct (_ && _); keeps_go.
    - refine (stops_run _ H2). destruct (_ && _); stops_more. }
  assert (Q2 : quiet is_openurl st s2).
  { etransitivity; [exact Q1 |]. refine (keeps_run _ H2). destruct (_ && _); keeps_go. }
  apply bind_inv in H as [(h & H3 & E) | (ce & s3 & H3 & H)].
  { apply (early h); [| | exact E].
    - etransitivity; [exact Q2 |]. refine (keeps_run _ H3). keeps_go.
    - refine (stops_run _ H3). stops_more. }
  assert (Q3 : quiet is_openurl st s3).
  { etransitivity; [exact Q2 |]. refine (keeps_run _ H3). keeps_go. }
  clear early H1 H2 H3 Q1 Q2.
  destruct (nolocal (flags st)) eqn:N; cbn [negb when] in H.
  - assert (Q : quiet is_openurl st st').
    { etransitivity; [exact Q3 |]. refine (keeps_run _ H). keeps_go. }
    destruct Q as (evs & T & Sel). exists evs. split; [exact T |].
    split; [now left |]. split; [intros _; exact Sel |].
    split; [intros N'; discriminate N' | intros _ _ _; exact Sel].
  - rewrite bind_run in H.
    destruct (showInvite_run s3) as (evsI & EI & SI). rewrite EI in H.
    match type of H with ?m ?s = _ =>
      assert (Q : quiet is_openurl s st' /\ same_flags s st')
        by (split; refine (keeps_run _ H); keeps_go);
      assert (X : forall h, o = Stop h -> exit_0 h)
        by (intros h ->; refine (stops_run (P := exit_0) _ H);
            repeat first
              [ lazymatch goal with
                | |- stops_only _ (halt _) => apply stops_halt; reflexivity
                end
              | stops_step | progress prim_unfold ])
    end.
    destruct Q as [(evs5 & T5 & S5) F5].
    destruct Q3 as (evs3 & T3 & S3).
    assert (U : invite_url st' = invite_url s3).
    { unfold invite_url. rewrite F5. reflexivity. }
    assert (Sel : select is_openurl (evs3 ++ evsI ++ evs5)%list
                  = [OpenURL (invite_url st')]).
    { rewrite !select_app, S3, SI, S5, U. reflexivity. }
    exists (evs3 ++ evsI ++ evs5)%list. split.
    { rewrite T5. cbn [trace with_clock with_trace]. rewrite T3, <- !app_assoc.
      reflexivity. }
    split; [right; split; [reflexivity | exact Sel] |].
    split; [intros N'; discriminate N' |].
    split; [intros _ _; exact Sel |].
    intros h Eh Nh. destruct (Nh (X h Eh)).
Qed.

End Modes.

(** ** [main] and [setupRun] *)

Section MainEdges.

Variable lib : GoLib.
Variable os : OS.

Local Arguments append : simpl never.
Local Arguments String.eqb : simpl never.

(** X11. A command line the parser does not accept ends the process
    before anything is started: after the banner, [main] changes to the
    directory of the executable, prints the message to standard error and
    exits, with status 2 for an error and status 0 for a request for help.
    It has done nothing else.  The flags are not as they were at the
    start: they hold what the arguments before the rejected one have
    stored. *)
Theorem main_rejects_command_line st a0 rest code text fl :
  osArgs st = a0 :: rest ->
  rejection lib (flag_parse lib rest (flags st) []) = Some (code, text, fl) ->
  exists st' evs,
    main lib os st = (Stop (Exit code), st') /\
    flags st' = fl /\ environ st' = environ st /\ files st' = files st /\
    trace st' = (trace st ++ evs)%list /\
    select not_stdout evs = [Chdir (filepath_Dir lib a0); Stderr text].
Proof.
  destruct st as [fl0 dbg sd args env fs c tr]. cbn [osArgs flags].
  intros -> Hr. unfold main, banner, setupRun. mrun. cbn [nth_error tl].
  destruct (flag_parse lib rest fl0 []) as [fl' act pos | fl' | fl' msg]; cbn in Hr;
    [discriminate Hr | |]; injection Hr as <- <- <-; mrun.
  all: rewrite <- !app_assoc; cbn [app].
  all: do 2 eexists; repeat split; reflexivity.
Qed.

(** X12. What [setupRun] leaves in the flags when the command line is
    accepted: the parsed values, with the interpreter-debug flag also set
    when, on Windows, the name of the executable contains "debug".  So on
    Windows an executable of such a name cannot be run with the flag off,
    and on every other platform the name plays no part.  Nothing else
    happens but the change of directory. *)
Theorem setupRun_debug_inference st a0 rest fl actual positional :
  osArgs st = a0 :: rest ->
  flag_parse lib rest (flags st) [] = ParseOK fl actual positional ->
  setupRun lib st =
  (Ret tt,
   with_flags
     (set_debug (debug fl ||
                 (GOOS lib == "windows") &&
                 strings_Contains (filepath_Base lib a0) "debug") fl)
     (with_trace (trace st ++ [(clock st, Chdir (filepath_Dir lib a0))])%list st)).
Proof.
  destruct st as [fl0 dbg sd args env fs c tr]. cbn [osArgs flags].
  intros -> Hp. unfold setupRun. mrun. cbn [nth_error tl]. rewrite Hp. mrun.
  destruct fl as [d cd p a ip n nlc w]. cbn [debug].
  destruct d; cbn [negb andb orb]; [reflexivity |].
  destruct (GOOS lib == "windows"); mrun; reflexivity.
Qed.

Lemma await_signal_run st st' :
  await_signal os st = (Ret tt, st') ->
  exists evs, trace st' = (trace st ++ evs)%list /\
              exists sig, select is_signal evs = [Signal sig].
Proof.
  destruct st as [fl dbg sd args env fs c tr].
  unfold await_signal. mrun. destruct (os_signal os _) as [[delay sig] |]; mrun.
  - intros [= <-]. rewrite <- !app_assoc. cbn [app trace].
    eexists. split; [reflexivity |]. exists sig. reflexivity.
  - intros H. discriminate H.
Qed.

(** X13. [main] returns only after a signal.  In every run in which
    [main] returns, exactly one signal was received, the flag
    [shuttingDown] is set at the end, and interpreter-debug mode was off;
    in particular a debug run never returns from [main], it exits. *)
Theorem main_returns_after_signal st st' :
  main lib os st = (Ret tt, st') ->
  shuttingDown st' = true /\
  debug (flags st') = false /\
  exists evs sig,
    trace st' = (trace st ++ evs)%list /\
    select is_signal evs = [Signal sig].
Proof.
  unfold main. intros H.
  apply bind_inv_ret in H as ([] & s1 & H1 & H).
  apply bind_inv_ret in H as ([] & s2 & H2 & H).
  apply bind_inv_ret in H as ([c1 c2] & s3 & H3 & H).
  apply bind_inv_ret in H as ([] & s4 & H4 & H).
  cbn [fst snd] in H.
  assert (Q1 : quiet is_signal st s1) by (refine (keeps_run _ H1); unfold banner; keeps_go).
  assert (Q2 : quiet is_signal s1 s2).
  { refine (keeps_run _ H2). unfold setupRun. keeps_go. }
  assert (Q3 : quiet is_signal s2 s3 /\ same_flags_but_port s2 s3)
    by (split; refine (keeps_run _ H3); keeps_go).
  destruct Q3 as [Q3 F3].
  destruct (launch_handles lib os _ H3) as (D2 & _).
  assert (Q4 : same_flags s3 s4) by (refine (keeps_run _ H4); keeps_go).
  assert (Q5 : quiet is_signal s4 st' /\ same_flags s4 st')
    by (split; refine (keeps_run _ H); keeps_go).
  destruct Q5 as [Q5 F5].
  destruct (shutdown_sets_flag lib os c1 c2 s4) as (s5 & E5 & SD).
  rewrite E5 in H. injection H as <-.
  split; [exact SD |]. split.
  { rewrite F5, Q4. rewrite (same_flags_but_port_debug F3). exact D2. }
  assert (Q03 : quiet is_signal st s3).
  { etransitivity; [exact Q1 |]. etransitivity; [exact Q2 | exact Q3]. }
  destruct Q03 as (e3 & T3 & S3).
  destruct (await_signal_run _ H4) as (e4 & T4 & sig & S4).
  destruct Q5 as (e5 & T5 & S5').
  exists (e3 ++ e4 ++ e5)%list, sig. split.
  - rewrite T5, T4, T3, <- !app_assoc. reflexivity.
  - rewrite !select_app, S3, S4, S5'. reflexivity.
Qed.

End MainEdges.

(** ** The restart interval at its edges *)

Lemma wrap64_id z : wrap64 z = z <-> - 2 ^ 63 <= z < 2 ^ 63.
Proof.
  unfold wrap64. split.
  - intros H. pose proof (Z.mod_pos_bound (z + 2 ^ 63) (2 ^ 64) ltac:(lia)). lia.
  - intros H. rewrite Z.mod_small; lia.
Qed.

(** X14. The restart interval is a 64-bit count of nanoseconds: it is the
    number of minutes asked for exactly when that number lies between
    -153722867 and 153722867, and wraps around outside. *)
Theorem interval_range st :
  interval st = spawnInterval (flags st) * Minute <->
  -153722867 <= spawnInterval (flags st) <= 153722867.
Proof.
  unfold interval. rewrite wrap64_id. unfold Minute, Second. lia.
Qed.

Section Expired.

Variable lib : GoLib.
Variable os : OS.

Local Arguments append : simpl never.
Local Arguments String.eqb : simpl never.

Lemma execPHP_expired st :
  interval st <= 0 ->
  exists evs,
    execPHP lib os st = (Ret tt, with_trace (trace st ++ evs)%list st) /\
    map is_expired (select is_exec evs) = [true].
Proof.
  destruct st as [fl dbg sd args env fs c tr].
  unfold execPHP, interval. mrun. intros H.
  destruct (Z.leb_spec (wrap64 (spawnInterval fl * Minute)) 0) as [_ | H']; [| lia].
  mrun. rewrite <- !app_assoc. cbn [app]. eexists. split; reflexivity.
Qed.

(** X15. A restart interval of zero or less starts no interpreter at all.
    Every launch of the loop then runs into a deadline that has already
    passed: it fails at once with "context deadline exceeded", which is
    logged and not fatal, and the loop goes round again without a pause.
    After any number of rounds the clock has not moved and nothing but the
    trace has changed. *)
Theorem respawn_without_interval fuel : forall x st,
  interval st <= 0 ->
  flag_at os (shuttingDown st) (clock st) = false ->
  exists evs,
    runPHP_loop lib os fuel x st =
    (Stop OutOfFuel, with_trace (trace st ++ evs)%list st) /\
    map is_expired (select is_exec evs) = repeat true fuel.
Proof.
  induction fuel as [| n IH]; intros x st Hi Hf.
  - rewrite runPHP_loop_O, Hf. exists []. split; [| reflexivity].
    destruct st as [fl dbg sd args env fs c tr]; cbn. now rewrite app_nil_r.
  - destruct st as [fl dbg sd args env fs c tr].
    rewrite runPHP_loop_S, Hf. cbv zeta.
    set (st1 := with_trace _ _).
    destruct (execPHP_expired st1) as (e1 & E1 & X1); [exact Hi |].
    rewrite E1.
    destruct (IH "respawning" (with_trace (trace st1 ++ e1)%list st1))
      as (e2 & E2 & X2); [exact Hi | exact Hf |].
    rewrite E2. eexists. split.
    + subst st1. cbn [with_trace trace]. rewrite <- !app_assoc.
      reflexivity.
    + cbn [app]. unfold select in *. cbn [map filter is_exec snd].
      rewrite map_app, filter_app, map_app, X1, X2. reflexivity.
Qed.

End Expired.

(** ** What the port check announces *)

Section Announce.

Variable os : OS.

Local Arguments append : simpl never.
Local Arguments String.eqb : simpl never.

(** X16. With the wildcard address, a free service port that cannot be
    bound: when the alternate port differs and can be bound, the port flag
    is switched and nothing announces it; the last thing printed is the
    test's own line for the alternate port.  When the port is not
    switched, because the alternate is the same port or cannot be bound
    either, the check prints "switching to alternate port" with the
    service port in it, and goes on with the service port. *)
Theorem runCaddy_probe_announcement st st1 st2 :
  ipspec (flags st) = "*" ->
  rawPortAvail os (port (flags st)) st = (Ret true, st1) ->
  testWebPort os (port (flags st)) st1 = (Ret false, st2) ->
  (forall st3,
     port (flags st) <> alternateWebPort (flags st) ->
     testWebPort os (alternateWebPort (flags st)) st2 = (Ret true, st3) ->
     runCaddy_probe os st =
     (Ret true, with_flags (set_port (alternateWebPort (flags st)) (flags st)) st3)) /\
  (forall st3,
     port (flags st) = alternateWebPort (flags st) /\ st3 = st2 \/
     port (flags st) <> alternateWebPort (flags st) /\
     testWebPort os (alternateWebPort (flags st)) st2 = (Ret false, st3) ->
     runCaddy_probe os st =
     (Ret true,
      with_trace
        (trace st3 ++
         [(clock st3,
           Stdout (os_timestamp os (trace st3) ++
                   " switching to alternate port " ++ port (flags st) ++ nl))])%list
        st3)).
Proof.
  intros Hip Hraw Ht1.
  destruct (keeps_run (rawPortAvail_only_trace _ _) Hraw) as [e1 ->].
  destruct (keeps_run (testWebPort_only_trace _ _) Ht1) as [e2 ->].
  destruct st as [[d cd p a ip n nlc w] dbg sd args env fs c tr].
  cbn [flags ipspec port alternateWebPort] in *. subst ip.
  split; intros st3.
  - intros Hne Ht2.
    destruct (keeps_run (testWebPort_only_trace _ _) Ht2) as [e3 ->].
    unfold runCaddy_probe. msimpl. change ("*" == "*") with true. msimpl.
    rewrite Hraw. msimpl. rewrite Ht1. msimpl.
    apply String.eqb_neq in Hne. rewrite Hne. msimpl. rewrite Ht2. msimpl.
    reflexivity.
  - intros [[Heq ->] | [Hne Ht2]].
    + unfold runCaddy_probe. msimpl. change ("*" == "*") with true. msimpl.
      rewrite Hraw. msimpl. rewrite Ht1. msimpl.
      subst a. rewrite String.eqb_refl. mrun. rewrite !append_assoc. reflexivity.
    + destruct (keeps_run (testWebPort_only_trace _ _) Ht2) as [e3 ->].
      unfold runCaddy_probe. msimpl. change ("*" == "*") with true. msimpl.
      rewrite Hraw. msimpl. rewrite Ht1. msimpl.
      apply String.eqb_neq in Hne. rewrite Hne. msimpl. rewrite Ht2. mrun.
      rewrite !append_assoc. reflexivity.
Qed.

End Announce.

(** ** The whole process *)

Section Process.

Variable lib : GoLib.
Variable os : OS.

Local Arguments append : simpl never.
Local Arguments String.eqb : simpl never.

(** X17. Only a signal shuts anything down.  In every run in which [main]
    does not return, whether it ends by a fatal error, by the exit of
    debug mode or by a rejected command line, or waits for ever, nothing
    of the shutdown has happened: the flag was not stored and the
    webserver's stop command was not issued.  A webserver started before
    a fatal error is left running. *)
Theorem no_cleanup_without_signal st h st' :
  main lib os st = (Stop h, st') ->
  quiet is_shutdown_step st st'.
Proof.
  unfold main. intros H.
  apply bind_inv in H as [(h1 & H1 & _) | ([] & s1 & H1 & H)];
    [refine (keeps_run _ H1); unfold banner; keeps_go |].
  assert (Q1 : quiet is_shutdown_step st s1)
    by (refine (keeps_run _ H1); unfold banner; keeps_go).
  assert (K2 : keeps (quiet is_shutdown_step) (setupRun lib))
    by (unfold setupRun; keeps_go).
  apply bind_inv in H as [(h2 & H2 & _) | ([] & s2 & H2 & H)];
    [etransitivity; [exact Q1 | exact (keeps_run K2 H2)] |].
  assert (Q2 : quiet is_shutdown_step st s2)
    by (etransitivity; [exact Q1 | exact (keeps_run K2 H2)]).
  pose proof (launch_quiet_shutdown lib os) as K3.
  apply bind_inv in H as [(h3 & H3 & _) | ([c1 c2] & s3 & H3 & H)];
    [etransitivity; [exact Q2 | exact (keeps_run K3 H3)] |].
  assert (Q3 : quiet is_shutdown_step st s3)
    by (etransitivity; [exact Q2 | exact (keeps_run K3 H3)]).
  assert (K4 : keeps (quiet is_shutdown_step) (await_signal os)) by keeps_go.
  apply bind_inv in H as [(h4 & H4 & _) | ([] & s4 & H4 & H)];
    [etransitivity; [exact Q3 | exact (keeps_run K4 H4)] |].
  cbn [fst snd] in H.
  destruct (shutdown_sets_flag lib os c1 c2 s4) as (s5 & E5 & _).
  rewrite E5 in H. discriminate H.
Qed.

Lemma program_debug_prefix st a0 rest fl actual positional :
  known_platform lib = true ->
  osArgs st = a0 :: rest ->
  flag_parse lib rest (flags st) [] = ParseOK fl actual positional ->
  debug fl = true ->
  exists s2,
    (init lib;; banner;; setupRun lib) st = (Ret tt, s2) /\
    debug (flags s2) = true /\ phpdbg s2 <> "" /\
    quiet is_serving st s2 /\ files s2 = files st.
Proof.
  destruct st as [fl0 dbg sd args env fs c tr]. cbn [osArgs flags].
  intros Hk -> Hp Hd. unfold known_platform in Hk.
  unfold init, banner, setupRun.
  destruct (GOOS lib == "darwin") eqn:E1;
    [| destruct (GOOS lib == "linux") eqn:E2;
       [| destruct (GOOS lib == "windows") eqn:E3; [| discriminate Hk]]].
  all: mrun; cbn [nth_error tl]; rewrite Hp; mrun; rewrite Hd; cbn [negb andb]; mrun.
  all: eexists; split; [reflexivity |].
  all: cbv beta iota; split; [exact Hd |]; split; [discriminate |].
  all: split; [| reflexivity].
  all: unfold quiet; cbv beta iota; rewrite <- ?app_assoc; cbn [app].
  all: eexists; split; reflexivity.
Qed.

(** X18. Debug mode, from the start of the process.  On the platforms
    [init] knows (darwin, linux, windows) it leaves an interpreter
    configured, so a command line that sets the interpreter-debug flag
    always takes the direct path: the process writes no webserver
    configuration and starts neither the webserver nor a goroutine, it
    never waits for a signal, and it ends with exit status 0, or 1 when the
    interpreter or the fetch utility cannot be started. *)
Theorem program_debug_mode st a0 rest fl actual positional :
  known_platform lib = true ->
  osArgs st = a0 :: rest ->
  flag_parse lib rest (flags st) [] = ParseOK fl actual positional ->
  debug fl = true ->
  let r := program lib os st in
  (forall v, fst r <> Ret v) /\
  (forall h, fst r = Stop h -> exit_or_nil h) /\
  quiet is_serving st (snd r) /\
  files (snd r) = files st.
Proof.
  intros Hk Ha Hp Hd r.
  destruct (program_debug_prefix _ Hk Ha Hp Hd) as (s2 & E & D2 & P2 & Q2 & F2).
  assert (Er : r = (handles <- launch lib os; await_signal os;;
                    shutdown lib os (fst handles) (snd handles)) s2).
  { subst r. unfold program, main.
    apply bind_inv_ret in E as ([] & sa & Ea & E).
    apply bind_inv_ret in E as ([] & sb & Eb & E).
    rewrite bind_run, Ea, bind_run, Eb, bind_run, E. reflexivity. }
  rewrite Er, bind_run.
  destruct (launch_debug_run lib os s2 D2 P2) as (R1 & R2 & R3 & _ & R5).
  destruct (launch lib os s2) as [[v | h] s3]; cbn [fst snd] in *.
  - destruct (R1 v eq_refl).
  - split; [intros v Hv; discriminate Hv |].
    split; [intros h0 [= <-]; now apply R2 |].
    split; [etransitivity; [exact Q2 | exact R3] | congruence].
Qed.

End Process.

(** ** Exit statuses and the command line *)

Ltac stops_status :=
  repeat first
    [ lazymatch goal with
      | |- stops_only _ (halt _) =>
          apply stops_halt; unfold exit_status_012, not_exit_2;
          first [ discriminate | exact I | auto ]
      end
    | stops_step | progress prim_unfold | progress prog_unfold ].

Section Status.

Variable lib : GoLib.
Variable os : OS.

Local Arguments append : simpl never.
Local Arguments String.eqb : simpl never.

(** X19. Where the process ends by a call of [os.Exit], made by the
    program, by [log.Fatal] or by the flag package, the status is 0, 1 or
    2, and it is 2 only for a command line that was not accepted: a run
    that exits with status 2 has launched no child. *)
Theorem program_exit_status st code :
  fst (program lib os st) = Stop (Exit code) ->
  (code = 0 \/ code = 1 \/ code = 2) /\
  (code = 2 -> quiet is_exec st (snd (program lib os st))).
Proof.
  intros H. split.
  - assert (K : stops_only exit_status_012 (program lib os)).
    { unfold program, main, banner, setupRun. stops_status. }
    exact (K st _ H).
  - intros ->. unfold program, main in *.
    destruct ((init lib;; banner;; setupRun lib;; handles <- launch lib os;
               await_signal os;; shutdown lib os (fst handles) (snd handles)) st)
      as [o st'] eqn:E.
    cbn [fst snd] in *. subst o.
    apply bind_inv in E as [(h1 & E1 & _) | ([] & s1 & E1 & E)];
      [refine (keeps_run _ E1); keeps_go |].
    assert (Q1 : quiet is_exec st s1) by (refine (keeps_run _ E1); keeps_go).
    apply bind_inv in E as [(h2 & E2 & _) | ([] & s2 & E2 & E)];
      [etransitivity; [exact Q1 |]; refine (keeps_run _ E2); unfold banner; keeps_go |].
    assert (Q2 : quiet is_exec st s2).
    { etransitivity; [exact Q1 |]. refine (keeps_run _ E2). unfold banner. keeps_go. }
    apply bind_inv in E as [(h3 & E3 & _) | ([] & s3 & E3 & E)];
      [etransitivity; [exact Q2 |]; refine (keeps_run _ E3); unfold setupRun; keeps_go |].
    exfalso.
    refine (stops_run (P := not_exit_2) _ E eq_refl). stops_status.
Qed.

(** X20. How the declared flags read the command line.  A boolean flag
    ([-debug], [-cdebug], [-nolocal], [-watch]) stands alone: it is set to
    true and the argument after it is not its value, so an argument such
    as "false" after it ends the flags and leaves the flag set.  A flag
    with a value ([-port], [-altport], [-ip], [-respawn]) takes the next
    argument as its value whatever that argument looks like, exactly as if
    it had been written with an equals sign. *)
Theorem command_line_forms name :
  (formal name = Some BoolFlag ->
   forall rest fl actual,
     exists fl',
       flag_Set lib name "true" fl = Some fl' /\
       flag_parse lib (("-" ++ name) :: rest) fl actual
       = flag_parse lib rest fl' (name :: actual) /\
       flag_parse lib (("-" ++ name) :: "false" :: rest) fl actual
       = ParseOK fl' (name :: actual) ("false" :: rest)) /\
  (formal name = Some StringFlag \/ formal name = Some IntFlag ->
   forall v rest fl actual,
     flag_parse lib (("-" ++ name) :: v :: rest) fl actual
     = flag_parse lib (("-" ++ name ++ "=" ++ v) :: rest) fl actual).
Proof.
  assert (N : forall k, formal name = Some k ->
              name = "debug" \/ name = "cdebug" \/ name = "port" \/ name = "altport" \/
              name = "ip" \/ name = "respawn" \/ name = "nolocal" \/ name = "watch").
  { unfold formal. intros k.
    repeat match goal with
           | |- context [String.eqb name ?s] =>
               destruct (String.eqb_spec name s); [tauto |]
           end.
    intros H; discriminate H. }
  split.
  - intros H rest fl actual.
    destruct (N _ H) as [-> | [-> | [-> | [-> | [-> | [-> | [-> | ->]]]]]]];
      try (vm_compute in H; discriminate H).
    all: eexists; split; [reflexivity |]; split; reflexivity.
  - intros H v rest fl actual.
    assert (H' : exists k, formal name = Some k /\ k <> BoolFlag)
      by (destruct H as [H | H]; eexists; (split; [exact H | discriminate])).
    destruct H' as (k & Hk & Hb).
    destruct (N _ Hk) as [-> | [-> | [-> | [-> | [-> | [-> | [-> | ->]]]]]]];
      try (vm_compute in Hk; injection Hk as <-; now destruct Hb).
    all: reflexivity.
Qed.

End Status.

(** ** The goroutines *)

Section Goroutines.

Variable lib : GoLib.
Variable os : OS.

Local Arguments append : simpl never.
Local Arguments String.eqb : simpl never.

(** X21. The goroutines of a run that gets to the wait for a signal.  The
    respawn goroutine is started exactly once, after [runCaddy] has
    returned and whether or not it returned a handle, so also when the
    service port was found already served; the watch goroutine is started
    after it, exactly when [-watch] is set.  No other goroutine is
    started. *)
Theorem launch_goroutines st c1 c2 st' :
  launch lib os st = (Ret (c1, c2), st') ->
  exists evs ip,
    trace st' = (trace st ++ evs)%list /\
    select is_go evs =
    Go "runPHP" :: (if ipWatch (flags st) then [Go ("monitorIP " ++ ip)] else []).
Proof.
  intros H. destruct (launch_handles lib os _ H) as (D & _).
  rewrite launch_eq, D in H. cbn [andb] in H.
  apply bind_inv_ret in H as (ip & s1 & H1 & H).
  assert (Q1 : quiet is_go st s1)
    by (refine (keeps_run _ H1); destruct (ipWatch _); keeps_go).
  apply bind_inv_ret in H as (cc & s2 & H2 & H).
  apply bind_inv_ret in H2 as (c & sa & Ha & H2).
  assert (Qa : quiet is_go s1 sa) by (refine (keeps_run _ Ha); keeps_go).
  apply bind_inv_ret in H2 as ([] & sb & Hb & H2).
  injection H2 as <- <-.
  unfold emit, modify in Hb. injection Hb as <-.
  apply bind_inv_ret in H as (ce & s3 & H3 & H).
  match type of H3 with _ ?s = _ =>
    assert (Q3 : quiet is_go s s3) by (refine (keeps_run _ H3); keeps_go)
  end.
  apply bind_inv_ret in H as ([] & s4 & H4 & H).
  assert (Q4 : quiet is_go s3 s4)
    by (refine (keeps_run _ H4); destruct (negb _); keeps_go).
  destruct Q1 as (e1 & T1 & S1). destruct Qa as (ea & Ta & Sa).
  destruct Q3 as (e3 & T3 & S3). destruct Q4 as (e4 & T4 & S4).
  cbn [trace with_trace] in T3.
  exists (e1 ++ ea ++ [(clock sa, Go "runPHP")] ++ e3 ++ e4 ++
          (if ipWatch (flags st)
           then [(clock s4, Go ("monitorIP " ++ ip))] else []))%list, ip.
  split.
  - destruct (ipWatch (flags st)); cbn [when] in H.
    + unfold bind, emit, modify, ret in H. injection H as _ _ <-.
      cbn [trace with_trace]. rewrite T4, T3, Ta, T1, <- !app_assoc. reflexivity.
    + unfold bind, ret in H. injection H as _ _ <-.
      rewrite T4, T3, Ta, T1, <- !app_assoc, app_nil_r. reflexivity.
  - rewrite !select_app, S1, Sa, S3, S4.
    destruct (ipWatch (flags st)); reflexivity.
Qed.

End Goroutines.

(** * Examples: the theorems at concrete inputs, and the inputs on which a
    claim of the specification fails *)

Example flag_parse_example :
  flag_parse linux ["-port"; "8080"; "--respawn=5"; "-nolocal"; "x"] default_flags [] =
  ParseOK (set_nolocal true (set_spawnInterval 5 (set_port "8080" default_flags)))
          ["nolocal"; "respawn"; "port"] ["x"].
Proof. reflexivity. Qed.

Example program_debug_no_path_exits_0 :
  fst (program freebsd os_free (initial_state ["runsm"; "-debug"] [])) = Stop (Exit 0).
Proof. reflexivity. Qed.

Example runCaddy_falls_back :
  port (flags (snd (runCaddy linux os_privileged st_wildcard))) = "2015".
Proof. reflexivity. Qed.

(** ** C1 *)

Lemma runCaddy_port_resolution_witness :
  (port (flags (snd (runCaddy linux os_privileged st_wildcard))) = "2015" /\
   files (snd (runCaddy linux os_privileged st_wildcard)) (caddyfile_path linux)
   = Some (caddyfile linux false "*" "2015")) /\
  (port (flags (snd (runCaddy linux os_free st_wildcard))) = "80" /\
   files (snd (runCaddy linux os_free st_wildcard)) (caddyfile_path linux)
   = Some (caddyfile linux false "*" "80")).
Proof.
  split.
  - destruct (proj1 (runCaddy_port_resolution linux os_privileged st_wildcard
                       (st1 := snd (rawPortAvail os_privileged "80" st_wildcard))
                       eq_refl eq_refl)
                (snd (testWebPort os_privileged "80"
                        (snd (rawPortAvail os_privileged "80" st_wildcard))))
                (snd (testWebPort os_privileged "2015"
                        (snd (testWebPort os_privileged "80"
                                (snd (rawPortAvail os_privileged "80" st_wildcard))))))
                eq_refl eq_refl)
      as [Hp [(evs & log & t & e & _ & C & _) | Hf]].
    + discriminate C.
    + split; [exact Hp | exact Hf].
  - destruct (proj2 (runCaddy_port_resolution linux os_free st_wildcard
                       (st1 := snd (rawPortAvail os_free "80" st_wildcard))
                       eq_refl eq_refl)
                (snd (testWebPort os_free "80"
                        (snd (rawPortAvail os_free "80" st_wildcard))))
                eq_refl)
      as [Hp [(evs & log & t & e & _ & C & _) | Hf]].
    + discriminate C.
    + split; [exact Hp | exact Hf].
Defined.

(** ** C2 *)

(** The claim fails when the interpreter exits early: it exits half an
    hour after every launch, the interval is an hour, the flag is never
    set, and the first hour sees two launches. *)
Lemma respawn_two_launches_in_one_interval :
  flag_at os_crashing false (clock (snd crashing_run)) = false /\
  interval st_default = 60 * Minute /\
  launch_times (trace (snd crashing_run)) = [0; 30 * Minute; 60 * Minute; 90 * Minute] /\
  ~ one_launch_per_interval (interval st_default) 0 (clock (snd crashing_run))
      (launch_times (trace (snd crashing_run))).
Proof.
  repeat split; try reflexivity.
  intros H. specialize (H 0%nat). vm_compute in H.
  assert (E : 2%nat = 1%nat) by (apply H; discriminate).
  discriminate E.
Qed.

Lemma respawn_schedule_witness :
  one_launch_per_interval (60 * Minute) 0
    (clock (snd (runPHP_loop linux os_free 3 "spawning" st_default)))
    (launch_times (trace (snd (runPHP_loop linux os_free 3 "spawning" st_default)))).
Proof.
  destruct (respawn_schedule linux os_free 3 "spawning" st_default)
    as (evs & Et & _ & _ & _ & _ & H).
  change (trace st_default) with (@nil (Z * Event)) in Et. cbn [app] in Et.
  rewrite Et.
  apply H; [reflexivity | intros tr; reflexivity].
Defined.

(** ** C3 *)

Lemma runPHP_port_occupied_witness :
  exists ts,
    runPHP linux os_occupied 3 st_default =
    (Ret tt,
     with_trace
       (trace st_default ++
        [(clock st_default, Dial "tcp" "localhost:9000" true);
         (clock st_default, ConnClose "localhost:9000");
         (clock st_default, Stdout (ts ++ " PHP [9000] already listening" ++ nl))])%list
       st_default) /\
    quiet is_exec st_default (snd (runPHP linux os_occupied 3 st_default)).
Proof.
  exact (runPHP_port_occupied linux os_occupied 3 st_default (conn := "127.0.0.1") eq_refl).
Defined.

(** ** C4 *)

Lemma shutdown_order_witness :
  exists st', main linux os_free st_boot = (Ret tt, st') /\ shuttingDown st' = true.
Proof.
  assert (H1 : (banner;; setupRun linux) st_boot = (Ret tt, st_parsed))
    by (vm_compute; reflexivity).
  assert (H2 : launch linux os_free st_parsed =
               (Ret (Some (cancelCtx "Background"), Some (cancelCtx "TODO")), st_waiting))
    by (vm_compute; reflexivity).
  assert (H3 : os_signal os_free (trace st_waiting ++ [(clock st_waiting, Notify)])%list =
               Some (90 * Minute, "interrupt"))
    by reflexivity.
  destruct (@shutdown_order _ _ _ _ _ _ _ _ _ H1 H2 H3)
    as (_ & _ & _ & st' & evs & t1 & t2 & t3 & t4 & t5 & t6 & err & Hm & Hs & _).
  exists st'. split; [exact Hm | exact Hs].
Defined.

(** ** C5 *)

(** The claim fails in [runCaddy]: port 80 cannot be bound, and the port
    flag holds "2015" afterwards. *)
Lemma runCaddy_overwrites_port :
  port (flags st_wildcard) = "80" /\
  port (flags (snd (runCaddy linux os_privileged st_wildcard))) = "2015" /\
  ~ same_flags st_wildcard (snd (runCaddy linux os_privileged st_wildcard)).
Proof.
  split; [reflexivity |]. split; [reflexivity |].
  unfold same_flags. intros H.
  apply (f_equal port) in H. vm_compute in H. discriminate H.
Qed.

(** ** C6 *)

(** The claim fails for the bind address: with no flag on the command
    line it is empty, not "*". *)
Lemma default_bind_address_is_empty :
  fst (setupRun linux st_default) = Ret tt /\
  ipspec (flags (snd (setupRun linux st_default))) = "" /\
  ipspec (flags (snd (setupRun linux st_default))) <> "*".
Proof.
  split; [reflexivity |]. split; [reflexivity |].
  vm_compute. discriminate.
Qed.

Lemma documented_defaults_witness :
  ipspec (flags (snd (setupRun windows (initial_state ["runsm-debug.exe"; "-port"; "8080"] [])))) = "" /\
  debug (flags (snd (setupRun windows (initial_state ["runsm-debug.exe"; "-port"; "8080"] [])))) = true.
Proof.
  destruct (documented_defaults windows
              (initial_state ["runsm-debug.exe"; "-port"; "8080"] [])
              (a0 := "runsm-debug.exe") (args := ["-port"; "8080"])
              (fl := set_port "8080" default_flags) (actual := ["port"]) (rest := [])
              eq_refl eq_refl eq_refl)
    as (_ & Hip & _ & _ & _ & _ & _ & _ & Hd).
  split.
  - apply Hip. intros [E | []]. discriminate E.
  - rewrite Hd; [reflexivity |]. intros [E | []]. discriminate E.
Defined.

(** ** C7 *)

(** The claim fails in [runPHP]: the variable is set in the supervisor's
    own environment, and the [caddy stop] launched afterwards inherits
    it. *)
Lemma runPHP_changes_process_environment :
  environ st_default = [] /\
  environ (snd (runPHP linux os_free 1 st_default)) = [(PHP_FCGI_MAX_REQUESTS, "0")] /\
  exec_envs (trace (snd (killCaddy linux os_free st_default))) = [[]] /\
  exec_envs (trace (snd (killCaddy linux os_free
                           (with_trace [] (snd (runPHP linux os_free 1 st_default))))))
  = [[(PHP_FCGI_MAX_REQUESTS, "0")]] /\
  ~ same_environ st_default (snd (runPHP linux os_free 1 st_default)).
Proof.
  repeat split; try reflexivity.
  unfold same_environ. vm_compute. discriminate.
Qed.

Lemma request_count_override_scope_witness :
  environ (snd (runPHP linux os_free 2 st_default)) =
  setenv PHP_FCGI_MAX_REQUESTS "0" (environ st_default).
Proof.
  exact (proj1 (proj1 (proj2 (request_count_override_scope linux os_free))
                  2%nat st_default (snd (rawPortAvail os_free "9000" st_default))
                  eq_refl)).
Defined.

(** ** C9 *)

Lemma equal_ports_no_fallback_witness :
  flags (snd (runCaddy linux (example_os [] [":2015"] healthy_children None None) st_equal_ports))
  = flags st_equal_ports /\
  serves_on linux (example_os [] [":2015"] healthy_children None None) st_equal_ports
    (runCaddy linux (example_os [] [":2015"] healthy_children None None) st_equal_ports)
    "2015".
Proof.
  pose proof (equal_ports_no_fallback linux
                (example_os [] [":2015"] healthy_children None None)
                st_equal_ports eq_refl) as [H1 H2].
  split; [exact H1 |].
  exact (proj1 (H2 (snd (rawPortAvail (example_os [] [":2015"] healthy_children None None)
                           "2015" st_equal_ports))
                   (snd (testWebPort (example_os [] [":2015"] healthy_children None None)
                           "2015"
                           (snd (rawPortAvail (example_os [] [":2015"] healthy_children None None)
                                   "2015" st_equal_ports))))
                   eq_refl eq_refl eq_refl)).
Defined.

(** ** C10 *)


(** ** The further properties at concrete inputs *)

Lemma runCaddy_port_served_witness :
  exists ts,
    runCaddy linux os_served st_wildcard =
    (Ret None,
     with_trace
       (trace st_wildcard ++
        [(clock st_wildcard, Dial "tcp" "localhost:80" true);
         (clock st_wildcard, ConnClose "localhost:80");
         (clock st_wildcard, Stdout (ts ++ " service port 80 already served" ++ nl))])%list
       st_wildcard).
Proof.
  exact (runCaddy_port_served linux os_served st_wildcard (conn := "127.0.0.1")
           eq_refl eq_refl).
Defined.

Lemma runCaddy_fixed_address_witness :
  quiet is_probe st_default (snd (runCaddy linux os_free st_default)) /\
  flags (snd (runCaddy linux os_free st_default)) = flags st_default /\
  files (snd (runCaddy linux os_free st_default)) (caddyfile_path linux)
  = Some (caddyfile linux false EmptyString "80").
Proof.
  assert (H : ipspec (flags st_default) <> "*") by (vm_compute; discriminate).
  destruct (runCaddy_fixed_address linux os_free st_default H)
    as (Q & F & _ & [(evs & log & t & e & _ & C & _) | Hf]).
  - discriminate C.
  - split; [exact Q |]. split; [exact F | exact Hf].
Defined.

Lemma monitorIP_stable_address_witness :
  exists st' evs ts,
    monitorIP os_stable 3 "10.0.0.1" st_default = (Stop OutOfFuel, st') /\
    trace st' = (trace st_default ++ evs)%list /\
    select is_stdout evs = [Stdout (ts ++ " IPv4 = 127.0.0.1" ++ nl)].
Proof.
  exact (@monitorIP_stable_address os_stable "127.0.0.1" (fun _ => eq_refl)
           3%nat "10.0.0.1" st_default).
Defined.

Lemma launch_debug_mode_witness :
  exists evs,
    trace (snd (launch linux os_free st_debug_linux)) = (trace st_debug_linux ++ evs)%list /\
    select is_exec evs =
      [Exec StartOnly (debug_argv linux st_debug_linux)
         [(PHP_FCGI_MAX_REQUESTS, "0")] 0 None;
       Exec StartOnly ["caddy/ebcfetch"] [] 0 None] /\
    fst (launch linux os_free st_debug_linux) = Stop (Exit 0).
Proof.
  assert (H : phpdbg st_debug_linux <> "") by (vm_compute; discriminate).
  assert (E : fst (launch linux os_free st_debug_linux) = Stop (Exit 0))
    by (vm_compute; reflexivity).
  destruct (launch_debug_mode linux os_free st_debug_linux eq_refl H)
    as (_ & _ & _ & _ & _ & [[P _] | (evs & [e |] & T & M)] & _).
  - rewrite E in P. discriminate P.
  - destruct M as [_ M]. rewrite E in M. discriminate M.
  - destruct M as ([e' |] & S & M).
    + rewrite E in M. discriminate M.
    + exists evs. split; [exact T |]. split; [exact S | exact E].
Defined.

Lemma launch_without_watch_witness :
  quiet is_watch st_default (snd (launch linux os_free st_default)).
Proof. exact (launch_without_watch linux os_free st_default eq_refl). Defined.

Lemma launch_invitation_witness :
  (exists evs,
     trace (snd (launch linux os_free st_default)) = (trace st_default ++ evs)%list /\
     select is_openurl evs = [OpenURL "http://localhost:80"]) /\
  (exists evs,
     fst (launch linux os_no_fetch st_default) = Stop (Exit 1) /\
     trace (snd (launch linux os_no_fetch st_default)) = (trace st_default ++ evs)%list /\
     select is_openurl evs = []).
Proof.
  split.
  - destruct (launch_invitation linux os_free st_default) as (evs & T & _ & _ & H & _).
    exists evs. split; [exact T |].
    assert (E : fst (launch linux os_free st_default)
                = Ret (Some (cancelCtx "Background"), Some (cancelCtx "TODO")))
      by (vm_compute; reflexivity).
    assert (U : invite_url (snd (launch linux os_free st_default)) = "http://localhost:80")
      by (vm_compute; reflexivity).
    rewrite <- U. apply H; [reflexivity |]. left. eexists. exact E.
  - destruct (launch_invitation linux os_no_fetch st_default) as (evs & T & _ & _ & _ & H).
    assert (E : fst (launch linux os_no_fetch st_default) = Stop (Exit 1))
      by (vm_compute; reflexivity).
    exists evs. split; [exact E |]. split; [exact T |].
    apply (H (Exit 1) E). discriminate.
Defined.

Lemma main_rejects_command_line_witness :
  exists st', main linux os_free st_bogus = (Stop (Exit 2), st') /\
              port (flags st') = "8080".
Proof.
  destruct (main_rejects_command_line linux os_free st_bogus
              (a0 := "runsm") (rest := ["-port"; "8080"; "-bogus"]) (code := 2)
              (text := "flag provided but not defined: -bogus" ++ nl ++ flag_Usage linux)
              (fl := set_port "8080" default_flags)
              eq_refl eq_refl)
    as (st' & evs & E & F & _).
  exists st'. split; [exact E | now rewrite F].
Defined.

Lemma setupRun_debug_inference_witness :
  debug (flags (snd (setupRun windows
                       (initial_state ["\sm\runsm-debug.exe"; "-debug=false"] [])))) = true /\
  debug (flags (snd (setupRun linux
                       (initial_state ["/sm/runsm-debug"; "-debug=false"] [])))) = false.
Proof.
  split.
  - rewrite (setupRun_debug_inference windows
               (initial_state ["\sm\runsm-debug.exe"; "-debug=false"] [])
               (a0 := "\sm\runsm-debug.exe") (rest := ["-debug=false"])
               (fl := default_flags) (actual := ["debug"]) (positional := [])
               eq_refl eq_refl).
    reflexivity.
  - rewrite (setupRun_debug_inference linux
               (initial_state ["/sm/runsm-debug"; "-debug=false"] [])
               (a0 := "/sm/runsm-debug") (rest := ["-debug=false"])
               (fl := default_flags) (actual := ["debug"]) (positional := [])
               eq_refl eq_refl).
    reflexivity.
Defined.

Lemma main_returns_after_signal_witness :
  shuttingDown (snd (main linux os_free st_boot)) = true /\
  debug (flags (snd (main linux os_free st_boot))) = false.
Proof.
  assert (H : main linux os_free st_boot = (Ret tt, snd (main linux os_free st_boot)))
    by (vm_compute; reflexivity).
  destruct (main_returns_after_signal linux os_free st_boot H) as (S & D & _).
  split; [exact S | exact D].
Defined.

Lemma interval_range_witness : interval st_default = 60 * Minute.
Proof. apply (proj2 (interval_range st_default)). vm_compute. split; discriminate. Defined.

Lemma respawn_without_interval_witness :
  exists evs,
    runPHP_loop linux os_free 3 "spawning" st_no_interval =
    (Stop OutOfFuel, with_trace (trace st_no_interval ++ evs)%list st_no_interval) /\
    map is_expired (select is_exec evs) = [true; true; true].
Proof.
  apply (respawn_without_interval linux os_free 3 "spawning" st_no_interval).
  - vm_compute. discriminate.
  - reflexivity.
Defined.

Lemma runCaddy_probe_announcement_witness :
  port (flags (snd (runCaddy_probe os_privileged st_wildcard))) = "2015".
Proof.
  rewrite (proj1 (runCaddy_probe_announcement os_privileged st_wildcard
                    (st1 := snd (rawPortAvail os_privileged "80" st_wildcard))
                    (st2 := snd (testWebPort os_privileged "80"
                                   (snd (rawPortAvail os_privileged "80" st_wildcard))))
                    eq_refl eq_refl eq_refl)
             (snd (testWebPort os_privileged "2015"
                     (snd (testWebPort os_privileged "80"
                             (snd (rawPortAvail os_privileged "80" st_wildcard))))))
             ltac:(vm_compute; discriminate) eq_refl).
  reflexivity.
Defined.

Lemma no_cleanup_without_signal_witness :
  quiet is_shutdown_step st_boot (snd (main linux os_occupied st_boot)).
Proof.
  assert (H : main linux os_occupied st_boot
              = (Stop Blocked, snd (main linux os_occupied st_boot)))
    by (vm_compute; reflexivity).
  exact (no_cleanup_without_signal linux os_occupied st_boot H).
Defined.

Lemma program_debug_mode_witness :
  quiet is_serving (initial_state ["runsm"; "-debug"] [])
    (snd (program linux os_free (initial_state ["runsm"; "-debug"] []))).
Proof.
  destruct (program_debug_mode linux os_free (initial_state ["runsm"; "-debug"] [])
              (a0 := "runsm") (rest := ["-debug"])
              (fl := set_debug true default_flags)
              (actual := ["debug"]) (positional := [])
              eq_refl eq_refl eq_refl eq_refl)
    as (_ & _ & Q & _).
  exact Q.
Defined.

Lemma program_exit_status_witness :
  quiet is_exec st_bogus (snd (program linux os_free st_bogus)).
Proof.
  assert (H : fst (program linux os_free st_bogus) = Stop (Exit 2))
    by (vm_compute; reflexivity).
  exact (proj2 (program_exit_status linux os_free st_bogus H) eq_refl).
Defined.

Lemma command_line_forms_witness :
  flag_parse linux ["-debug"; "false"; "-port"; "8080"] default_flags [] =
  ParseOK (set_debug true default_flags) ["debug"] ["false"; "-port"; "8080"] /\
  flag_parse linux ["-port"; "-debug"] default_flags [] =
  flag_parse linux ["-port=-debug"] default_flags [].
Proof.
  split.
  - destruct (proj1 (command_line_forms linux "debug") eq_refl
                ["-port"; "8080"] default_flags [])
      as (fl' & E & _ & H).
    injection E as <-. exact H.
  - exact (proj2 (command_line_forms linux "port") (or_introl eq_refl)
             "-debug" [] default_flags []).
Defined.

Lemma launch_goroutines_witness :
  exists evs (ip : string),
    trace st_waiting = (trace st_parsed ++ evs)%list /\
    select is_go evs = [Go "runPHP"].
Proof.
  assert (H : launch linux os_free st_parsed =
              (Ret (Some (cancelCtx "Background"), Some (cancelCtx "TODO")), st_waiting))
    by (vm_compute; reflexivity).
  exact (launch_goroutines linux os_free st_parsed H).
Defined.
